(** * Multicorn [corns/extensers/typeextenser.py]: cast functions and the
      per-property converter bindings of [TypeExtenser]

    A shallow embedding of the module (Python 2: it uses [basestring] and
    [unicode]) and the properties of it that the specification states,
    followed by further properties of the module and of [parse] of
    kalamar's [config/jsonparser.py].

    Conventions of the embedding:
    - a Python text object is a list of code points ([text]) tagged with its
      class, [str] (byte string) or [unicode];
    - Python integers are unbounded, [int] and [long] are one class here
      (PEP 237: the promotion is transparent to every operation used);
    - [float] is IEEE binary64, as [spec_float] with precision 53;
    - a raised exception is the [Raise] result; exceptions keep their
      arguments as data instead of a formatted message;
    - the builtins [int] and [float], [datetime.timedelta], the [datetime]
      constructors and [datetime.strptime] are CPython 2.7's, embedded as
      far as the module calls them;
    - the parts of the interpreter that are tables or codecs (the Unicode
      database beyond ASCII, the [unicode] builtin, NFC) are the fields of
      the class [Interpreter]. *)

From Stdlib Require Import ZArith NArith String Ascii List Bool Lia.
From Stdlib Require Import DecimalString SpecFloat.
From stdpp Require Import base option list numbers strings countable gmap.

Local Open Scope Z_scope.

(** ** Text *)

Definition text := list N.

Definition codes (s : string) : text :=
  map N_of_ascii (list_ascii_of_string s).

(** [s.replace(old, new)] for a pattern [old] of one character. *)
Definition replace (old : N) (new : text) (s : text) : text :=
  flat_map (fun c => if N.eqb c old then new else [c]) s.

(** [s.endswith(suffix)] for a suffix of one character. *)
Definition endswith (s : text) (c : N) : bool :=
  match last s with
  | Some c' => N.eqb c' c
  | None => false
  end.

(** C [isspace] in the "C" locale, which [int] and [float] use on [str]. *)
Definition is_space (c : N) : bool :=
  (N.eqb c 32 || (N.leb 9 c && N.leb c 13))%bool.

(** [Py_UNICODE_ISSPACE] on the ASCII range. *)
Definition is_unicode_space_ascii (c : N) : bool :=
  (is_space c || (N.leb 28 c && N.leb c 31))%bool.

Definition is_digit (c : N) : bool := (N.leb 48 c && N.leb c 57)%bool.

Definition is_ascii_text (s : text) : bool := forallb (fun c => N.ltb c 128) s.

Fixpoint lstrip (s : text) : text :=
  match s with
  | c :: s' => if is_space c then lstrip s' else s
  | [] => []
  end.

Fixpoint span_digits (s : text) : text * text :=
  match s with
  | c :: s' =>
      if is_digit c then let '(ds, rest) := span_digits s' in (c :: ds, rest)
      else ([], s)
  | [] => ([], [])
  end.

(** The code point of a one-character literal. *)
Definition chr (c : string) : N :=
  match codes c with
  | [n] => n
  | _ => 0%N
  end.

Definition digits_value (ds : text) : Z :=
  fold_left (fun acc c => acc * 10 + (Z.of_N c - 48)) ds 0.

(** ** Values and exceptions *)

Inductive text_kind := KStr | KUnicode.

(** [datetime.timedelta], normalised as the constructor leaves it. *)
Record timedelta := mk_timedelta {
  days : Z;
  seconds : Z;
  microseconds : Z
}.

(** An instance of [FixedOffsetTimeZone]: its two private attributes. *)
Record tzinfo := mk_tzinfo {
  __offset : timedelta;
  __name : string
}.

Record date := mk_date {
  year : Z;
  month : Z;
  day : Z
}.

Record datetime := mk_datetime {
  dt_date : date;
  hour : Z;
  minute : Z;
  second : Z;
  microsecond : Z;
  tzinfo_of : option tzinfo
}.

Inductive pyvalue :=
| VNone
| VBool (b : bool)
| VInt (n : Z)
| VFloat (f : spec_float)
| VText (k : text_kind) (s : text)
| VDate (d : date)
| VDateTime (dt : datetime).

Abbreviation VStr := (VText KStr).
Abbreviation VUnicode := (VText KUnicode).

(** A [str] literal of the source. *)
Definition str (s : string) : pyvalue := VStr (codes s).

(** The types that key the converter registry. *)
Inductive pytype :=
| t_unicode | t_bytes | t_int | t_float | t_Decimal
| t_datetime | t_date | t_bool | t_dict | t_object
| t_class (name : string).

Inductive exn :=
(** [ValueError("%s cannot be cast to %s." % (value, domain))] *)
| ValueError_cannot_cast (v : pyvalue) (domain : string)
(** [_strptime]: "time data %r does not match format %r" *)
| ValueError_time_data (data : text) (format : string)
(** [_strptime]: "unconverted data remains: %s" *)
| ValueError_unconverted (rest : text)
(** [datetime] constructors: a field out of its range *)
| ValueError_range (field : string)
(** [int]: "invalid literal for int() with base 10" *)
| ValueError_int_literal (s : text)
(** [float]: "could not convert string to float" *)
| ValueError_float_literal (s : text)
(** the decimal codec that [int] and [float] apply to [unicode] *)
| UnicodeEncodeError_decimal (s : text)
(** the default codec, ASCII, applied to a [unicode] argument *)
| UnicodeEncodeError_ascii (s : text)
| TypeError (msg : string)
| OverflowError (msg : string)
| KeyError_msg (msg : string)
| KeyError_type (key : pytype)
| KeyError_name (key : string)
| NameError (name : string)
| OtherError (cls : string) (msg : string).

Inductive result (A : Type) :=
| Ok (a : A)
| Raise (e : exn).
Arguments Ok {A} a.
Arguments Raise {A} e.

#[global] Instance result_ret : MRet result := fun A a => Ok a.
#[global] Instance result_bind : MBind result := fun A B f m =>
  match m with
  | Ok a => f a
  | Raise e => Raise e
  end.
#[global] Instance result_fmap : FMap result := fun A B f m =>
  match m with
  | Ok a => Ok (f a)
  | Raise e => Raise e
  end.

(** [try: body except: handler] with a bare [except]. *)
Definition try_except {A} (body : result A) (handler : result A) : result A :=
  match body with
  | Ok a => Ok a
  | Raise _ => handler
  end.

(** ** The interpreter's tables *)

Class Interpreter := {
  (** [Py_UNICODE_ISSPACE], consulted for code points from 128 on *)
  Py_UNICODE_ISSPACE : N -> bool;
  (** [Py_UNICODE_TODECIMAL], consulted for code points from 128 on *)
  Py_UNICODE_TODECIMAL : N -> option N;
  (** [unicode(value, encoding=e)] and [unicode(value)] *)
  builtin_unicode : pyvalue -> option string -> result text;
  (** [unicodedata.normalize("NFC", s)] *)
  unicodedata_normalize_NFC : text -> text
}.

(** ** [int] on text *)

(** [int(s)] for a [str], base 10: blanks, a sign, blanks, digits, blanks. *)
Definition int_of_str (s : text) : result Z :=
  let s1 := lstrip s in
  let '(neg, s2) :=
    match s1 with
    | 43%N :: r => (false, r)
    | 45%N :: r => (true, r)
    | _ => (false, s1)
    end in
  let '(ds, rest) := span_digits (lstrip s2) in
  match ds with
  | [] => Raise (ValueError_int_literal s)
  | _ :: _ =>
      if forallb is_space rest
      then Ok (if neg then - digits_value ds else digits_value ds)
      else Raise (ValueError_int_literal s)
  end.

Section WithInterpreter.
Context `{Interpreter}.

(** [PyUnicode_EncodeDecimal], one code point. *)
Definition encode_decimal_char (c : N) : option N :=
  if N.ltb c 128 then
    if is_unicode_space_ascii c then Some 32%N
    else if N.eqb c 0 then None else Some c
  else if Py_UNICODE_ISSPACE c then Some 32%N
  else match Py_UNICODE_TODECIMAL c with
       | Some d => Some (48 + d)%N
       | None => if N.ltb c 256 then Some c else None
       end.

Definition encode_decimal (s : text) : result text :=
  match mapM encode_decimal_char s with
  | Some s' => Ok s'
  | None => Raise (UnicodeEncodeError_decimal s)
  end.

Definition int_of_text (k : text_kind) (s : text) : result Z :=
  match k with
  | KStr => int_of_str s
  | KUnicode => s' ← encode_decimal s; int_of_str s'
  end.

End WithInterpreter.

(** ** [datetime.timedelta] and [FixedOffsetTimeZone] *)

(** [datetime.timedelta(hours=h, minutes=m)] for integers. *)
Definition timedelta_of (hours minutes : Z) : result timedelta :=
  let s := hours * 3600 + minutes * 60 in
  let d := s / 86400 in
  if ((-999999999 <=? d) && (d <=? 999999999))%bool
  then Ok (mk_timedelta d (s mod 86400) 0)
  else Raise (OverflowError "days; must have magnitude <= 999999999").

Definition total_seconds (td : timedelta) : Z :=
  days td * 86400 + seconds td.

Fixpoint zeros (n : nat) : string :=
  match n with
  | O => EmptyString
  | S n' => String "0" (zeros n')
  end.

(** ["%+0wi" % n] when [plus], ["%0wi" % n] otherwise. *)
Definition format_int (plus : bool) (width : nat) (n : Z) : string :=
  let sign := if n <? 0 then "-" else if plus then "+" else "" in
  let digits := NilZero.string_of_uint (N.to_uint (Z.abs_N n)) in
  let pad := (width - String.length sign - String.length digits)%nat in
  (sign ++ zeros pad ++ digits)%string.

Definition FixedOffsetTimeZone (offset_hours offset_minutes : Z)
  : result tzinfo :=
  offset ← timedelta_of offset_hours offset_minutes;
  Ok {| __offset := offset;
        __name := ("UTC" ++ format_int true 3 offset_hours ++ ":"
                   ++ format_int false 2 offset_minutes)%string |}.

Definition utcoffset (self : tzinfo) (_ : pyvalue) : timedelta := __offset self.

Definition tzname (self : tzinfo) (_ : pyvalue) : string := __name self.

Definition dst (self : tzinfo) (_ : pyvalue) : timedelta := mk_timedelta 0 0 0.

(** ** Calendar checks of the [datetime] constructors *)

Definition is_leap (y : Z) : bool :=
  ((y mod 4 =? 0) && (negb (y mod 100 =? 0) || (y mod 400 =? 0)))%bool.

Definition days_in_month (y m : Z) : Z :=
  if m =? 2 then (if is_leap y then 29 else 28)
  else if ((m =? 4) || (m =? 6) || (m =? 9) || (m =? 11))%bool then 30
  else 31.

(** [datetime.date(y, m, d)] *)
Definition date_of (y m d : Z) : result date :=
  if negb ((1 <=? y) && (y <=? 9999)) then Raise (ValueError_range "year")
  else if negb ((1 <=? m) && (m <=? 12)) then Raise (ValueError_range "month")
  else if negb ((1 <=? d) && (d <=? days_in_month y m))
       then Raise (ValueError_range "day")
  else Ok (mk_date y m d).

(** [datetime.datetime(y, m, d, H, M, S)], naive. *)
Definition datetime_of (y m d H M S : Z) : result datetime :=
  dte ← date_of y m d;
  if negb ((0 <=? H) && (H <=? 23)) then Raise (ValueError_range "hour")
  else if negb ((0 <=? M) && (M <=? 59)) then Raise (ValueError_range "minute")
  else if negb ((0 <=? S) && (S <=? 59)) then Raise (ValueError_range "second")
  else Ok (mk_datetime dte H M S 0 None).

(** [dt.replace(tzinfo=tz)] *)
Definition replace_tzinfo (dt : datetime) (tz : tzinfo) : datetime :=
  mk_datetime (dt_date dt) (hour dt) (minute dt) (second dt)
              (microsecond dt) (Some tz).

(** ** [_strptime]: the regular expressions of the format directives *)

Inductive regex :=
| Range (lo hi : N)
| Seq (r1 r2 : regex)
| Alt (r1 r2 : regex).

(** [re.match] as the backtracking search it is: alternatives in order,
    the continuation [k] given what was consumed and what is left. *)
Fixpoint re_match {A} (r : regex) (s : text)
    (k : text -> text -> option A) : option A :=
  match r with
  | Range lo hi =>
      match s with
      | c :: s' => if (N.leb lo c && N.leb c hi)%bool then k [c] s' else None
      | [] => None
      end
  | Seq r1 r2 =>
      re_match r1 s (fun m1 s1 =>
        re_match r2 s1 (fun m2 s2 => k (m1 ++ m2) s2))
  | Alt r1 r2 =>
      match re_match r1 s k with
      | Some a => Some a
      | None => re_match r2 s k
      end
  end.

Definition re_digit : regex := Range 48 57.
Definition re_chars (lo hi : string) : regex :=
  match codes lo, codes hi with
  | [l], [h] => Range l h
  | _, _ => Range 1 0
  end.
Definition re_char (c : string) : regex := re_chars c c.

Declare Scope regex_scope.
Delimit Scope regex_scope with re.
Infix "·" := Seq (at level 40, left associativity) : regex_scope.
Infix "|||" := Alt (at level 50, left associativity) : regex_scope.

Inductive directive := dY | dm | dd | dH | dM | dS.

(** [TimeRE.__init__]: the pattern of each directive. *)
Definition directive_regex (d : directive) : regex :=
  match d with
  | dY => (re_digit · re_digit · re_digit · re_digit)%re
  | dm => (re_char "1" · re_chars "0" "2"
           ||| re_char "0" · re_chars "1" "9"
           ||| re_chars "1" "9")%re
  | dd => (re_char "3" · re_chars "0" "1"
           ||| re_chars "1" "2" · re_digit
           ||| re_char "0" · re_chars "1" "9"
           ||| re_chars "1" "9"
           ||| re_char " " · re_chars "1" "9")%re
  | dH => (re_char "2" · re_chars "0" "3"
           ||| re_chars "0" "1" · re_digit
           ||| re_digit)%re
  | dM => (re_chars "0" "5" · re_digit ||| re_digit)%re
  | dS => (re_char "6" · re_chars "0" "1"
           ||| re_chars "0" "5" · re_digit
           ||| re_digit)%re
  end.

Definition directive_name (d : directive) : string :=
  match d with
  | dY => "%Y" | dm => "%m" | dd => "%d"
  | dH => "%H" | dM => "%M" | dS => "%S"
  end.

Definition format_string (format : list directive) : string :=
  fold_right (fun d acc => (directive_name d ++ acc)%string) EmptyString format.

(** The groups of the compiled format, matched in sequence. *)
Fixpoint match_directives {A} (format : list directive) (s : text)
    (k : list (directive * text) -> text -> option A) : option A :=
  match format with
  | [] => k [] s
  | d :: format' =>
      re_match (directive_regex d) s (fun m s1 =>
        match_directives format' s1 (fun found rest => k ((d, m) :: found) rest))
  end.

(** [format_regex.match(data_string)]: the first match, with what it left
    of the text. *)
Definition first_match (format : list directive) (t : text)
  : option (list (directive * text) * text) :=
  match_directives format t (fun found rest => Some (found, rest)).

Record time_fields := mk_fields {
  f_year : Z; f_month : Z; f_day : Z;
  f_hour : Z; f_minute : Z; f_second : Z
}.

Definition set_field (d : directive) (n : Z) (f : time_fields) : time_fields :=
  match d with
  | dY => mk_fields n (f_month f) (f_day f) (f_hour f) (f_minute f) (f_second f)
  | dm => mk_fields (f_year f) n (f_day f) (f_hour f) (f_minute f) (f_second f)
  | dd => mk_fields (f_year f) (f_month f) n (f_hour f) (f_minute f) (f_second f)
  | dH => mk_fields (f_year f) (f_month f) (f_day f) n (f_minute f) (f_second f)
  | dM => mk_fields (f_year f) (f_month f) (f_day f) (f_hour f) n (f_second f)
  | dS => mk_fields (f_year f) (f_month f) (f_day f) (f_hour f) (f_minute f) n
  end.

(** Each group found is read with [int]; the groups are [str]. *)
Fixpoint read_fields (found : list (directive * text))
    (f : time_fields) : result time_fields :=
  match found with
  | [] => Ok f
  | (d, m) :: found' =>
      n ← int_of_str m;
      read_fields found' (set_field d n f)
  end.

(** How [datetime.strptime] takes its string argument (format ["ss"]): a
    [unicode] is encoded with the default codec, ASCII, and a string with
    a NUL in it is refused. What [_strptime] gets is a [str]. *)
Definition as_c_string (k : text_kind) (s : text) : result text :=
  if match k with
     | KUnicode => negb (is_ascii_text s)
     | KStr => false
     end
  then Raise (UnicodeEncodeError_ascii s)
  else if existsb (N.eqb 0) s
  then Raise (TypeError "must be string without null bytes")
  else Ok s.

(** [datetime.datetime.strptime(data_string, format)] for a format made of
    the directives above. *)
Definition strptime (k : text_kind) (data_string : text)
    (format : list directive) : result datetime :=
  data_string ← as_c_string k data_string;
  match first_match format data_string with
  | None => Raise (ValueError_time_data data_string (format_string format))
  | Some (found, rest) =>
      match rest with
      | _ :: _ => Raise (ValueError_unconverted rest)
      | [] =>
          f ← read_fields found (mk_fields 1900 1 1 0 0 0);
          _ ← date_of (f_year f) (f_month f) (f_day f);
          datetime_of (f_year f) (f_month f) (f_day f)
                      (f_hour f) (f_minute f) (f_second f)
      end
  end.

Definition fmt_Ymd : list directive := [dY; dm; dd].
Definition fmt_YmdHMS : list directive := [dY; dm; dd; dH; dM; dS].

(** Lines 98-122. *)
Definition to_date (value : pyvalue) : result pyvalue :=
  match value with
  | VDateTime dt => Ok (VDate (dt_date dt))
  | VDate _ => Ok value
  | VText k s =>
      let value := replace (chr ":") [] (replace (chr "-") [] s) in
      dt ← strptime k value fmt_Ymd;
      Ok (VDate (dt_date dt))
  | _ => Raise (ValueError_cannot_cast value "date")
  end.

Section CastFunctions.
Context `{Interpreter}.

(** Lines 42-95. *)
Definition to_datetime (value : pyvalue) : result pyvalue :=
  match value with
  | VDateTime _ => Ok value
  | VDate d => Ok (VDateTime (mk_datetime d 0 0 0 0 None))
  | VText k s =>
      let value := replace (chr "T") [] (replace (chr ":") [] (replace (chr "-") [] s)) in
      if (length value =? 8)%nat then
        VDateTime <$> strptime k value fmt_Ymd
      else if (length value =? 14)%nat then
        VDateTime <$> strptime k value fmt_YmdHMS
      else
        let value :=
          if ((length value =? 15)%nat && endswith value (chr "Z"))%bool
          then removelast value ++ codes "+0000"
          else value in
        if (length value =? 19)%nat then
          let time := take 14 value in
          let timezone := drop 14 value in
          let hours := take 2 timezone in
          let minutes := drop 2 timezone in
          time ← strptime k time fmt_YmdHMS;
          h ← int_of_text k hours;
          m ← int_of_text k minutes;
          tz ← FixedOffsetTimeZone h m;
          Ok (VDateTime (replace_tzinfo time tz))
        else Raise (ValueError_cannot_cast (VText k value) "datetime")
  | _ => Raise (ValueError_cannot_cast value "datetime")
  end.

(** ** [float] and [int] as classes *)

(** What [to_type] and [to_number] use of their [data_type] argument. *)
Record pyclass := mk_class {
  __name__ : string;
  has_instance : pyvalue -> bool;
  construct : pyvalue -> result pyvalue
}.

(** [isinstance(value, data_type)] *)
Definition isinstance (v : pyvalue) (T : pyclass) : bool := has_instance T v.

Definition is_None (v : pyvalue) : bool :=
  match v with
  | VNone => true
  | _ => false
  end.

(** [bool(value)], the test behind [not value]. *)
Definition truth (v : pyvalue) : bool :=
  match v with
  | VNone => false
  | VBool b => b
  | VInt n => negb (n =? 0)
  | VFloat (S754_zero _) => false
  | VFloat _ => true
  | VText _ [] => false
  | VText _ (_ :: _) => true
  | VDate _ => true
  | VDateTime _ => true
  end.

Definition float_of_Z (n : Z) : result spec_float :=
  match binary_normalize 53 1024 n 0 false with
  | S754_infinity _ => Raise (OverflowError "long int too large to convert to float")
  | f => Ok f
  end.

(** [int(f)] of a float: truncation towards zero. *)
Definition Z_of_float (f : spec_float) : result Z :=
  match f with
  | S754_zero _ => Ok 0
  | S754_nan => Raise (ValueError_range "cannot convert float NaN to integer")
  | S754_infinity _ => Raise (OverflowError "cannot convert float infinity to integer")
  | S754_finite sgn m e =>
      let a := if 0 <=? e then Z.shiftl (Z.pos m) e else Z.shiftr (Z.pos m) (- e) in
      Ok (if sgn then - a else a)
  end.

Definition lower (c : N) : N :=
  if (N.leb 65 c && N.leb c 90)%bool then (c + 32)%N else c.

Definition text_eqb (a b : text) : bool := bool_decide (a = b).

(** The value [± digits * 10 ^ exponent], correctly rounded. *)
Definition float_of_decimal (neg : bool) (digits exponent : Z) : spec_float :=
  match digits with
  | Z.pos m =>
      if 0 <=? exponent
      then binary_normalize 53 1024
             ((if neg then Z.neg m else Z.pos m) * 10 ^ exponent) 0 false
      else SFdiv 53 1024 (S754_finite neg m 0)
                 (S754_finite false (Z.to_pos (10 ^ (- exponent))) 0)
  | _ => S754_zero neg
  end.

Definition rstrip (s : text) : text := rev (lstrip (rev s)).

(** [float(s)] for a [str]: blanks around, a sign, then [inf], [infinity],
    [nan], or digits with an optional fraction and exponent. *)
Definition float_of_str (s : text) : result spec_float :=
  let bad := Raise (ValueError_float_literal s) in
  let s1 := rstrip (lstrip s) in
  let '(neg, s2) :=
    match s1 with
    | 43%N :: r => (false, r)
    | 45%N :: r => (true, r)
    | _ => (false, s1)
    end in
  let word := map lower s2 in
  if (text_eqb word (codes "inf") || text_eqb word (codes "infinity"))%bool
  then Ok (S754_infinity neg)
  else if text_eqb word (codes "nan") then Ok S754_nan
  else
    let '(ip, r1) := span_digits s2 in
    let '(fp, r2) :=
      match r1 with
      | 46%N :: r => span_digits r
      | _ => ([], r1)
      end in
    match ip ++ fp with
    | [] => bad
    | _ :: _ =>
        let mantissa := digits_value (ip ++ fp) in
        let scale := - Z.of_nat (length fp) in
        match r2 with
        | [] => Ok (float_of_decimal neg mantissa scale)
        | e :: r3 =>
            if N.eqb (lower e) 101 then
              let '(eneg, r4) :=
                match r3 with
                | 43%N :: r => (false, r)
                | 45%N :: r => (true, r)
                | _ => (false, r3)
                end in
              match span_digits r4 with
              | ((_ :: _) as ed, []) =>
                  let x := digits_value ed in
                  Ok (float_of_decimal neg mantissa
                        (scale + (if eneg then - x else x)))
              | _ => bad
              end
            else bad
        end
    end.

Definition float_of_text (k : text_kind) (s : text) : result spec_float :=
  match k with
  | KStr => float_of_str s
  | KUnicode => s' ← encode_decimal s; float_of_str s'
  end.

(** The builtin [int]. *)
Definition py_int : pyclass := {|
  __name__ := "int";
  has_instance v :=
    match v with
    | VInt _ | VBool _ => true
    | _ => false
    end;
  construct v :=
    match v with
    | VBool b => Ok (VInt (if b then 1 else 0))
    | VInt n => Ok (VInt n)
    | VFloat f => VInt <$> Z_of_float f
    | VText k s => VInt <$> int_of_text k s
    | _ => Raise (TypeError "int() argument must be a string or a number")
    end
|}.

(** The builtin [float]. *)
Definition py_float : pyclass := {|
  __name__ := "float";
  has_instance v :=
    match v with
    | VFloat _ => true
    | _ => false
    end;
  construct v :=
    match v with
    | VBool b => VFloat <$> float_of_Z (if b then 1 else 0)
    | VInt n => VFloat <$> float_of_Z n
    | VFloat f => Ok (VFloat f)
    | VText k s => VFloat <$> float_of_text k s
    | _ => Raise (TypeError "float() argument must be a string or a number")
    end
|}.

(** ** [to_unicode], [to_type] and [to_number] *)

(** The names the module binds at import time (lines 2-6); a module
    attribute is read through a global name. *)
Definition module_imports : list string :=
  ["decimal"; "datetime"; "namedtuple"; "AbstractCornExtenser";
   "Type"; "Dict"; "List"].

Definition global_name (n : string) : result unit :=
  if existsb (String.eqb n) module_imports then Ok tt
  else Raise (NameError n).

(** Lines 158-187. *)
Definition to_unicode (value : pyvalue) (encoding : string)
  : result pyvalue :=
  match value with
  | VUnicode _ => Ok value
  | _ =>
      string ← try_except (builtin_unicode value (Some encoding))
                           (builtin_unicode value None);
      _ ← global_name "unicodedata";
      Ok (VUnicode (unicodedata_normalize_NFC string))
  end.

(** Lines 190-215. *)
Definition to_type (value : pyvalue) (data_type : pyclass)
  : result pyvalue :=
  if (isinstance value data_type || is_None value)%bool then Ok value
  else
    try_except (construct data_type value)
      (Raise (ValueError_cannot_cast value (__name__ data_type))).

(** Lines 217-222. *)
Definition to_number (value : pyvalue) (data_type : pyclass)
  : result pyvalue :=
  if (isinstance value data_type || is_None value)%bool then Ok value
  else if negb (truth value) then construct data_type (VInt 0)
  else to_type value data_type.

End CastFunctions.

(** ** [TypeExtenser]: the registry and the binding table *)

#[global] Instance pytype_eq_dec : EqDecision pytype.
Proof. solve_decision. Defined.

Definition pytype_code (t : pytype) : string + nat :=
  match t with
  | t_unicode => inr 0%nat | t_bytes => inr 1%nat | t_int => inr 2%nat
  | t_float => inr 3%nat | t_Decimal => inr 4%nat | t_datetime => inr 5%nat
  | t_date => inr 6%nat | t_bool => inr 7%nat | t_dict => inr 8%nat
  | t_object => inr 9%nat
  | t_class n => inl n
  end.

Definition pytype_decode (c : string + nat) : option pytype :=
  match c with
  | inl n => Some (t_class n)
  | inr 0%nat => Some t_unicode | inr 1%nat => Some t_bytes
  | inr 2%nat => Some t_int | inr 3%nat => Some t_float
  | inr 4%nat => Some t_Decimal | inr 5%nat => Some t_datetime
  | inr 6%nat => Some t_date | inr 7%nat => Some t_bool
  | inr 8%nat => Some t_dict | inr 9%nat => Some t_object
  | inr _ => None
  end.

#[global] Instance pytype_countable : Countable pytype.
Proof.
  apply (inj_countable pytype_code pytype_decode).
  intros []; reflexivity.
Defined.

(** Modelled from the spec: the class [Type] of [requests/types.py], which
    is not among the sources. A Property has a [name], a declared type and
    an owner, is immutable, and is the key of the binding table: two
    descriptors are the same key when the three attributes agree. *)
Module types.

Record Type_ := mk_Type {
  corn : string;
  type : pytype;
  name : string
}.

#[global] Instance Type_eq_dec : EqDecision Type_.
Proof. solve_decision. Defined.

#[global] Instance Type_countable : Countable Type_.
Proof.
  apply (inj_countable'
           (fun t => (corn t, type t, name t))
           (fun '(c, t, n) => mk_Type c t n)).
  intros []; reflexivity.
Defined.

End types.

Abbreviation Type_ := types.Type_.
Abbreviation mk_Type := types.mk_Type.

Definition converter := pyvalue -> result pyvalue.

(** [Converter = namedtuple('Converter', ['down', 'up'])] *)
Record Converter := mk_Converter {
  down : converter;
  up : converter
}.

(** The attributes of a [TypeExtenser] that [register] reads and writes.
    Modelled from the spec: [properties] is set up by
    [AbstractCornExtenser], which is not among the sources; it is the
    decorator's own property set, distinct from the wrapped source's. *)
Record TypeExtenser := mk_TypeExtenser {
  self_name : string;
  wrapped_corn_properties : gmap string Type_;
  properties : gmap string Type_;
  converters : gmap pytype converter;
  named_convertors : gmap Type_ Converter
}.

(** Methods: the object before, the object after, and what was returned
    or raised. *)
Definition method (A : Type) : Type := TypeExtenser -> TypeExtenser * result A.

#[global] Instance method_ret : MRet method := fun A a self => (self, Ok a).
#[global] Instance method_bind : MBind method := fun A B f m self =>
  match m self with
  | (self', Ok a) => f a self'
  | (self', Raise e) => (self', Raise e)
  end.

Definition raise {A} (e : exn) : method A := fun self => (self, Raise e).

Definition get_self : method TypeExtenser := fun self => (self, Ok self).

(** [d[key]] *)
Definition getitem {K V} `{Countable K} (d : gmap K V) (key : K)
    (e : exn) : method V :=
  match d !! key with
  | Some v => mret v
  | None => raise e
  end.

(** [self.properties[name] = t] *)
Definition set_properties (name : string) (t : Type_) : method unit :=
  fun self =>
    (mk_TypeExtenser (self_name self) (wrapped_corn_properties self)
       (<[name := t]> (properties self)) (converters self)
       (named_convertors self), Ok tt).

(** [self.named_convertors[key] = c] *)
Definition set_named_convertors (key : Type_) (c : Converter) : method unit :=
  fun self =>
    (mk_TypeExtenser (self_name self) (wrapped_corn_properties self)
       (properties self) (converters self)
       (<[key := c]> (named_convertors self)), Ok tt).

(** [name in d] *)
Definition contains {K V} `{Countable K} (d : gmap K V) (key : K) : bool :=
  bool_decide (is_Some (d !! key)).

(** Lines 250-262. *)
Definition register (name : string) (type : pytype)
    (custom_down custom_up : option converter) : method unit :=
  self ← get_self;
  if negb (contains (wrapped_corn_properties self) name) then
    raise (KeyError_msg
             "Cannot register a type converter for nonexistent property")
  else
    _ ← set_properties name (mk_Type (self_name self) type name);
    down_converter ←
      match custom_down with
      | Some f => mret f
      | None =>
          native ← getitem (wrapped_corn_properties self) name
                           (KeyError_name name);
          getitem (converters self) (types.type native)
                  (KeyError_type (types.type native))
      end;
    up_converter ←
      match custom_up with
      | Some f => mret f
      | None => getitem (converters self) type (KeyError_type type)
      end;
    self' ← get_self;
    key ← getitem (properties self') name (KeyError_name name);
    set_named_convertors key (mk_Converter down_converter up_converter).

(** ** Notions used to state the properties *)

(** The proleptic Gregorian ordinal of a date, as [date.toordinal]. *)
Definition days_before_year (y : Z) : Z :=
  let p := y - 1 in p * 365 + p / 4 - p / 100 + p / 400.

Definition days_before_month (y m : Z) : Z :=
  fold_right Z.add 0
    (map (days_in_month y) (map Z.of_nat (seq 1 (Z.to_nat (m - 1))))).

Definition toordinal (d : date) : Z :=
  days_before_year (year d) + days_before_month (year d) (month d) + day d.

(** The instant of an aware datetime: its wall clock less its UTC offset,
    in seconds, with the microseconds beside. Aware datetimes compare by
    this pair. *)
Definition utc_instant (dt : datetime) : option (Z * Z) :=
  match tzinfo_of dt with
  | Some tz =>
      Some (toordinal (dt_date dt) * 86400 + hour dt * 3600 + minute dt * 60
            + second dt - total_seconds (utcoffset tz (VDateTime dt)),
            microsecond dt)
  | None => None
  end.

(** The language of a regular expression. *)
Inductive matches : regex -> text -> Prop :=
| matches_range lo hi c :
    (lo <= c)%N -> (c <= hi)%N -> matches (Range lo hi) [c]
| matches_seq r1 r2 m1 m2 :
    matches r1 m1 -> matches r2 m2 -> matches (Seq r1 r2) (m1 ++ m2)
| matches_alt_l r1 r2 m : matches r1 m -> matches (Alt r1 r2) m
| matches_alt_r r1 r2 m : matches r2 m -> matches (Alt r1 r2) m.

(** The number a group of digits, possibly after blanks, stands for. *)
Definition number_of (t : text) : Z := digits_value (lstrip t).

Definition valid_date (y m d : Z) : Prop :=
  1 <= y <= 9999 /\ 1 <= m <= 12 /\ 1 <= d <= days_in_month y m.

(** A year, a month and a day written one after the other. *)
Definition ymd_shape (t Y M D : text) : Prop :=
  t = Y ++ M ++ D
  /\ matches (directive_regex dY) Y
  /\ matches (directive_regex dm) M
  /\ matches (directive_regex dd) D.

(** [n] in decimal, zero-padded to [width]. *)
Definition pad (width : nat) (n : Z) : text := codes (format_int false width n).

(** What [to_date] leaves of a string before parsing it. *)
Definition date_digits (s : text) : text :=
  replace (chr ":") [] (replace (chr "-") [] s).

(** Canonical composition on texts over U+0065, U+0301 and U+00E9: the
    only composable pair there is <e, combining acute>. *)
Fixpoint compose_e_acute (s : text) : text :=
  match s with
  | 101%N :: 769%N :: s' => 233%N :: compose_e_acute s'
  | c :: s' => c :: compose_e_acute s'
  | [] => []
  end.

(** An interpreter to evaluate closed examples with. It is CPython's on
    these domains, and the examples stay inside them: the Unicode tables
    for the code points below 256 (U+0085 and U+00A0 are the blanks there,
    none is a decimal digit), [unicode] of an ASCII [str] under the codecs
    ascii and utf-8 and of a value that is not a [str] under a codec, NFC
    of texts over U+0065, U+0301 and U+00E9. *)
Definition outside_the_domain : exn :=
  OtherError "latin1_interpreter" "outside its domain".

Definition latin1_interpreter : Interpreter := {|
  Py_UNICODE_ISSPACE c := (N.eqb c 133 || N.eqb c 160)%bool;
  Py_UNICODE_TODECIMAL c := None;
  builtin_unicode v encoding :=
    match v, encoding with
    | VStr s, None =>
        if is_ascii_text s then Ok s else Raise outside_the_domain
    | VStr s, Some e =>
        if (is_ascii_text s
            && (String.eqb e "utf-8" || String.eqb e "ascii"))%bool
        then Ok s
        else Raise outside_the_domain
    | _, Some _ => Raise (TypeError "coercing to Unicode: need string or buffer")
    | _, None => Raise outside_the_domain
    end;
  unicodedata_normalize_NFC := compose_e_acute
|}.

(** The groups found for a format: one per directive, in order, each a
    word of its directive's language. *)
Inductive found_for : list directive -> list (directive * text) -> Prop :=
| found_nil : found_for [] []
| found_cons d m format found :
    matches (directive_regex d) m -> found_for format found ->
    found_for (d :: format) ((d, m) :: found).

(** The finite language of a regular expression, listed. *)
Fixpoint words (r : regex) : list text :=
  match r with
  | Range lo hi =>
      map (fun i => [(lo + N.of_nat i)%N]) (seq 0 (N.to_nat (hi + 1 - lo)))
  | Seq r1 r2 => m1 ← words r1; (fun m2 => m1 ++ m2) <$> words r2
  | Alt r1 r2 => words r1 ++ words r2
  end.

Definition from_1_to (n : Z) : list Z := map Z.of_nat (seq 1 (Z.to_nat n)).

(** A group that [int] reads as the number it stands for, and that the
    argument conversion of [strptime] lets through. *)
Definition reads_as_number (m : text) : bool :=
  match int_of_str m with
  | Ok a =>
      ((a =? number_of m) && is_ascii_text m && negb (existsb (N.eqb 0) m))%bool
  | Raise _ => false
  end.

(** The first match on a month followed by a day: it consumes both, and
    the date it reads is the one written or, when the digits can be cut
    in two ways, another day of a month other than February. *)
Definition month_day_first_match (M D : text) : bool :=
  match first_match [dm; dd] (M ++ D) with
  | Some ([(_, M'); (_, D')], []) =>
      (reads_as_number M' && reads_as_number D'
       && (((number_of M' =? number_of M) && (number_of D' =? number_of D))
           || (negb (number_of M' =? 2)
               && (1 <=? number_of M') && (number_of M' <=? 12)
               && (1 <=? number_of D')
               && (number_of D' <=? days_in_month 1 (number_of M')))))%bool
  | _ => false
  end.

(** The same for a month and a day written with two digits each. *)
Definition month_day_pad_ok (m d : Z) : bool :=
  match first_match [dm; dd] (pad 2 m ++ pad 2 d) with
  | Some ([(_, M'); (_, D')], []) =>
      (text_eqb M' (pad 2 m) && text_eqb D' (pad 2 d)
       && (number_of (pad 2 m) =? m) && (number_of (pad 2 d) =? d))%bool
  | _ => false
  end.

(** The four-digit form of a year: four digits that read as the year. *)
Definition year_pad_ok (y : Z) : bool :=
  match pad 4 y with
  | [a; b; c; d] =>
      (is_digit a && is_digit b && is_digit c && is_digit d
       && (number_of (pad 4 y) =? y))%bool
  | _ => false
  end.

(** *** [register]: its error, its resolution rule, a decorator to run it on *)

Definition not_found : exn :=
  KeyError_msg "Cannot register a type converter for nonexistent property".

(** The converter [f] is what [register] resolves: the custom one when
    given, else the registry's for the type [t]. *)
Definition resolved (custom : option converter) (registry : gmap pytype converter)
    (t : pytype) (f : converter) : Prop :=
  match custom with
  | Some g => f = g
  | None => registry !! t = Some f
  end.

(** The entries of [default_converters] for the cast functions above. *)
Definition example_converters : gmap pytype converter :=
  list_to_map
    [ (t_unicode, fun v => @to_unicode latin1_interpreter v "utf-8");
      (t_int, fun v => to_number v (@py_int latin1_interpreter));
      (t_float, fun v => to_number v (@py_float latin1_interpreter));
      (t_datetime, @to_datetime latin1_interpreter);
      (t_date, to_date);
      (t_object, fun v => Ok v) ].

(** A decorator named "typed" over a source that declares the text
    property "born"; nothing registered yet. *)
Definition example_extenser : TypeExtenser :=
  mk_TypeExtenser "typed" {[ "born" := mk_Type "people" t_unicode "born" ]}
    ∅ example_converters ∅.

(** ** The matcher as an ordered search *)

(** The longest word of a regular expression. *)
Fixpoint re_max (r : regex) : nat :=
  match r with
  | Range _ _ => 1
  | Seq r1 r2 => re_max r1 + re_max r2
  | Alt r1 r2 => Nat.max (re_max r1) (re_max r2)
  end.

(** The ways [r] matches a prefix of [s], in the order the backtracking
    search tries them: what is consumed, what is left. *)
Fixpoint candidates (r : regex) (s : text) : list (text * text) :=
  match r with
  | Range lo hi =>
      match s with
      | c :: s' => if (N.leb lo c && N.leb c hi)%bool then [([c], s')] else []
      | [] => []
      end
  | Seq r1 r2 =>
      p1 ← candidates r1 s;
      p2 ← candidates r2 (snd p1);
      [(fst p1 ++ fst p2, snd p2)]
  | Alt r1 r2 => candidates r1 s ++ candidates r2 s
  end.

Fixpoint first_some {A B} (k : A -> option B) (l : list A) : option B :=
  match l with
  | [] => None
  | a :: l' =>
      match k a with
      | Some b => Some b
      | None => first_some k l'
      end
  end.

(** A number of two digits that a directive takes at the first try. *)
Definition two_digits_first (d : directive) (n : Z) : bool :=
  match candidates (directive_regex d) (pad 2 n) with
  | (m, []) :: _ =>
      (text_eqb m (pad 2 n) && (length (pad 2 n) =? 2)%nat
       && (re_max (directive_regex d) <=? 2)%nat
       && reads_as_number (pad 2 n) && (number_of (pad 2 n) =? n))%bool
  | _ => false
  end.

(** What [to_datetime] leaves of a string before looking at its length. *)
Definition datetime_digits (s : text) : text :=
  replace (chr "T") [] (replace (chr ":") [] (replace (chr "-") [] s)).

(** * kalamar [config/jsonparser.py] *)

Module jsonparser.

(** What [json.load] returns: [None], [bool], [int], [float], [unicode],
    [list], and [dict] keyed by [unicode]. *)
#[warnings="-register-all"]
Inductive json :=
| JNull
| JBool (b : bool)
| JInt (n : Z)
| JFloat (f : spec_float)
| JStr (s : text)
| JList (l : list json)
| JDict (d : gmap text json).

(** The call [Config(url, name, properties, config, parser=..., basedir=...,
    debug=..., label_attr=...)], kept as its arguments: the class [Config]
    is not among the sources. *)
Record Config := mk_Config {
  url : json;
  name : json;
  properties : json;
  config : gmap text json;
  parser : json;
  basedir : string;
  debug : json;
  label_attr : json
}.

Fixpoint drop_until_slash (l : list ascii) : list ascii :=
  match l with
  | c :: l' => if Ascii.eqb c "/" then l else drop_until_slash l'
  | [] => []
  end.

Fixpoint drop_slashes (l : list ascii) : list ascii :=
  match l with
  | c :: l' => if Ascii.eqb c "/" then drop_slashes l' else l
  | [] => []
  end.

(** [os.path.dirname] of [posixpath]: the path up to its last slash,
    without trailing slashes unless it is made of slashes only. *)
Definition dirname (p : string) : string :=
  let head := drop_until_slash (rev (list_ascii_of_string p)) in
  string_of_list_ascii
    (rev match drop_slashes head with
         | [] => head
         | stripped => stripped
         end).

(** [config.pop(key)] *)
Definition pop (key : string) (config : gmap text json)
  : result (json * gmap text json) :=
  match config !! codes key with
  | Some v => Ok (v, delete (codes key) config)
  | None => Raise (KeyError_name key)
  end.

(** [config.pop(key, default)] *)
Definition pop_default (key : string) (default : json)
    (config : gmap text json) : json * gmap text json :=
  match config !! codes key with
  | Some v => (v, delete (codes key) config)
  | None => (default, config)
  end.

(** The body of the loop of [parse] (lines 14-21), for one element. *)
Definition parse_one (basedir : string) (element : json) : result Config :=
  match element with
  | JDict config =>
      '(url, config) ← pop "url" config;
      '(name, config) ← pop "name" config;
      '(parser, config) ←
        (if bool_decide (is_Some (config !! codes "parser"))
         then pop "parser" config
         else Ok (JNull, config));
      '(properties, config) ← pop "properties" config;
      let '(debug, config) := pop_default "debug" (JBool false) config in
      let '(label_attr, config) := pop_default "label_attr" JNull config in
      Ok (mk_Config url name properties config parser basedir debug label_attr)
  | JList _ => Raise (TypeError "an integer is required")
  | _ => Raise (OtherError "AttributeError" "pop")
  end.

Fixpoint parse_each (basedir : string) (elements : list json)
  : result (list Config) :=
  match elements with
  | [] => Ok []
  | element :: elements' =>
      c ← parse_one basedir element;
      configs ← parse_each basedir elements';
      Ok (c :: configs)
  end.

(** [for config in jsonconfig]: what the loop goes through. *)
Definition iterate (jsonconfig : json) : result (list json) :=
  match jsonconfig with
  | JList l => Ok l
  | JDict d => Ok ((fun kv => JStr (fst kv)) <$> map_to_list d)
  | JStr s => Ok ((fun c => JStr [c]) <$> s)
  | _ => Raise (TypeError "object is not iterable")
  end.

(** Lines 8-22, from what [json.load(open(config_filename))] returned. *)
Definition parse (config_filename : string) (jsonconfig : json)
  : result (list Config) :=
  let basedir := dirname config_filename in
  elements ← iterate jsonconfig;
  parse_each basedir elements.

(** The keys that [parse] takes out of a configuration. *)
Definition taken : list text :=
  codes <$> ["url"; "name"; "parser"; "properties"; "debug"; "label_attr"].

Definition required : list string := ["url"; "name"; "properties"].

End jsonparser.

(** * [to_bytes], the default converters and [TypeExtenser.__init__] *)

(** The builtins and library classes behind [to_bytes] and the default
    table that the embedding does not define. *)
Class Builtins := {
  (** [str(value)] for a value that is not text *)
  str_of_object : pyvalue -> result text;
  (** [value.encode(encoding)] for a [unicode] *)
  unicode_encode : text -> string -> result text;
  (** the builtin [dict], as a converter *)
  builtin_dict : converter;
  (** [decimal.Decimal] *)
  Decimal : pyclass
}.

Section Defaults.
Context `{Interpreter} `{Builtins}.

(** [bytes(value)], which is [str(value)]: a [unicode] is encoded with the
    default codec, ASCII. *)
Definition builtin_bytes (value : pyvalue) : result pyvalue :=
  match value with
  | VStr _ => Ok value
  | VUnicode u =>
      if is_ascii_text u then Ok (VStr u)
      else Raise (UnicodeEncodeError_ascii u)
  | _ => VStr <$> str_of_object value
  end.

(** [value.encode(encoding)] *)
Definition encode (value : pyvalue) (encoding : string) : result pyvalue :=
  match value with
  | VUnicode u => VStr <$> unicode_encode u encoding
  | VStr s =>
      if is_ascii_text s then VStr <$> unicode_encode s encoding
      else Raise (OtherError "UnicodeDecodeError" "ascii")
  | _ => Raise (OtherError "AttributeError" "encode")
  end.

(** Lines 124-155. [bytes] is [str], whose constructor takes no
    [encoding] argument: the first attempt always raises [TypeError]. *)
Definition to_bytes (value : pyvalue) (encoding : string) : result pyvalue :=
  match value with
  | VStr _ => Ok value
  | _ =>
      try_except
        (Raise (TypeError "str() takes at most 1 argument (2 given)"))
        (try_except (builtin_bytes value) (encode value encoding))
  end.

(** Lines 228-239. *)
Definition default_converters : gmap pytype converter :=
  list_to_map
    [ (t_unicode, fun value => to_unicode value "utf-8");
      (t_bytes, fun value => to_bytes value "utf-8");
      (t_int, fun value => to_number value py_int);
      (t_float, fun value => to_number value py_float);
      (t_Decimal, fun value => to_number value Decimal);
      (t_datetime, to_datetime);
      (t_date, to_date);
      (t_bool, fun value => Ok (VBool (truth value)));
      (t_dict, builtin_dict);
      (t_object, fun value => Ok value) ].

(** Lines 241-248. Modelled from the spec: [properties] is what
    [AbstractCornExtenser.__init__], which is not among the sources, leaves
    as the decorator's own property set. *)
Definition __init__ (name : string) (wrapped_corn_properties : gmap string Type_)
    (properties : gmap string Type_)
    (type_converters : option (gmap pytype converter)) : TypeExtenser :=
  let converters := default_converters in
  let converters :=
    match type_converters with
    | Some overrides =>
        if bool_decide (overrides = ∅) then converters
        else overrides ∪ converters
    | None => converters
    end in
  mk_TypeExtenser name wrapped_corn_properties properties converters ∅.

End Defaults.

(** The types that have a default converter. *)
Definition builtin_types : list pytype :=
  [t_unicode; t_bytes; t_int; t_float; t_Decimal;
   t_datetime; t_date; t_bool; t_dict; t_object].

(** Where each directive's number lies when written with two digits. *)
Definition two_digits_range (d : directive) (n : Z) : Prop :=
  match d with
  | dY => False
  | dm => 1 <= n <= 12
  | dd => 1 <= n <= 31
  | dH => 0 <= n <= 23
  | dM => 0 <= n <= 59
  | dS => 0 <= n <= 59
  end.

(** The fourteen digits YYYYMMDDHHMMSS. *)
Definition fourteen_digits (y m d H M S : Z) : text :=
  pad 4 y ++ pad 2 m ++ pad 2 d ++ pad 2 H ++ pad 2 M ++ pad 2 S.

Definition valid_time (H M S : Z) : Prop :=
  0 <= H <= 23 /\ 0 <= M <= 59 /\ 0 <= S <= 59.

Section ZoneChecks.
Context `{Interpreter}.

(** The two slices of a zone [+dddd], read by [int] in either class of
    text, make a time zone; its offset is the written one exactly when the
    written hours are 00. *)
Definition zone_slices_read (zone : text) : bool :=
  let hours := codes "+" ++ take 1 zone in
  let minutes := drop 1 zone in
  match int_of_text KStr hours, int_of_text KUnicode hours,
        int_of_text KStr minutes, int_of_text KUnicode minutes,
        FixedOffsetTimeZone (number_of (take 1 zone)) (number_of (drop 1 zone)) with
  | Ok h1, Ok h2, Ok m1, Ok m2, Ok tz =>
      ((h1 =? number_of (take 1 zone)) && (h2 =? number_of (take 1 zone))
       && (m1 =? number_of (drop 1 zone)) && (m2 =? number_of (drop 1 zone))
       && (length zone =? 4)%nat
       && Bool.eqb
            (total_seconds (utcoffset tz VNone)
             =? 3600 * number_of (take 2 zone) + 60 * number_of (drop 2 zone))
            (number_of (take 2 zone) =? 0))%bool
  | _, _, _, _, _ => false
  end.

End ZoneChecks.

(** How long the group of a directive is: one or two characters, four for
    the year. *)
Definition group_length_ok (d : directive) (m : text) : bool :=
  ((1 <=? length m) && (length m <=? match d with dY => 4 | _ => 2 end)
   && match d with dY => length m =? 4 | _ => true end)%nat.

(** A group of two digits is the number it stands for, zero-padded. *)
Definition two_digits_canonical (m : text) : bool :=
  if ((length m =? 2)%nat && forallb is_digit m)%bool
  then text_eqb (pad 2 (number_of m)) m
  else true.

(** *** [register] and [__init__]: more notions *)

(** The converter that [register] takes: the custom one when given, else
    the registry's entry, if any. *)
Definition resolve (custom : option converter)
    (registry : gmap pytype converter) (t : pytype) : option converter :=
  match custom with
  | Some f => Some f
  | None => registry !! t
  end.

(** The decorator once [name] is declared with [type], and once its
    binding is stored too. *)
Definition declare (self : TypeExtenser) (name : string) (type : pytype)
  : TypeExtenser :=
  mk_TypeExtenser (self_name self) (wrapped_corn_properties self)
    (<[name := mk_Type (self_name self) type name]> (properties self))
    (converters self) (named_convertors self).

Definition bind (self : TypeExtenser) (name : string) (type : pytype)
    (d u : converter) : TypeExtenser :=
  mk_TypeExtenser (self_name self) (wrapped_corn_properties self)
    (<[name := mk_Type (self_name self) type name]> (properties self))
    (converters self)
    (<[mk_Type (self_name self) type name := mk_Converter d u]>
       (named_convertors self)).

(** A call of [register]: its four arguments. *)
Definition call : Type :=
  string * pytype * option converter * option converter.

(** The decorator after a sequence of calls of [register], whatever each
    one returned or raised. *)
Definition register_all (calls : list call) (self : TypeExtenser)
  : TypeExtenser :=
  fold_left (fun self '(name, type, custom_down, custom_up) =>
               fst (register name type custom_down custom_up self))
            calls self.

(** What the binding table promises for each of its keys: the key carries
    the decorator's name and names a property that the wrapped source has
    and that the decorator declares. *)
Definition bindings_well_formed (self : TypeExtenser) : Prop :=
  forall key, is_Some (named_convertors self !! key) ->
    types.corn key = self_name self
    /\ is_Some (wrapped_corn_properties self !! types.name key)
    /\ is_Some (properties self !! types.name key).

(** Builtins to evaluate closed examples with: [str] of [None] and of a
    [bool], and the codecs ascii and utf-8 on ASCII text, where they change
    nothing. The examples stay inside this domain. *)
Definition ascii_builtins : Builtins := {|
  str_of_object v :=
    match v with
    | VNone => Ok (codes "None")
    | VBool true => Ok (codes "True")
    | VBool false => Ok (codes "False")
    | _ => Raise outside_the_domain
    end;
  unicode_encode u e :=
    if (is_ascii_text u && (String.eqb e "utf-8" || String.eqb e "ascii"))%bool
    then Ok u
    else Raise outside_the_domain;
  builtin_dict _ := Raise outside_the_domain;
  Decimal := mk_class "Decimal" (fun _ => false) (fun _ => Raise outside_the_domain)
|}.

(** *** [parse]: notions *)

(** The first of the required keys that a configuration lacks. *)
Definition first_missing (config : gmap text jsonparser.json) : option string :=
  find (fun key => negb (contains config (codes key))) jsonparser.required.

(** A configuration without the keys that [parse] takes out. *)
Definition left_over (config : gmap text jsonparser.json)
  : gmap text jsonparser.json :=
  foldr delete config jsonparser.taken.

(** [c] is what [parse] makes of the dictionary [d]. *)
Definition config_of (basedir : string) (d : gmap text jsonparser.json)
    (c : jsonparser.Config) : Prop :=
  d !! codes "url" = Some (jsonparser.url c)
  /\ d !! codes "name" = Some (jsonparser.name c)
  /\ d !! codes "properties" = Some (jsonparser.properties c)
  /\ jsonparser.parser c = default jsonparser.JNull (d !! codes "parser")
  /\ jsonparser.debug c
     = default (jsonparser.JBool false) (d !! codes "debug")
  /\ jsonparser.label_attr c
     = default jsonparser.JNull (d !! codes "label_attr")
  /\ jsonparser.basedir c = basedir
  /\ jsonparser.config c = left_over d.

(** A document of one configuration, and what [parse] makes of it for a
    file of the directory [etc/kalamar]. *)
Definition example_document : jsonparser.json :=
  jsonparser.JList
    [ jsonparser.JDict
        (list_to_map
           [ (codes "url", jsonparser.JStr (codes "memory://"));
             (codes "name", jsonparser.JStr (codes "people"));
             (codes "properties", jsonparser.JDict ∅);
             (codes "debug", jsonparser.JBool true);
             (codes "encoding", jsonparser.JStr (codes "utf-8")) ]) ].

Definition example_configs : list jsonparser.Config :=
  [ jsonparser.mk_Config
      (jsonparser.JStr (codes "memory://")) (jsonparser.JStr (codes "people"))
      (jsonparser.JDict ∅)
      {[ codes "encoding" := jsonparser.JStr (codes "utf-8") ]}
      jsonparser.JNull "etc/kalamar" (jsonparser.JBool true)
      jsonparser.JNull ].

(** * Properties *)

(** ** The fixed-offset time zone *)

Lemma timedelta_of_total_seconds hours minutes td :
  timedelta_of hours minutes = Ok td ->
  total_seconds td = hours * 3600 + minutes * 60
  /\ 0 <= seconds td < 86400 /\ microseconds td = 0.
Proof.
  unfold timedelta_of, total_seconds.
  destruct (_ && _)%bool; intros Heq; inversion Heq; subst; clear Heq; simpl.
  repeat split.
  - pose proof (Z.div_mod (hours * 3600 + minutes * 60) 86400). lia.
  - apply Z.mod_pos_bound; lia.
  - apply Z.mod_pos_bound; lia.
Qed.

(** C10. Whenever [FixedOffsetTimeZone(offset_hours, offset_minutes)] is
    built: [utcoffset] and [dst] do not depend on their argument, [dst] is
    the zero duration, [utcoffset] is the duration of
    [offset_hours] hours plus [offset_minutes] minutes (signed sum), and
    the name is "UTC" followed by the two arguments formatted one by one.
    For [(-2, 30)] the offset is -1h30m (timedelta(-1, 81000)) under the
    name "UTC-02:30"; [(-1, -30)] has the same offset under another name. *)
Theorem C10_fixed_offset_time_zone (offset_hours offset_minutes : Z) (tz : tzinfo) :
  FixedOffsetTimeZone offset_hours offset_minutes = Ok tz ->
  (forall a b : pyvalue, utcoffset tz a = utcoffset tz b /\ dst tz a = dst tz b)
  /\ (forall a, dst tz a = mk_timedelta 0 0 0)
  /\ (forall a, total_seconds (utcoffset tz a)
                = offset_hours * 3600 + offset_minutes * 60
                /\ 0 <= seconds (utcoffset tz a) < 86400
                /\ microseconds (utcoffset tz a) = 0)
  /\ (forall a, tzname tz a
                = ("UTC" ++ format_int true 3 offset_hours ++ ":"
                   ++ format_int false 2 offset_minutes)%string)
  /\ FixedOffsetTimeZone (-2) 30
     = Ok (mk_tzinfo (mk_timedelta (-1) 81000 0) "UTC-02:30")
  /\ total_seconds (mk_timedelta (-1) 81000 0) = - (1 * 3600 + 30 * 60)
  /\ FixedOffsetTimeZone (-1) (-30)
     = Ok (mk_tzinfo (mk_timedelta (-1) 81000 0) "UTC-01:-30").
Proof.
  unfold FixedOffsetTimeZone. intros Hbuilt.
  destruct (timedelta_of offset_hours offset_minutes) as [td|e] eqn:Htd;
    simpl in Hbuilt; [|discriminate].
  injection Hbuilt as <-.
  apply timedelta_of_total_seconds in Htd.
  repeat split; try reflexivity; simpl; intuition.
Qed.

Lemma C10_fixed_offset_time_zone_witness :
  FixedOffsetTimeZone 5 45 = Ok (mk_tzinfo (mk_timedelta 0 20700 0) "UTC+05:45")
  /\ total_seconds (utcoffset (mk_tzinfo (mk_timedelta 0 20700 0) "UTC+05:45") VNone)
     = 5 * 3600 + 45 * 60.
Proof.
  split; [reflexivity|].
  exact (proj1 (proj1 (proj2 (proj2
    (C10_fixed_offset_time_zone 5 45 _ eq_refl))) VNone)).
Defined.

(** ** [to_datetime] on the documented strings *)

Section DatetimeExamples.
Context `{Interpreter}.

(** C1. [to_datetime("2010-08-04T20:34:31+02:30")]: the normalised string
    is "20100804203431+0230", whose zone part "+0230" is cut after two
    characters, into "+0" and "230". The result carries the offset
    0 hours 230 minutes (3h50m) under the name "UTC+00:230", where the
    specification has +2h30m and "UTC+02:30". *)
Theorem C1_to_datetime_offset_cut_after_two_characters :
  to_datetime (str "2010-08-04T20:34:31+02:30")
  = Ok (VDateTime
          (mk_datetime (mk_date 2010 8 4) 20 34 31 0
             (Some (mk_tzinfo (mk_timedelta 0 13800 0) "UTC+00:230"))))
  /\ FixedOffsetTimeZone 0 230
     = Ok (mk_tzinfo (mk_timedelta 0 13800 0) "UTC+00:230")
  /\ FixedOffsetTimeZone 2 30
     = Ok (mk_tzinfo (mk_timedelta 0 9000 0) "UTC+02:30")
  /\ total_seconds (mk_timedelta 0 13800 0) = 3 * 3600 + 50 * 60.
Proof. repeat split; vm_compute; reflexivity. Qed.

(** C4. [to_datetime("2010-08-04T20:34:31Z")] and
    [to_datetime("20100804-203431Z")] return the same aware datetime,
    2010-08-04 20:34:31 with a zone of offset zero: the same instant. *)
Theorem C4_to_datetime_Z_suffix :
  exists dt tz,
    to_datetime (str "2010-08-04T20:34:31Z") = Ok (VDateTime dt)
    /\ to_datetime (str "20100804-203431Z") = Ok (VDateTime dt)
    /\ dt = mk_datetime (mk_date 2010 8 4) 20 34 31 0 (Some tz)
    /\ utcoffset tz (VDateTime dt) = mk_timedelta 0 0 0
    /\ total_seconds (utcoffset tz (VDateTime dt)) = 0
    /\ utc_instant dt
       = Some (toordinal (mk_date 2010 8 4) * 86400 + 20 * 3600 + 34 * 60 + 31, 0).
Proof.
  eexists. eexists.
  split; [vm_compute; reflexivity|].
  split; [vm_compute; reflexivity|].
  split; [reflexivity|].
  repeat split; vm_compute; reflexivity.
Qed.

End DatetimeExamples.

(** ** [to_unicode], [to_type], [to_number] *)

Section Casts.
Context `{Interpreter}.

Lemma to_type_raises value data_type e :
  to_type value data_type = Raise e ->
  e = ValueError_cannot_cast value (__name__ data_type).
Proof.
  unfold to_type, try_except.
  destruct (_ || _)%bool; [discriminate|].
  destruct (construct data_type value); [discriminate|].
  intros [= <-]. reflexivity.
Qed.

(** C5. For every value [v] and class [T]: [to_number] returns [v] itself
    when [v] is an instance of [T] or is [None]; otherwise, when [v] is
    falsy, it returns [T(0)], which is 0 for [int] and 0.0 for [float];
    otherwise it is [to_type(v, T)], whose only failure is the error that
    names [v] and the name of [T]. So [""] gives 0 for [int], [None] stays
    [None], and ["eggs"] for [float] fails naming "eggs" and "float". *)
Theorem C5_to_number (v : pyvalue) (T : pyclass) :
  ((isinstance v T = true \/ v = VNone) -> to_number v T = Ok v)
  /\ (isinstance v T = false -> v <> VNone -> truth v = false ->
      to_number v T = construct T (VInt 0))
  /\ construct py_int (VInt 0) = Ok (VInt 0)
  /\ construct py_float (VInt 0) = Ok (VFloat (S754_zero false))
  /\ (isinstance v T = false -> v <> VNone -> truth v = true ->
      to_number v T = to_type v T
      /\ (forall r, construct T v = Ok r -> to_type v T = Ok r)
      /\ (forall e, construct T v = Raise e ->
            to_type v T = Raise (ValueError_cannot_cast v (__name__ T)))
      /\ (forall e, to_type v T = Raise e ->
            e = ValueError_cannot_cast v (__name__ T)))
  /\ to_number (str "") py_int = Ok (VInt 0)
  /\ to_number VNone py_int = Ok VNone
  /\ to_number (str "eggs") py_float
     = Raise (ValueError_cannot_cast (str "eggs") "float").
Proof.
  unfold to_number.
  split; [|split; [|split; [|split; [|split]]]].
  - intros [-> | ->]; [reflexivity|].
    rewrite orb_true_r. reflexivity.
  - intros -> Hnone ->.
    destruct v; try reflexivity. contradiction.
  - reflexivity.
  - reflexivity.
  - intros Hinst Hnone ->. rewrite Hinst.
    assert (is_None v = false) as Hn by (destruct v; try reflexivity; contradiction).
    rewrite Hn. simpl. split; [reflexivity|].
    split; [|split]; [| |apply to_type_raises];
      unfold to_type, try_except; rewrite Hinst, Hn; simpl;
      intros ? ->; reflexivity.
  - repeat split; vm_compute; reflexivity.
Qed.


(** For any other value the module attribute [unicodedata.normalize] is
    looked up, and the module never imports [unicodedata]: what is raised
    is the error of the [unicode] builtin or this [NameError]. *)
Lemma to_unicode_needs_unicodedata (v : pyvalue) (encoding : string) :
  (forall u, v <> VUnicode u) ->
  global_name "unicodedata" = Raise (NameError "unicodedata")
  /\ exists e, to_unicode v encoding = Raise e
               /\ (e = NameError "unicodedata"
                   \/ builtin_unicode v None = Raise e).
Proof.
  intros Hv. split; [reflexivity|].
  unfold to_unicode, try_except.
  destruct v as [| | | |[] u| |]; try (exfalso; eapply Hv; reflexivity);
    (destruct (builtin_unicode _ (Some encoding));
     [simpl; eauto | destruct (builtin_unicode _ None) eqn:E; simpl; eauto]).
Qed.

End Casts.


(** ** [TypeExtenser.register] *)

Lemma contains_lookup {V} (d : gmap string V) key :
  contains d key = match d !! key with Some _ => true | None => false end.
Proof.
  unfold contains. destruct (d !! key) eqn:E.
  - apply bool_decide_eq_true. eauto.
  - apply bool_decide_eq_false. intros [? ?]. discriminate.
Qed.

(** C6. When [name] is not a property of the wrapped source, [register]
    raises the property-not-found [KeyError] and the decorator is exactly
    as before: same binding table, same property set. *)
Theorem C6_register_unknown_property name type custom_down custom_up
    (self : TypeExtenser) :
  wrapped_corn_properties self !! name = None ->
  register name type custom_down custom_up self = (self, Raise not_found).
Proof.
  intros Hmissing. unfold register, mbind, method_bind, get_self.
  rewrite contains_lookup, Hmissing. reflexivity.
Qed.

(** What a successful [register] did to the decorator. *)
Lemma register_succeeds name type custom_down custom_up
    (self self' : TypeExtenser) :
  register name type custom_down custom_up self = (self', Ok tt) ->
  exists native d u,
    wrapped_corn_properties self !! name = Some native
    /\ resolved custom_down (converters self) (types.type native) d
    /\ resolved custom_up (converters self) type u
    /\ self' = mk_TypeExtenser (self_name self) (wrapped_corn_properties self)
                 (<[name := mk_Type (self_name self) type name]> (properties self))
                 (converters self)
                 (<[mk_Type (self_name self) type name := mk_Converter d u]>
                    (named_convertors self)).
Proof.
  unfold register, mbind, method_bind, get_self, getitem, raise, mret, method_ret.
  rewrite contains_lookup.
  destruct (wrapped_corn_properties self !! name) as [native|] eqn:Hnative;
    simpl; [|discriminate].
  destruct custom_down as [cd|], custom_up as [cu|]; simpl;
    repeat match goal with
           | |- context [converters self !! ?t] =>
               let E := fresh "E" in
               destruct (converters self !! t) eqn:E; simpl; [|discriminate]
           end;
    rewrite lookup_insert_eq; simpl;
    intros [= <-]; eauto 10.
Qed.

(** C8. After a successful [register(name, type, custom_down, custom_up)]
    the binding stored for the newly declared property has, as its down
    converter, [custom_down] when given and otherwise the registry entry
    for the type the wrapped source declares for [name]; as its up
    converter, [custom_up] when given and otherwise the registry entry for
    [type]. *)
Theorem C8_register_resolves_converters name type custom_down custom_up
    (self self' : TypeExtenser) :
  register name type custom_down custom_up self = (self', Ok tt) ->
  exists native binding,
    wrapped_corn_properties self !! name = Some native
    /\ properties self' !! name = Some (mk_Type (self_name self) type name)
    /\ named_convertors self' !! mk_Type (self_name self) type name
       = Some binding
    /\ (forall f, custom_down = Some f -> down binding = f)
    /\ (custom_down = None ->
        converters self !! types.type native = Some (down binding))
    /\ (forall f, custom_up = Some f -> up binding = f)
    /\ (custom_up = None -> converters self !! type = Some (up binding)).
Proof.
  intros Hok.
  destruct (register_succeeds _ _ _ _ _ _ Hok)
    as (native & d & u & Hnative & Hdown & Hup & ->).
  exists native, (mk_Converter d u). simpl.
  rewrite !lookup_insert_eq.
  repeat split; trivial; intros; subst; simpl in *; congruence.
Qed.

(** C9. When [name] is a property of the wrapped source but a converter
    has to come from the registry and the registry has none for the type
    in question, [register] raises the registry's [KeyError] after the
    new declaration of [name] went into the property set: that set has
    changed, the binding table has not. *)
Theorem C9_register_not_atomic name type custom_down custom_up
    (self : TypeExtenser) native :
  wrapped_corn_properties self !! name = Some native ->
  (custom_down = None /\ converters self !! types.type native = None)
  \/ (custom_up = None /\ converters self !! type = None) ->
  exists self' missing,
    register name type custom_down custom_up self
    = (self', Raise (KeyError_type missing))
    /\ properties self'
       = <[name := mk_Type (self_name self) type name]> (properties self)
    /\ named_convertors self' = named_convertors self
    /\ converters self !! missing = None.
Proof.
  intros Hnative Hmissing.
  unfold register, mbind, method_bind, get_self, getitem, raise, mret, method_ret.
  rewrite contains_lookup, Hnative. simpl.
  destruct Hmissing as [[-> Hdown] | [-> Hup]].
  - rewrite Hdown. simpl. eauto 10.
  - destruct custom_down as [cd|]; simpl.
    + rewrite Hup. simpl. eauto 10.
    + destruct (converters self !! types.type native) eqn:E; simpl.
      * rewrite Hup. simpl. eauto 10.
      * eauto 10.
Qed.


Lemma C6_register_unknown_property_witness :
  wrapped_corn_properties example_extenser !! "age" = None
  /\ register "age" t_int None None example_extenser
     = (example_extenser, Raise not_found).
Proof.
  split; [reflexivity|].
  apply C6_register_unknown_property. reflexivity.
Defined.

Lemma C8_register_resolves_converters_witness :
  exists self',
    register "born" t_datetime None None example_extenser = (self', Ok tt)
    /\ exists binding,
         named_convertors self' !! mk_Type "typed" t_datetime "born" = Some binding
         /\ converters example_extenser !! t_unicode = Some (down binding)
         /\ converters example_extenser !! t_datetime = Some (up binding).
Proof.
  exists (fst (register "born" t_datetime None None example_extenser)).
  assert (register "born" t_datetime None None example_extenser
          = (fst (register "born" t_datetime None None example_extenser), Ok tt))
    as Hok by reflexivity.
  split; [exact Hok|].
  destruct (C8_register_resolves_converters _ _ _ _ _ _ Hok)
    as (native & binding & Hnative & _ & Hbinding & _ & Hdown & _ & Hup).
  exists binding. split; [exact Hbinding|].
  injection Hnative as <-.
  split; [exact (Hdown eq_refl) | exact (Hup eq_refl)].
Defined.

Lemma C9_register_not_atomic_witness :
  exists self',
    register "born" (t_class "Money") None None example_extenser
    = (self', Raise (KeyError_type (t_class "Money")))
    /\ properties self' !! "born" = Some (mk_Type "typed" (t_class "Money") "born")
    /\ properties example_extenser !! "born" = None
    /\ named_convertors self' = named_convertors example_extenser.
Proof.
  destruct (C9_register_not_atomic "born" (t_class "Money") None None
              example_extenser (mk_Type "people" t_unicode "born") eq_refl
              (or_intror (conj eq_refl eq_refl)))
    as (self' & missing & Hraise & Hprops & Hbindings & _).
  exists self'.
  assert (missing = t_class "Money") as ->.
  { assert (snd (register "born" (t_class "Money") None None example_extenser)
            = Raise (KeyError_type (t_class "Money"))) as Hsnd by reflexivity.
    rewrite Hraise in Hsnd. simpl in Hsnd. congruence. }
  split; [exact Hraise|].
  rewrite Hprops. split; [apply lookup_insert_eq|].
  split; [reflexivity | exact Hbindings].
Defined.


Lemma C5_to_number_witness :
  to_number (str "eggs") (@py_float latin1_interpreter)
  = to_type (str "eggs") (@py_float latin1_interpreter)
  /\ to_type (str "eggs") (@py_float latin1_interpreter)
     = Raise (ValueError_cannot_cast (str "eggs") "float")
  /\ to_number (VBool false) (@py_float latin1_interpreter)
     = Ok (VFloat (S754_zero false)).
Proof.
  pose proof (@C5_to_number latin1_interpreter (str "eggs")
                (@py_float latin1_interpreter)) as (_ & _ & _ & _ & Hcast & _).
  destruct (Hcast eq_refl ltac:(discriminate) eq_refl) as (Hto & _ & Hraise & _).
  split; [exact Hto|].
  split; [exact (Hraise _ eq_refl)|].
  pose proof (@C5_to_number latin1_interpreter (VBool false)
                (@py_float latin1_interpreter)) as (_ & Hzero & _).
  exact (Hzero eq_refl ltac:(discriminate) eq_refl).
Defined.


(** ** The matcher and the languages of the directives *)

Lemma re_match_sound {A} (r : regex) : forall s (k : text -> text -> option A) a,
  re_match r s k = Some a ->
  exists m rest, s = m ++ rest /\ matches r m /\ k m rest = Some a.
Proof.
  induction r as [lo hi | r1 IH1 r2 IH2 | r1 IH1 r2 IH2]; intros s k a; simpl.
  - destruct s as [|c s']; [discriminate|].
    destruct (N.leb lo c && N.leb c hi)%bool eqn:Hin; [|discriminate].
    apply andb_true_iff in Hin as [Hlo Hhi].
    apply N.leb_le in Hlo, Hhi.
    intros Hk. exists [c], s'. repeat split; trivial. constructor; trivial.
  - intros Hm.
    apply IH1 in Hm as (m1 & s1 & -> & Hm1 & Hm).
    apply IH2 in Hm as (m2 & s2 & -> & Hm2 & Hk).
    exists (m1 ++ m2), s2. rewrite <- app_assoc.
    repeat split; trivial. constructor; trivial.
  - destruct (re_match r1 s k) as [a'|] eqn:H1.
    + intros [= <-]. apply IH1 in H1 as (m & rest & -> & Hm & Hk).
      exists m, rest. repeat split; trivial. apply matches_alt_l; trivial.
    + intros H2. apply IH2 in H2 as (m & rest & -> & Hm & Hk).
      exists m, rest. repeat split; trivial. apply matches_alt_r; trivial.
Qed.

Lemma re_match_ext {A} (r : regex) : forall s (k1 k2 : text -> text -> option A),
  (forall m rest, k1 m rest = k2 m rest) ->
  re_match r s k1 = re_match r s k2.
Proof.
  induction r as [lo hi | r1 IH1 r2 IH2 | r1 IH1 r2 IH2]; intros s k1 k2 Hk; simpl.
  - destruct s; [reflexivity|]. destruct (_ && _)%bool; auto.
  - apply IH1. intros m1 s1. apply IH2. intros m2 s2. apply Hk.
  - rewrite (IH1 s k1 k2 Hk), (IH2 s k1 k2 Hk). reflexivity.
Qed.

(** A continuation that never fails only post-processes the first match. *)
Lemma re_match_map {A B} (g : A -> B) (r : regex) :
  forall s (k : text -> text -> option A),
  re_match r s (fun m rest => g <$> k m rest) = g <$> re_match r s k.
Proof.
  induction r as [lo hi | r1 IH1 r2 IH2 | r1 IH1 r2 IH2]; intros s k; simpl.
  - destruct s; [reflexivity|]. destruct (_ && _)%bool; reflexivity.
  - rewrite <- IH1. apply re_match_ext. intros m1 s1. apply IH2.
  - rewrite IH1, IH2. destruct (re_match r1 s k); reflexivity.
Qed.

Lemma match_directives_ext {A} (format : list directive) :
  forall s (k1 k2 : list (directive * text) -> text -> option A),
  (forall found rest, k1 found rest = k2 found rest) ->
  match_directives format s k1 = match_directives format s k2.
Proof.
  induction format as [|d format IH]; intros s k1 k2 Hk; simpl.
  - apply Hk.
  - apply re_match_ext. intros m s1. apply IH. intros found rest. apply Hk.
Qed.

Lemma match_directives_map {A B} (g : A -> B) (format : list directive) :
  forall s (k : list (directive * text) -> text -> option A),
  match_directives format s (fun found rest => g <$> k found rest)
  = g <$> match_directives format s k.
Proof.
  induction format as [|d format IH]; intros s k; simpl.
  - reflexivity.
  - rewrite <- re_match_map. apply re_match_ext. intros m s1. apply IH.
Qed.

Lemma match_directives_sound {A} (format : list directive) :
  forall s (k : list (directive * text) -> text -> option A) a,
  match_directives format s k = Some a ->
  exists found rest,
    s = concat (map snd found) ++ rest
    /\ found_for format found /\ k found rest = Some a.
Proof.
  induction format as [|d format IH]; intros s k a; simpl.
  - intros Hk. exists [], s. repeat split; trivial. constructor.
  - intros Hm.
    apply re_match_sound in Hm as (m & s1 & -> & Hm & Hrest).
    apply IH in Hrest as (found & rest & -> & Hfound & Hk).
    exists ((d, m) :: found), rest. simpl. rewrite <- app_assoc.
    repeat split; trivial. constructor; trivial.
Qed.

Lemma matches_words r m : matches r m -> m ∈ words r.
Proof.
  induction 1 as [lo hi c Hlo Hhi | r1 r2 m1 m2 _ IH1 _ IH2
                 | r1 r2 m _ IH | r1 r2 m _ IH]; simpl.
  - apply list_elem_of_fmap. exists (N.to_nat (c - lo)). split.
    + f_equal. lia.
    + apply list_elem_of_In, in_seq. lia.
  - apply list_elem_of_bind. exists m1. split; [|trivial].
    apply list_elem_of_fmap. eauto.
  - apply elem_of_app. auto.
  - apply elem_of_app. auto.
Qed.

Lemma words_forall (p : text -> bool) r m :
  forallb p (words r) = true -> matches r m -> p m = true.
Proof.
  intros Hall Hm. rewrite forallb_forall in Hall.
  apply Hall, list_elem_of_In, matches_words, Hm.
Qed.

(** ** [strptime] with the format [%Y%m%d] *)

(** The four digits of the year are consumed as they stand. *)
Lemma re_match_year {A} Y tail (k : text -> text -> option A) :
  matches (directive_regex dY) Y ->
  re_match (directive_regex dY) (Y ++ tail) k = k Y tail.
Proof.
  unfold directive_regex, re_digit. intros HY.
  repeat match goal with
         | M : matches (Seq _ _) _ |- _ => inversion M; subst; clear M
         | M : matches (Range _ _) _ |- _ => inversion M; subst; clear M
         end.
  cbn [re_match app].
  repeat match goal with
         | Hle : (_ <= _)%N |- _ => apply N.leb_le in Hle; rewrite Hle; clear Hle
         end.
  reflexivity.
Qed.

Lemma days_in_month_other_years y y' m :
  m <> 2 -> days_in_month y m = days_in_month y' m.
Proof.
  intros Hm. unfold days_in_month.
  destruct (m =? 2) eqn:E; [apply Z.eqb_eq in E; contradiction | reflexivity].
Qed.

Lemma date_of_ok y m d dte :
  date_of y m d = Ok dte <-> valid_date y m d /\ dte = mk_date y m d.
Proof.
  unfold date_of, valid_date.
  destruct (1 <=? y) eqn:E1, (y <=? 9999) eqn:E2, (1 <=? m) eqn:E3,
           (m <=? 12) eqn:E4, (1 <=? d) eqn:E5,
           (d <=? days_in_month y m) eqn:E6; simpl;
    (split; [intros [= <-] | intros [Hv ->]]); try (exfalso; lia);
    try (split; [lia | reflexivity]); try reflexivity.
Qed.

Lemma date_of_raises y m d e :
  date_of y m d = Raise e -> exists field, e = ValueError_range field.
Proof.
  unfold date_of.
  repeat (destruct (negb _); [intros [= <-]; eauto|]). discriminate.
Qed.

Lemma from_1_to_forall (p : Z -> bool) (n : Z) :
  forallb p (from_1_to n) = true ->
  forall z, 1 <= z <= n -> p z = true.
Proof.
  intros Hall z Hz. rewrite forallb_forall in Hall.
  apply Hall, in_map_iff. exists (Z.to_nat z). split; [lia|].
  apply in_seq. lia.
Qed.

Lemma reads_as_number_spec m :
  reads_as_number m = true ->
  int_of_str m = Ok (number_of m)
  /\ is_ascii_text m = true /\ existsb (N.eqb 0) m = false.
Proof.
  unfold reads_as_number.
  destruct (int_of_str m) as [a|]; [|discriminate].
  intros Hm. apply andb_true_iff in Hm as [Hm Hnul].
  apply andb_true_iff in Hm as [Ha Hascii].
  apply Z.eqb_eq in Ha. apply negb_true_iff in Hnul. subst. auto.
Qed.

Lemma group_reads_as_number d m :
  d = dY \/ d = dm \/ d = dd ->
  matches (directive_regex d) m -> reads_as_number m = true.
Proof.
  intros [-> | [-> | ->]]; apply words_forall; vm_compute; reflexivity.
Qed.

Ltac group_reads :=
  match goal with
  | HM : matches (directive_regex ?d) ?m |- reads_as_number ?m = true =>
      apply (group_reads_as_number d m); [auto | exact HM]
  end.

Lemma as_c_string_cases k t :
  as_c_string k t = Ok t
  \/ as_c_string k t = Raise (UnicodeEncodeError_ascii t)
  \/ as_c_string k t = Raise (TypeError "must be string without null bytes").
Proof.
  unfold as_c_string.
  destruct k; [|destruct (negb (is_ascii_text t)); [auto|]];
    destruct (existsb (N.eqb 0) t); auto.
Qed.

Lemma as_c_string_ok k t :
  is_ascii_text t = true -> existsb (N.eqb 0) t = false ->
  as_c_string k t = Ok t.
Proof.
  unfold as_c_string. intros -> ->. destruct k; reflexivity.
Qed.

(** A text cut into three groups goes through the argument conversion. *)
Lemma as_c_string_groups k Y M D :
  matches (directive_regex dY) Y -> matches (directive_regex dm) M ->
  matches (directive_regex dd) D ->
  as_c_string k (Y ++ M ++ D) = Ok (Y ++ M ++ D).
Proof.
  intros HY HM HD.
  apply (group_reads_as_number dY), reads_as_number_spec in HY
    as (_ & HYa & HYn); [|auto].
  apply (group_reads_as_number dm), reads_as_number_spec in HM
    as (_ & HMa & HMn); [|auto].
  apply (group_reads_as_number dd), reads_as_number_spec in HD
    as (_ & HDa & HDn); [|auto].
  apply as_c_string_ok.
  - unfold is_ascii_text in *. rewrite !forallb_app, HYa, HMa, HDa. reflexivity.
  - rewrite !existsb_app, HYn, HMn, HDn. reflexivity.
Qed.

Lemma first_match_year Y MD :
  matches (directive_regex dY) Y ->
  first_match fmt_Ymd (Y ++ MD)
  = (fun fr => ((dY, Y) :: fst fr, snd fr)) <$> first_match [dm; dd] MD.
Proof.
  intros HY. unfold first_match, fmt_Ymd.
  rewrite <- match_directives_map.
  change (match_directives [dY; dm; dd] (Y ++ MD) (fun found rest => Some (found, rest)))
    with (re_match (directive_regex dY) (Y ++ MD) (fun m s1 =>
            match_directives [dm; dd] s1
              (fun found rest => Some ((dY, m) :: found, rest)))).
  rewrite re_match_year by trivial.
  apply match_directives_ext. reflexivity.
Qed.

(** What [to_date] does once the three groups are found. *)
Lemma to_date_found k s Y M D :
  as_c_string k (date_digits s) = Ok (date_digits s) ->
  first_match fmt_Ymd (date_digits s) = Some ([(dY, Y); (dm, M); (dd, D)], []) ->
  reads_as_number Y = true -> reads_as_number M = true ->
  reads_as_number D = true ->
  to_date (VText k s)
  = (dte ← date_of (number_of Y) (number_of M) (number_of D); Ok (VDate dte)).
Proof.
  intros Hc Hfound HY HM HD.
  apply reads_as_number_spec in HY as (HY & _), HM as (HM & _), HD as (HD & _).
  unfold to_date, strptime. fold (date_digits s).
  rewrite Hc. cbn [mbind result_bind]. rewrite Hfound.
  cbn [read_fields]. rewrite HY, HM, HD. cbn.
  unfold datetime_of.
  destruct (date_of (number_of Y) (number_of M) (number_of D)); reflexivity.
Qed.

(** What [to_date] does when the text is not three groups and no more. *)
Lemma to_date_not_found k s :
  as_c_string k (date_digits s) = Ok (date_digits s) ->
  (first_match fmt_Ymd (date_digits s) = None ->
   to_date (VText k s)
   = Raise (ValueError_time_data (date_digits s) "%Y%m%d"))
  /\ (forall found c rest,
        first_match fmt_Ymd (date_digits s) = Some (found, c :: rest) ->
        to_date (VText k s) = Raise (ValueError_unconverted (c :: rest))).
Proof.
  intros Hc. split; [intros Hfirst | intros found c rest Hfirst];
    unfold to_date, strptime; fold (date_digits s);
    rewrite Hc; cbn [mbind result_bind]; rewrite Hfirst; reflexivity.
Qed.

Lemma to_date_not_c_string k s e :
  as_c_string k (date_digits s) = Raise e -> to_date (VText k s) = Raise e.
Proof.
  intros Hc. unfold to_date, strptime. fold (date_digits s).
  rewrite Hc. reflexivity.
Qed.

Lemma month_day_first_match_all M D :
  matches (directive_regex dm) M -> matches (directive_regex dd) D ->
  month_day_first_match M D = true.
Proof.
  intros HM HD. revert D HD. revert M HM.
  assert (forallb (fun M => forallb (month_day_first_match M)
                              (words (directive_regex dd)))
                  (words (directive_regex dm)) = true) as Hall
    by (vm_compute; reflexivity).
  intros M HM D HD.
  apply (words_forall (fun M => forallb (month_day_first_match M)
                                  (words (directive_regex dd))) _ M Hall) in HM.
  exact (words_forall _ _ D HM HD).
Qed.

Lemma first_match_Ymd_shape t found rest :
  first_match fmt_Ymd t = Some (found, rest) ->
  exists Y M D,
    found = [(dY, Y); (dm, M); (dd, D)] /\ t = Y ++ M ++ D ++ rest
    /\ matches (directive_regex dY) Y /\ matches (directive_regex dm) M
    /\ matches (directive_regex dd) D.
Proof.
  intros Hm. apply match_directives_sound in Hm
    as (found' & rest' & -> & Hfor & [= <- <-]).
  inversion Hfor as [|? Y ? f1 HY H1]; subst.
  inversion H1 as [|? M ? f2 HM H2]; subst.
  inversion H2 as [|? D ? f3 HD H3]; subst.
  inversion H3; subst.
  exists Y, M, D. simpl. rewrite app_nil_r, <- !app_assoc. auto.
Qed.

Lemma first_match_md_shape t found rest :
  first_match [dm; dd] t = Some (found, rest) ->
  exists M D,
    found = [(dm, M); (dd, D)]
    /\ matches (directive_regex dm) M /\ matches (directive_regex dd) D.
Proof.
  intros Hm. apply match_directives_sound in Hm
    as (found' & rest' & -> & Hfor & [= <- <-]).
  inversion Hfor as [|? M ? f1 HM H1]; subst.
  inversion H1 as [|? D ? f2 HD H2]; subst.
  inversion H2; subst. eauto.
Qed.

Lemma to_date_sound k s v :
  to_date (VText k s) = Ok v ->
  exists Y M D,
    ymd_shape (date_digits s) Y M D
    /\ valid_date (number_of Y) (number_of M) (number_of D)
    /\ v = VDate (mk_date (number_of Y) (number_of M) (number_of D)).
Proof.
  intros Hok.
  destruct (as_c_string_cases k (date_digits s)) as [Hc | [Hc | Hc]];
    try (rewrite (to_date_not_c_string _ _ _ Hc) in Hok; discriminate).
  destruct (to_date_not_found k s Hc) as [Hnone Hrest].
  destruct (first_match fmt_Ymd (date_digits s)) as [[found rest]|] eqn:Hfirst;
    [|rewrite Hnone in Hok by trivial; discriminate].
  destruct rest as [|c rest];
    [|rewrite (Hrest _ _ _ eq_refl) in Hok; discriminate].
  destruct (first_match_Ymd_shape _ _ _ Hfirst)
    as (Y & M & D & -> & Ht & HY & HM & HD).
  rewrite app_nil_r in Ht.
  rewrite (to_date_found k s Y M D Hc Hfirst) in Hok by group_reads.
  destruct (date_of (number_of Y) (number_of M) (number_of D)) as [dte|] eqn:Hd;
    [|discriminate].
  apply date_of_ok in Hd as [Hvalid ->]. injection Hok as <-.
  exists Y, M, D. unfold ymd_shape. auto.
Qed.

Lemma to_date_complete k s Y M D :
  ymd_shape (date_digits s) Y M D ->
  valid_date (number_of Y) (number_of M) (number_of D) ->
  exists v, to_date (VText k s) = Ok v.
Proof.
  intros (Ht & HY & HM & HD) (Hy & Hm & Hd).
  pose proof (as_c_string_groups k Y M D HY HM HD) as Hc. rewrite <- Ht in Hc.
  pose proof (month_day_first_match_all M D HM HD) as Hmd.
  unfold month_day_first_match in Hmd.
  destruct (first_match [dm; dd] (M ++ D)) as [[found rest]|] eqn:Hfirst;
    [|discriminate].
  destruct (first_match_md_shape _ _ _ Hfirst) as (M' & D' & -> & HM' & HD').
  destruct rest; [|discriminate].
  assert (first_match fmt_Ymd (date_digits s)
          = Some ([(dY, Y); (dm, M'); (dd, D')], [])) as Hall.
  { rewrite Ht, first_match_year by trivial. rewrite Hfirst. reflexivity. }
  rewrite (to_date_found k s Y M' D' Hc Hall) by group_reads.
  assert (valid_date (number_of Y) (number_of M') (number_of D')) as Hvalid.
  { apply andb_true_iff in Hmd as [_ Hrel].
    apply orb_true_iff in Hrel as [Hsame | Hother].
    - apply andb_true_iff in Hsame as [E1 E2].
      apply Z.eqb_eq in E1, E2. rewrite E1, E2. repeat split; lia.
    - repeat (apply andb_true_iff in Hother as [Hother ?]).
      apply negb_true_iff, Z.eqb_neq in Hother.
      unfold valid_date.
      rewrite (days_in_month_other_years (number_of Y) 1) by trivial.
      repeat split; lia. }
  assert (date_of (number_of Y) (number_of M') (number_of D')
          = Ok (mk_date (number_of Y) (number_of M') (number_of D'))) as ->
    by (apply date_of_ok; auto).
  eexists. reflexivity.
Qed.

Lemma to_date_raises k s e :
  to_date (VText k s) = Raise e ->
  e = ValueError_time_data (date_digits s) "%Y%m%d"
  \/ (exists c rest, e = ValueError_unconverted (c :: rest))
  \/ (exists field, e = ValueError_range field)
  \/ e = UnicodeEncodeError_ascii (date_digits s)
  \/ e = TypeError "must be string without null bytes".
Proof.
  intros Hraise.
  destruct (as_c_string_cases k (date_digits s)) as [Hc | [Hc | Hc]];
    try (rewrite (to_date_not_c_string _ _ _ Hc) in Hraise;
         injection Hraise as <-; auto 10).
  destruct (to_date_not_found k s Hc) as [Hnone Hrest].
  destruct (first_match fmt_Ymd (date_digits s)) as [[found rest]|] eqn:Hfirst.
  - destruct rest as [|c rest].
    + destruct (first_match_Ymd_shape _ _ _ Hfirst)
        as (Y & M & D & -> & Ht & HY & HM & HD).
      rewrite (to_date_found k s Y M D Hc Hfirst) in Hraise by group_reads.
      destruct (date_of (number_of Y) (number_of M) (number_of D)) as [dte|e'] eqn:Hd;
        [discriminate|].
      injection Hraise as <-. right; right; left. eapply date_of_raises; eauto.
    + rewrite (Hrest _ _ _ eq_refl) in Hraise. injection Hraise as <-.
      right; left; eauto.
  - rewrite Hnone in Hraise by trivial. injection Hraise as <-. left; reflexivity.
Qed.

(** *** Dates written with eight digits *)

Lemma digit_matches c : is_digit c = true -> matches re_digit [c].
Proof.
  unfold is_digit. intros Hc. apply andb_true_iff in Hc as [Hlo Hhi].
  apply N.leb_le in Hlo, Hhi. constructor; trivial.
Qed.

Lemma year_pad y :
  1 <= y <= 9999 ->
  matches (directive_regex dY) (pad 4 y) /\ number_of (pad 4 y) = y.
Proof.
  intros Hy.
  assert (year_pad_ok y = true) as Hok.
  { apply (from_1_to_forall year_pad_ok 9999); [vm_compute; reflexivity | lia]. }
  unfold year_pad_ok in Hok.
  destruct (pad 4 y) as [|a [|b [|c [|d [|? ?]]]]]; try discriminate.
  do 4 (apply andb_true_iff in Hok as [Hok ?]).
  split; [|apply Z.eqb_eq; trivial].
  change [a; b; c; d] with ((([a] ++ [b]) ++ [c]) ++ [d]).
  unfold directive_regex.
  repeat (apply matches_seq); apply digit_matches; trivial.
Qed.

Lemma days_in_month_le y m : days_in_month y m <= 31.
Proof.
  unfold days_in_month.
  destruct (m =? 2); [destruct (is_leap y); lia|].
  destruct (_ || _)%bool; lia.
Qed.

Lemma month_day_pad m d :
  1 <= m <= 12 -> 1 <= d <= 31 -> month_day_pad_ok m d = true.
Proof.
  intros Hm Hd.
  assert (forallb (fun m => forallb (month_day_pad_ok m) (from_1_to 31))
                  (from_1_to 12) = true) as Hall
    by (vm_compute; reflexivity).
  apply (from_1_to_forall _ 12 Hall m) in Hm.
  apply (from_1_to_forall _ 31 Hm d Hd).
Qed.

Lemma group_lengths t Y M D :
  ymd_shape t Y M D -> (6 <= length t <= 8)%nat.
Proof.
  intros (-> & HY & HM & HD).
  apply (words_forall (fun m => (length m =? 4)%nat)) in HY;
    [|vm_compute; reflexivity].
  apply (words_forall (fun m => ((1 <=? length m) && (length m <=? 2))%nat)) in HM;
    [|vm_compute; reflexivity].
  apply (words_forall (fun m => ((1 <=? length m) && (length m <=? 2))%nat)) in HD;
    [|vm_compute; reflexivity].
  apply Nat.eqb_eq in HY.
  apply andb_true_iff in HM as [M1 M2], HD as [D1 D2].
  apply Nat.leb_le in M1, M2, D1, D2.
  rewrite !length_app. lia.
Qed.

Lemma to_date_canonical k s y m d :
  valid_date y m d ->
  date_digits s = pad 4 y ++ pad 2 m ++ pad 2 d ->
  to_date (VText k s) = Ok (VDate (mk_date y m d)).
Proof.
  intros (Hy & Hm & Hd) Ht.
  destruct (year_pad y Hy) as [HY Hny].
  pose proof (days_in_month_le y m) as Hle.
  pose proof (month_day_pad m d Hm ltac:(lia)) as Hmd.
  unfold month_day_pad_ok in Hmd.
  destruct (first_match [dm; dd] (pad 2 m ++ pad 2 d)) as [[found rest]|] eqn:Hfirst;
    [|discriminate].
  destruct (first_match_md_shape _ _ _ Hfirst) as (M' & D' & -> & HM' & HD').
  destruct rest; [|discriminate].
  repeat (apply andb_true_iff in Hmd as [Hmd ?]).
  unfold text_eqb in *.
  repeat match goal with
         | E : bool_decide _ = true |- _ => apply bool_decide_eq_true in E
         | E : (_ =? _) = true |- _ => apply Z.eqb_eq in E
         end.
  subst M' D'.
  pose proof (as_c_string_groups k _ _ _ HY HM' HD') as Hc. rewrite <- Ht in Hc.
  assert (first_match fmt_Ymd (date_digits s)
          = Some ([(dY, pad 4 y); (dm, pad 2 m); (dd, pad 2 d)], [])) as Hall.
  { rewrite Ht, first_match_year by trivial. rewrite Hfirst. reflexivity. }
  rewrite (to_date_found k s _ _ _ Hc Hall) by group_reads.
  replace (number_of (pad 4 y)) with y by congruence.
  replace (number_of (pad 2 m)) with m by congruence.
  replace (number_of (pad 2 d)) with d by congruence.
  assert (date_of y m d = Ok (mk_date y m d)) as ->
    by (apply date_of_ok; unfold valid_date; auto).
  reflexivity.
Qed.

(** C2, as the code has it. For a string input, with "-" and ":" taken
    out: [to_date] accepts exactly the texts that can be cut into a
    four-digit year, a month of one or two digits and a day of one or two
    digits (or a blank and a digit) forming a date of the calendar; such a
    text has six to eight characters, and the eight-digit form YYYYMMDD of
    a date gives that date. A string that is not accepted fails with the
    error of [strptime] or of the date constructor, never with the error
    that names the value and "date". *)
Theorem C2_to_date_strings (k : text_kind) (s : text) :
  ((exists v, to_date (VText k s) = Ok v)
   <-> exists Y M D,
         ymd_shape (date_digits s) Y M D
         /\ valid_date (number_of Y) (number_of M) (number_of D))
  /\ (forall v, to_date (VText k s) = Ok v ->
        (6 <= length (date_digits s) <= 8)%nat
        /\ exists Y M D,
             ymd_shape (date_digits s) Y M D
             /\ valid_date (number_of Y) (number_of M) (number_of D)
             /\ v = VDate (mk_date (number_of Y) (number_of M) (number_of D)))
  /\ (forall y m d,
        valid_date y m d ->
        date_digits s = pad 4 y ++ pad 2 m ++ pad 2 d ->
        to_date (VText k s) = Ok (VDate (mk_date y m d)))
  /\ (forall e, to_date (VText k s) = Raise e ->
        (e = ValueError_time_data (date_digits s) "%Y%m%d"
         \/ (exists c rest, e = ValueError_unconverted (c :: rest))
         \/ (exists field, e = ValueError_range field)
         \/ e = UnicodeEncodeError_ascii (date_digits s)
         \/ e = TypeError "must be string without null bytes")
        /\ forall v domain, e <> ValueError_cannot_cast v domain).
Proof.
  split; [split|split; [|split]].
  - intros [v Hv]. apply to_date_sound in Hv as (Y & M & D & ? & ? & _). eauto.
  - intros (Y & M & D & Hshape & Hvalid). eapply to_date_complete; eauto.
  - intros v Hv. apply to_date_sound in Hv as (Y & M & D & Hshape & Hvalid & ->).
    split; [eapply group_lengths; eauto | eauto 10].
  - intros y m d. apply to_date_canonical.
  - intros e He. apply to_date_raises in He. split; [exact He|].
    intros v domain ->.
    destruct He as [He | [(c & rest & He) | [(field & He) | [He | He]]]];
      discriminate.
Qed.

(** C2 as stated fails both ways: "2010-8-4" leaves the six characters
    "201084" and is accepted; "2010" is refused with the error of
    [strptime], which has the text and the format but not "date". *)
Lemma C2_counterexample :
  date_digits (codes "2010-8-4") = codes "201084"
  /\ to_date (str "2010-8-4") = Ok (VDate (mk_date 2010 8 4))
  /\ to_date (str "2010")
     = Raise (ValueError_time_data (codes "2010") "%Y%m%d").
Proof. repeat split. Qed.

Lemma C2_to_date_strings_witness :
  valid_date 2010 8 4
  /\ date_digits (codes "2010-08-04") = pad 4 2010 ++ pad 2 8 ++ pad 2 4
  /\ to_date (str "2010-08-04") = Ok (VDate (mk_date 2010 8 4)).
Proof.
  assert (valid_date 2010 8 4) as Hvalid by (vm_compute; intuition discriminate).
  split; [exact Hvalid|]. split; [reflexivity|].
  exact (proj1 (proj2 (proj2 (C2_to_date_strings KStr (codes "2010-08-04"))))
           2010 8 4 Hvalid eq_refl).
Defined.

(** * Further properties *)

(** ** The matcher as an ordered search *)

Lemma first_some_app {A B} (k : A -> option B) l1 l2 :
  first_some k (l1 ++ l2)
  = match first_some k l1 with
    | Some b => Some b
    | None => first_some k l2
    end.
Proof.
  induction l1 as [|a l1 IH]; simpl; [reflexivity|].
  destruct (k a); [reflexivity | exact IH].
Qed.

Lemma first_some_ext {A B} (k1 k2 : A -> option B) l :
  (forall a, a ∈ l -> k1 a = k2 a) -> first_some k1 l = first_some k2 l.
Proof.
  induction l as [|a l IH]; intros Hk; simpl; [reflexivity|].
  rewrite (Hk a) by constructor.
  rewrite IH; [reflexivity|]. intros b Hb. apply Hk. constructor. exact Hb.
Qed.

Lemma first_some_bind {A B C} (k : B -> option C) (f : A -> list B) l :
  first_some k (l ≫= f) = first_some (fun a => first_some k (f a)) l.
Proof.
  induction l as [|a l IH]; [reflexivity|].
  change ((a :: l) ≫= f) with (f a ++ (l ≫= f)).
  rewrite first_some_app, IH. reflexivity.
Qed.

Lemma first_some_one {A B} (k : A -> option B) a : first_some k [a] = k a.
Proof. simpl. destruct (k a); reflexivity. Qed.

(** The backtracking search returns what the continuation makes of the
    first candidate it accepts. *)
Lemma re_match_candidates {A} (r : regex) :
  forall s (k : text -> text -> option A),
  re_match r s k = first_some (fun p => k (fst p) (snd p)) (candidates r s).
Proof.
  induction r as [lo hi | r1 IH1 r2 IH2 | r1 IH1 r2 IH2]; intros s k; simpl.
  - destruct s as [|c s']; [reflexivity|].
    destruct (_ && _)%bool; simpl; [destruct (k [c] s')|]; reflexivity.
  - rewrite IH1, first_some_bind.
    apply first_some_ext. intros p1 _.
    rewrite IH2, first_some_bind.
    apply first_some_ext. intros p2 _.
    rewrite first_some_one. reflexivity.
  - rewrite IH1, IH2, first_some_app. reflexivity.
Qed.

Lemma candidates_sound (r : regex) :
  forall s p, p ∈ candidates r s ->
  s = fst p ++ snd p /\ (length (fst p) <= re_max r)%nat.
Proof.
  induction r as [lo hi | r1 IH1 r2 IH2 | r1 IH1 r2 IH2]; intros s p; simpl.
  - destruct s as [|c s']; [intros Hp; inversion Hp|].
    destruct (_ && _)%bool; intros Hp; [|inversion Hp].
    apply list_elem_of_singleton in Hp as ->. simpl. split; [reflexivity | lia].
  - intros Hp. apply list_elem_of_bind in Hp as (p1 & Hp & Hp1).
    apply list_elem_of_bind in Hp as (p2 & Hp & Hp2).
    apply list_elem_of_singleton in Hp as ->. simpl.
    apply IH1 in Hp1 as [-> L1]. apply IH2 in Hp2 as [E2 L2].
    rewrite E2 at 1. rewrite length_app, app_assoc.
    unfold text in *. split; [reflexivity | lia].
  - intros Hp. apply elem_of_app in Hp as [Hp | Hp];
      [apply IH1 in Hp | apply IH2 in Hp]; destruct Hp; unfold text in *;
      split; trivial; lia.
Qed.

Lemma bind_ext_in {A B} (f g : A -> list B) (l : list A) :
  (forall a, a ∈ l -> f a = g a) -> l ≫= f = l ≫= g.
Proof.
  induction l as [|a l IH]; intros Hfg; [reflexivity|].
  change ((a :: l) ≫= f) with (f a ++ (l ≫= f)).
  change ((a :: l) ≫= g) with (g a ++ (l ≫= g)).
  rewrite (Hfg a) by constructor. f_equal.
  apply IH. intros b Hb. apply Hfg. constructor. exact Hb.
Qed.

Lemma bind_fmap {A B C} (f : A -> B) (g : B -> list C) (l : list A) :
  (f <$> l) ≫= g = l ≫= (fun a => g (f a)).
Proof.
  induction l as [|a l IH]; [reflexivity|].
  change (f <$> a :: l) with (f a :: (f <$> l)).
  change ((f a :: (f <$> l)) ≫= g) with (g (f a) ++ ((f <$> l) ≫= g)).
  rewrite IH. reflexivity.
Qed.

Lemma fmap_bind {A B C} (f : B -> C) (g : A -> list B) (l : list A) :
  f <$> (l ≫= g) = l ≫= (fun a => f <$> g a).
Proof.
  induction l as [|a l IH]; [reflexivity|].
  change ((a :: l) ≫= g) with (g a ++ (l ≫= g)).
  rewrite fmap_app, IH. reflexivity.
Qed.

(** A search does not look past the longest word: on a text at least that
    long, what follows only comes back in what is left. *)
Lemma candidates_local (r : regex) :
  forall w tail, (re_max r <= length w)%nat ->
  candidates r (w ++ tail)
  = (fun p => (fst p, snd p ++ tail)) <$> candidates r w.
Proof.
  induction r as [lo hi | r1 IH1 r2 IH2 | r1 IH1 r2 IH2]; intros w tail; simpl.
  - destruct w as [|c w]; simpl; [lia|]. intros _.
    destruct (_ && _)%bool; reflexivity.
  - intros Hlen. rewrite IH1 by lia. rewrite bind_fmap, fmap_bind.
    apply bind_ext_in. intros p1 Hp1. simpl.
    apply candidates_sound in Hp1 as [Hw L1].
    rewrite IH2.
    + rewrite bind_fmap, fmap_bind. reflexivity.
    + apply (f_equal length) in Hw. rewrite length_app in Hw.
      unfold text in *. lia.
  - intros Hlen. rewrite IH1, IH2 by lia. rewrite fmap_app. reflexivity.
Qed.

(** When the first candidate on [w] alone is [w] itself and the rest of
    the search accepts it, that is the match. *)
Lemma re_match_first_try {A} r w tail rest (k : text -> text -> option A) a :
  candidates r w = (w, []) :: rest -> (re_max r <= length w)%nat ->
  k w tail = Some a ->
  re_match r (w ++ tail) k = Some a.
Proof.
  intros Hfirst Hlen Hk.
  rewrite re_match_candidates, candidates_local, Hfirst by trivial.
  simpl. rewrite Hk. reflexivity.
Qed.

(** ** [strptime] with the format [%Y%m%d%H%M%S] *)

Lemma two_digits_first_ok d n :
  two_digits_range d n -> two_digits_first d n = true.
Proof.
  destruct d; simpl; intros Hn; [contradiction| | | | |].
  - apply (from_1_to_forall (two_digits_first dm) 12); [vm_compute; reflexivity | lia].
  - apply (from_1_to_forall (two_digits_first dd) 31); [vm_compute; reflexivity | lia].
  - assert (n = 0 \/ 1 <= n) as [-> | Hpos] by lia; [vm_compute; reflexivity|].
    apply (from_1_to_forall (two_digits_first dH) 23); [vm_compute; reflexivity | lia].
  - assert (n = 0 \/ 1 <= n) as [-> | Hpos] by lia; [vm_compute; reflexivity|].
    apply (from_1_to_forall (two_digits_first dM) 59); [vm_compute; reflexivity | lia].
  - assert (n = 0 \/ 1 <= n) as [-> | Hpos] by lia; [vm_compute; reflexivity|].
    apply (from_1_to_forall (two_digits_first dS) 59); [vm_compute; reflexivity | lia].
Qed.

Lemma two_digits_first_spec d n :
  two_digits_first d n = true ->
  (exists rest, candidates (directive_regex d) (pad 2 n) = (pad 2 n, []) :: rest)
  /\ length (pad 2 n) = 2%nat
  /\ (re_max (directive_regex d) <= 2)%nat
  /\ reads_as_number (pad 2 n) = true /\ number_of (pad 2 n) = n.
Proof.
  unfold two_digits_first.
  destruct (candidates (directive_regex d) (pad 2 n)) as [|[m [|? ?]] rest];
    try discriminate.
  intros Hall.
  repeat (apply andb_true_iff in Hall as [Hall ?]).
  apply bool_decide_eq_true in Hall as ->.
  repeat match goal with
         | E : (_ =? _)%nat = true |- _ => apply Nat.eqb_eq in E
         | E : (_ <=? _)%nat = true |- _ => apply Nat.leb_le in E
         | E : (_ =? _) = true |- _ => apply Z.eqb_eq in E
         end.
  eauto 10.
Qed.

Lemma match_directives_first_try {A} d n format tail
    (k : list (directive * text) -> text -> option A) a :
  two_digits_first d n = true ->
  match_directives format tail (fun found rest => k ((d, pad 2 n) :: found) rest)
  = Some a ->
  match_directives (d :: format) (pad 2 n ++ tail) k = Some a.
Proof.
  intros Hfirst Hk.
  apply two_digits_first_spec in Hfirst as ([rest Hc] & Hlen & Hmax & _).
  simpl. eapply re_match_first_try; eauto. lia.
Qed.

Lemma first_match_fourteen_digits y m d H M S :
  1 <= y <= 9999 -> two_digits_range dm m -> two_digits_range dd d ->
  two_digits_range dH H -> two_digits_range dM M -> two_digits_range dS S ->
  first_match fmt_YmdHMS (fourteen_digits y m d H M S)
  = Some ([(dY, pad 4 y); (dm, pad 2 m); (dd, pad 2 d);
           (dH, pad 2 H); (dM, pad 2 M); (dS, pad 2 S)], []).
Proof.
  intros Hy Hm Hd HH HM HS.
  destruct (year_pad y Hy) as [HY _].
  unfold first_match, fmt_YmdHMS, fourteen_digits.
  change (match_directives (dY :: ?f) ?s ?k)
    with (re_match (directive_regex dY) s (fun m s1 =>
            match_directives f s1 (fun found rest => k ((dY, m) :: found) rest))).
  rewrite re_match_year by trivial.
  replace (pad 2 M ++ pad 2 S) with (pad 2 M ++ pad 2 S ++ [])
    by (rewrite app_nil_r; reflexivity).
  repeat (apply match_directives_first_try;
          [apply two_digits_first_ok; trivial|]).
  reflexivity.
Qed.

Lemma as_c_string_concat k (groups : list text) :
  Forall (fun g => reads_as_number g = true) groups ->
  as_c_string k (concat groups) = Ok (concat groups).
Proof.
  intros Hall. apply as_c_string_ok.
  - induction Hall as [|g groups Hg _ IH]; [reflexivity|].
    apply reads_as_number_spec in Hg as (_ & Hg & _).
    simpl. unfold is_ascii_text in *. rewrite forallb_app, Hg, IH. reflexivity.
  - induction Hall as [|g groups Hg _ IH]; [reflexivity|].
    apply reads_as_number_spec in Hg as (_ & _ & Hg).
    simpl. rewrite existsb_app, Hg, IH. reflexivity.
Qed.

Lemma datetime_of_ok y m d H M S :
  valid_date y m d -> valid_time H M S ->
  datetime_of y m d H M S = Ok (mk_datetime (mk_date y m d) H M S 0 None).
Proof.
  intros Hdate (HH & HM & HS). unfold datetime_of.
  assert (date_of y m d = Ok (mk_date y m d)) as ->
    by (apply date_of_ok; auto).
  cbn [mbind result_bind].
  destruct (0 <=? H) eqn:E1, (H <=? 23) eqn:E2, (0 <=? M) eqn:E3,
           (M <=? 59) eqn:E4, (0 <=? S) eqn:E5, (S <=? 59) eqn:E6;
    simpl; try reflexivity; lia.
Qed.

Lemma fourteen_digits_length y m d H M S :
  valid_date y m d -> valid_time H M S ->
  length (fourteen_digits y m d H M S) = 14%nat.
Proof.
  intros (Hy & Hm & Hd) (HH & HM & HS).
  pose proof (days_in_month_le y m) as Hle.
  destruct (year_pad y Hy) as [HY _].
  apply (words_forall (fun w => (length w =? 4)%nat)) in HY;
    [|vm_compute; reflexivity].
  apply Nat.eqb_eq in HY.
  destruct (two_digits_first_spec dm m) as (_ & L1 & _);
    [apply two_digits_first_ok; simpl; lia|].
  destruct (two_digits_first_spec dd d) as (_ & L2 & _);
    [apply two_digits_first_ok; simpl; lia|].
  destruct (two_digits_first_spec dH H) as (_ & L3 & _);
    [apply two_digits_first_ok; simpl; lia|].
  destruct (two_digits_first_spec dM M) as (_ & L4 & _);
    [apply two_digits_first_ok; simpl; lia|].
  destruct (two_digits_first_spec dS S) as (_ & L5 & _);
    [apply two_digits_first_ok; simpl; lia|].
  unfold fourteen_digits. rewrite !length_app. unfold text in *. lia.
Qed.

(** [strptime] reads the fourteen digits of a date and a time of day as
    that naive datetime. *)
Lemma strptime_fourteen_digits k y m d H M S :
  valid_date y m d -> valid_time H M S ->
  strptime k (fourteen_digits y m d H M S) fmt_YmdHMS
  = Ok (mk_datetime (mk_date y m d) H M S 0 None).
Proof.
  intros Hdate Htime.
  pose proof Hdate as (Hy & Hm & Hd). pose proof Htime as (HH & HM & HS).
  pose proof (days_in_month_le y m) as Hle.
  destruct (year_pad y Hy) as [HY Hny].
  destruct (two_digits_first_spec dm m) as (_ & _ & _ & Rm & Nm);
    [apply two_digits_first_ok; simpl; lia|].
  destruct (two_digits_first_spec dd d) as (_ & _ & _ & Rd & Nd);
    [apply two_digits_first_ok; simpl; lia|].
  destruct (two_digits_first_spec dH H) as (_ & _ & _ & RH & NH);
    [apply two_digits_first_ok; simpl; lia|].
  destruct (two_digits_first_spec dM M) as (_ & _ & _ & RM & NM);
    [apply two_digits_first_ok; simpl; lia|].
  destruct (two_digits_first_spec dS S) as (_ & _ & _ & RS & NS);
    [apply two_digits_first_ok; simpl; lia|].
  assert (reads_as_number (pad 4 y) = true) as Ry by group_reads.
  unfold strptime.
  assert (as_c_string k (fourteen_digits y m d H M S)
          = Ok (fourteen_digits y m d H M S)) as ->.
  { replace (fourteen_digits y m d H M S)
      with (concat [pad 4 y; pad 2 m; pad 2 d; pad 2 H; pad 2 M; pad 2 S])
      by (unfold fourteen_digits; simpl; rewrite app_nil_r; reflexivity).
    apply as_c_string_concat. repeat constructor; trivial. }
  cbn [mbind result_bind].
  rewrite first_match_fourteen_digits by (simpl; trivial; lia).
  cbn [read_fields].
  apply reads_as_number_spec in Ry as (-> & _), Rm as (-> & _), Rd as (-> & _),
    RH as (-> & _), RM as (-> & _), RS as (-> & _).
  cbn. rewrite Hny, Nm, Nd, NH, NM, NS.
  assert (date_of y m d = Ok (mk_date y m d)) as ->
    by (apply date_of_ok; auto).
  cbn [mbind result_bind].
  apply datetime_of_ok; trivial.
Qed.

(** ** [to_datetime] and [to_date] on strings *)

Lemma replace_app old new a b :
  replace old new (a ++ b) = replace old new a ++ replace old new b.
Proof. unfold replace. apply flat_map_app. Qed.

Lemma replace_elem old s x : x ∈ replace old [] s <-> x ∈ s /\ x <> old.
Proof.
  unfold replace. induction s as [|c s IH]; simpl.
  - split; [intros Hx; inversion Hx | intros [Hx _]; inversion Hx].
  - destruct (N.eqb_spec c old) as [-> | Hne]; simpl; rewrite ?elem_of_cons, IH.
    + split; [tauto|]. intros [[-> | Hx] Hne]; [contradiction | tauto].
    + split; [intros [-> | [Hx Hxo]]; tauto | tauto].
Qed.

Lemma replace_absent old s : old ∉ s -> replace old [] s = s.
Proof.
  unfold replace. induction s as [|c s IH]; simpl; [reflexivity|].
  intros Hs. apply not_elem_of_cons in Hs as [Hne Hs].
  destruct (N.eqb_spec c old) as [-> | _]; [contradiction|].
  simpl. rewrite IH by trivial. reflexivity.
Qed.

Lemma replace_idempotent old s :
  replace old [] (replace old [] s) = replace old [] s.
Proof. apply replace_absent. rewrite replace_elem. tauto. Qed.

Lemma datetime_digits_app a b :
  datetime_digits (a ++ b) = datetime_digits a ++ datetime_digits b.
Proof. unfold datetime_digits. rewrite !replace_app. reflexivity. Qed.

Lemma date_digits_app a b :
  date_digits (a ++ b) = date_digits a ++ date_digits b.
Proof. unfold date_digits. rewrite !replace_app. reflexivity. Qed.

Lemma datetime_digits_elem s x :
  x ∈ datetime_digits s
  <-> x ∈ s /\ x <> chr "-" /\ x <> chr ":" /\ x <> chr "T".
Proof. unfold datetime_digits. rewrite !replace_elem. tauto. Qed.

Lemma date_digits_elem s x :
  x ∈ date_digits s <-> x ∈ s /\ x <> chr "-" /\ x <> chr ":".
Proof. unfold date_digits. rewrite !replace_elem. tauto. Qed.

Lemma datetime_digits_idempotent s :
  datetime_digits (datetime_digits s) = datetime_digits s.
Proof.
  unfold datetime_digits at 1.
  rewrite !replace_absent; [reflexivity| | |];
    rewrite ?replace_elem, datetime_digits_elem; tauto.
Qed.

Lemma date_digits_idempotent s : date_digits (date_digits s) = date_digits s.
Proof.
  unfold date_digits at 1.
  rewrite !replace_absent; [reflexivity| |];
    rewrite ?replace_elem, date_digits_elem; tauto.
Qed.

Section DatetimeStrings.
Context {interpreter : Interpreter}.

(** X1. Separators do not count: putting a "-", a ":" or a "T" anywhere
    in a string does not change what [to_datetime] does with it, and
    putting a "-" or a ":" anywhere does not change what [to_date] does. *)
Theorem X1_separators_do_not_count (k : text_kind) (s1 s2 : text) (c : N) :
  ((c = chr "-" \/ c = chr ":" \/ c = chr "T") ->
   to_datetime (VText k (s1 ++ c :: s2)) = to_datetime (VText k (s1 ++ s2)))
  /\ ((c = chr "-" \/ c = chr ":") ->
      to_date (VText k (s1 ++ c :: s2)) = to_date (VText k (s1 ++ s2))).
Proof.
  split; intros Hc.
  - unfold to_datetime. fold (datetime_digits (s1 ++ c :: s2)).
    fold (datetime_digits (s1 ++ s2)).
    replace (datetime_digits (s1 ++ c :: s2)) with (datetime_digits (s1 ++ s2));
      [reflexivity|].
    change (c :: s2) with ([c] ++ s2). rewrite !datetime_digits_app.
    destruct Hc as [-> | [-> | ->]]; reflexivity.
  - unfold to_date. fold (date_digits (s1 ++ c :: s2)).
    fold (date_digits (s1 ++ s2)).
    replace (date_digits (s1 ++ c :: s2)) with (date_digits (s1 ++ s2));
      [reflexivity|].
    change (c :: s2) with ([c] ++ s2). rewrite !date_digits_app.
    destruct Hc as [-> | ->]; reflexivity.
Qed.

(** X2. The fourteen digits YYYYMMDDHHMMSS of a date of the calendar and a
    time of day, with separators or not, give that datetime, naive. *)
Theorem X2_to_datetime_fourteen_digits (k : text_kind) (s : text)
    (y m d H M S : Z) :
  valid_date y m d -> valid_time H M S ->
  datetime_digits s = fourteen_digits y m d H M S ->
  to_datetime (VText k s)
  = Ok (VDateTime (mk_datetime (mk_date y m d) H M S 0 None)).
Proof.
  intros Hdate Htime Hs.
  unfold to_datetime. fold (datetime_digits s). rewrite Hs.
  rewrite (fourteen_digits_length _ _ _ _ _ _ Hdate Htime). cbn [Nat.eqb].
  rewrite strptime_fourteen_digits by trivial. reflexivity.
Qed.

End DatetimeStrings.

Lemma X2_to_datetime_fourteen_digits_witness :
  valid_date 2010 8 4 /\ valid_time 20 34 31
  /\ @to_datetime latin1_interpreter (str "2010-08-04T20:34:31")
     = Ok (VDateTime (mk_datetime (mk_date 2010 8 4) 20 34 31 0 None)).
Proof.
  assert (valid_date 2010 8 4) as Hdate by (vm_compute; intuition discriminate).
  assert (valid_time 20 34 31) as Htime by (vm_compute; intuition discriminate).
  split; [exact Hdate|]. split; [exact Htime|].
  exact (@X2_to_datetime_fourteen_digits latin1_interpreter KStr
           (codes "2010-08-04T20:34:31") 2010 8 4 20 34 31 Hdate Htime eq_refl).
Defined.

Lemma datetime_of_naive y m d H M S dt :
  datetime_of y m d H M S = Ok dt -> tzinfo_of dt = None.
Proof.
  unfold datetime_of. destruct (date_of y m d); [|discriminate].
  cbn [mbind result_bind].
  repeat (destruct (negb _); [discriminate|]).
  intros [= <-]. reflexivity.
Qed.

Lemma strptime_naive k t format dt :
  strptime k t format = Ok dt -> tzinfo_of dt = None.
Proof.
  unfold strptime.
  destruct (as_c_string k t); [|discriminate]. cbn [mbind result_bind].
  destruct (first_match format a) as [[found [|? ?]]|]; try discriminate.
  destruct (read_fields found _); [|discriminate]. cbn [mbind result_bind].
  destruct (date_of _ _ _); [|discriminate]. cbn [mbind result_bind].
  apply datetime_of_naive.
Qed.

Lemma zone_slices_read_all `{Interpreter} zone :
  matches (re_digit · re_digit · re_digit · re_digit)%re zone ->
  zone_slices_read zone = true.
Proof. apply words_forall. vm_compute. reflexivity. Qed.

Lemma zone_slices_read_spec `{Interpreter} k zone :
  zone_slices_read zone = true ->
  length zone = 4%nat
  /\ int_of_text k (codes "+" ++ take 1 zone) = Ok (number_of (take 1 zone))
  /\ int_of_text k (drop 1 zone) = Ok (number_of (drop 1 zone))
  /\ exists tz,
       FixedOffsetTimeZone (number_of (take 1 zone)) (number_of (drop 1 zone))
       = Ok tz
       /\ (total_seconds (utcoffset tz VNone)
           = 3600 * number_of (take 2 zone) + 60 * number_of (drop 2 zone)
           <-> number_of (take 2 zone) = 0).
Proof.
  unfold zone_slices_read.
  destruct (int_of_text KStr _) as [h1|] eqn:E1; [|discriminate].
  destruct (int_of_text KUnicode _) as [h2|] eqn:E2; [|discriminate].
  destruct (int_of_text KStr (drop 1 zone)) as [m1|] eqn:E3; [|discriminate].
  destruct (int_of_text KUnicode (drop 1 zone)) as [m2|] eqn:E4; [|discriminate].
  destruct (FixedOffsetTimeZone _ _) as [tz|] eqn:E5; [|discriminate].
  intros Hall.
  do 5 (apply andb_true_iff in Hall as [Hall ?]).
  repeat match goal with
         | E : (_ =? _)%nat = true |- _ => apply Nat.eqb_eq in E
         | E : (_ =? _) = true |- _ => apply Z.eqb_eq in E
         | E : Bool.eqb _ _ = true |- _ => apply eqb_prop in E
         end.
  subst. split; [trivial|].
  split; [destruct k; trivial|]. split; [destruct k; congruence|].
  exists tz. split; [reflexivity|].
  rewrite <- !Z.eqb_eq.
  match goal with E : _ = _ :> bool |- _ => rewrite E end. reflexivity.
Qed.

Section DatetimeZones.
Context {interpreter : Interpreter}.

(** X3. The fourteen digits of a date and a time of day followed by "Z",
    with separators or not, give that datetime in a zone of offset zero
    named "UTC+00:00". *)
Theorem X3_to_datetime_Z_is_UTC (k : text_kind) (s : text) (y m d H M S : Z) :
  valid_date y m d -> valid_time H M S ->
  datetime_digits s = fourteen_digits y m d H M S ++ codes "Z" ->
  to_datetime (VText k s)
  = Ok (VDateTime
          (mk_datetime (mk_date y m d) H M S 0
             (Some (mk_tzinfo (mk_timedelta 0 0 0) "UTC+00:00")))).
Proof.
  intros Hdate Htime Hs.
  pose proof (fourteen_digits_length _ _ _ _ _ _ Hdate Htime) as Hlen.
  unfold to_datetime. fold (datetime_digits s). rewrite Hs. cbv zeta.
  set (X := fourteen_digits y m d H M S) in *.
  assert (length (X ++ codes "Z") = 15%nat) as ->
    by (rewrite length_app, Hlen; reflexivity).
  cbn [Nat.eqb andb].
  assert (endswith (X ++ codes "Z") (chr "Z") = true) as ->
    by (unfold endswith; change (codes "Z") with [chr "Z"];
        rewrite last_snoc; reflexivity).
  change (codes "Z") with [chr "Z"]. rewrite removelast_last.
  assert (length (X ++ codes "+0000") = 19%nat) as ->
    by (rewrite length_app, Hlen; reflexivity).
  cbn [Nat.eqb].
  rewrite take_app_length', drop_app_length' by (symmetry; exact Hlen).
  unfold X. rewrite strptime_fourteen_digits by trivial.
  cbn [mbind result_bind].
  destruct k; reflexivity.
Qed.

(** X4. The fourteen digits followed by "+" and four digits: the zone is
    cut after its second character, so the hours are read from one digit
    and the minutes from three. The datetime comes back in the zone
    [FixedOffsetTimeZone(d1, d2d3d4)], whose offset is the written one,
    d1d2 hours d3d4 minutes, exactly when the written hours are 00. *)
Theorem X4_to_datetime_zone_slices (k : text_kind) (s : text)
    (y m d H M S : Z) (zone : text) :
  valid_date y m d -> valid_time H M S ->
  matches (re_digit · re_digit · re_digit · re_digit)%re zone ->
  datetime_digits s = fourteen_digits y m d H M S ++ codes "+" ++ zone ->
  exists tz,
    to_datetime (VText k s)
    = Ok (VDateTime (mk_datetime (mk_date y m d) H M S 0 (Some tz)))
    /\ FixedOffsetTimeZone (number_of (take 1 zone)) (number_of (drop 1 zone))
       = Ok tz
    /\ (total_seconds (utcoffset tz VNone)
        = 3600 * number_of (take 2 zone) + 60 * number_of (drop 2 zone)
        <-> number_of (take 2 zone) = 0).
Proof.
  intros Hdate Htime Hzone Hs.
  pose proof (fourteen_digits_length _ _ _ _ _ _ Hdate Htime) as Hlen.
  destruct (zone_slices_read_spec k zone (zone_slices_read_all zone Hzone))
    as (Hz & Hh & Hm & tz & Htz & Hoff).
  exists tz. split; [|split; trivial].
  unfold to_datetime. fold (datetime_digits s). rewrite Hs. cbv zeta.
  set (X := fourteen_digits y m d H M S) in *.
  assert (length (X ++ codes "+" ++ zone) = 19%nat) as Hl
    by (rewrite !length_app, Hlen, Hz; reflexivity).
  rewrite Hl. cbn [Nat.eqb andb]. rewrite Hl. cbn [Nat.eqb].
  rewrite take_app_length', drop_app_length' by (symmetry; exact Hlen).
  unfold X. rewrite strptime_fourteen_digits by trivial.
  cbn [mbind result_bind].
  change (take 2 (codes "+" ++ zone)) with (codes "+" ++ take 1 zone).
  change (drop 2 (codes "+" ++ zone)) with (drop 1 zone).
  rewrite Hh. cbn [mbind result_bind]. rewrite Hm. cbn [mbind result_bind].
  rewrite Htz. reflexivity.
Qed.

Lemma to_datetime_by_length k s :
  length (datetime_digits s) <> 8%nat ->
  length (datetime_digits s) <> 14%nat ->
  length (datetime_digits s) <> 19%nat ->
  (length (datetime_digits s) = 15%nat ->
   endswith (datetime_digits s) (chr "Z") = false) ->
  to_datetime (VText k s)
  = Raise (ValueError_cannot_cast (VText k (datetime_digits s)) "datetime").
Proof.
  intros H8 H14 H19 H15.
  unfold to_datetime. fold (datetime_digits s). cbv zeta.
  apply Nat.eqb_neq in H8, H14. rewrite H8, H14.
  destruct (length (datetime_digits s) =? 15)%nat eqn:E15.
  - apply Nat.eqb_eq in E15. rewrite (H15 E15). cbn [andb].
    apply Nat.eqb_neq in H19. rewrite H19. reflexivity.
  - cbn [andb]. apply Nat.eqb_neq in H19. rewrite H19. reflexivity.
Qed.

(** X5. A string is refused by its length alone: when what is left of it
    has neither 8, 14 nor 19 characters, nor 15 ending in "Z",
    [to_datetime] raises the cast error, and the value the error carries
    is the string without its separators, not the string given. *)
Theorem X5_to_datetime_refused_by_length (k : text_kind) (s : text) :
  length (datetime_digits s) <> 8%nat ->
  length (datetime_digits s) <> 14%nat ->
  length (datetime_digits s) <> 19%nat ->
  (length (datetime_digits s) = 15%nat ->
   endswith (datetime_digits s) (chr "Z") = false) ->
  to_datetime (VText k s)
  = Raise (ValueError_cannot_cast (VText k (datetime_digits s)) "datetime").
Proof. apply to_datetime_by_length. Qed.

(** X6. An offset west of UTC cannot be written: in date, time, "-" and
    zone, the "-" goes with the separators, eighteen characters are left,
    and the string is refused. *)
Theorem X6_to_datetime_refuses_minus_zone (k : text_kind) (body zone : text) :
  length (datetime_digits body) = 14%nat ->
  length (datetime_digits zone) = 4%nat ->
  to_datetime (VText k (body ++ codes "-" ++ zone))
  = Raise (ValueError_cannot_cast
             (VText k (datetime_digits body ++ datetime_digits zone)) "datetime").
Proof.
  intros Hbody Hzone.
  assert (datetime_digits (body ++ codes "-" ++ zone)
          = datetime_digits body ++ datetime_digits zone) as Hd
    by (rewrite !datetime_digits_app; reflexivity).
  rewrite <- Hd. apply to_datetime_by_length;
    rewrite Hd, length_app, Hbody, Hzone; discriminate.
Qed.

End DatetimeZones.

(** *** No sign survives the separators *)

Lemma lstrip_elem s x : x ∈ lstrip s -> x ∈ s.
Proof.
  induction s as [|c s IH]; simpl; [trivial|].
  destruct (is_space c); [intros Hx; right; auto | trivial].
Qed.

Lemma span_digits_digits s :
  forall ds rest, span_digits s = (ds, rest) ->
  Forall (fun c => is_digit c = true) ds.
Proof.
  induction s as [|c s IH]; simpl; intros ds rest.
  - intros [= <- <-]. constructor.
  - destruct (is_digit c) eqn:Hc.
    + destruct (span_digits s) as [ds' rest'].
      intros [= <- <-]. constructor; eauto.
    + intros [= <- <-]. constructor.
Qed.

Lemma fold_digits_nonneg ds :
  Forall (fun c => is_digit c = true) ds ->
  forall acc, 0 <= acc ->
  0 <= fold_left (fun acc c => acc * 10 + (Z.of_N c - 48)) ds acc.
Proof.
  induction 1 as [|c ds Hc _ IH]; intros acc Hacc; simpl; [trivial|].
  apply IH. unfold is_digit in Hc. apply andb_true_iff in Hc as [Hlo _].
  apply N.leb_le in Hlo. lia.
Qed.

Lemma int_of_str_no_minus t n :
  45%N ∉ t -> int_of_str t = Ok n -> 0 <= n.
Proof.
  intros Ht. unfold int_of_str. cbv zeta.
  assert (forall s2, (let '(ds, rest) := span_digits (lstrip s2) in
            match ds with
            | [] => Raise (ValueError_int_literal t)
            | _ :: _ =>
                if forallb is_space rest then Ok (digits_value ds)
                else Raise (ValueError_int_literal t)
            end) = Ok n -> 0 <= n) as Hgen.
  { intros s2. destruct (span_digits (lstrip s2)) as [ds rest] eqn:Esp.
    apply span_digits_digits in Esp.
    destruct ds; [discriminate|]. destruct (forallb is_space rest); [|discriminate].
    intros [= <-]. apply fold_digits_nonneg; [trivial | lia]. }
  destruct (lstrip t) as [|c r] eqn:Es; [apply Hgen|].
  assert (c <> 45%N) as Hc.
  { intros ->. apply Ht, lstrip_elem. rewrite Es. constructor. }
  destruct c as [|p]; [apply Hgen|].
  do 6 (try destruct p as [p|p|]);
    solve [apply Hgen | exfalso; apply Hc; reflexivity].
Qed.

Section NoSign.
Context {interpreter : Interpreter}.

Lemma encode_decimal_char_minus c :
  encode_decimal_char c = Some 45%N -> c = 45%N.
Proof.
  unfold encode_decimal_char.
  destruct (N.ltb_spec c 128) as [Hlt | Hge].
  - destruct (is_unicode_space_ascii c); [discriminate|].
    destruct (N.eqb c 0); [discriminate|]. intros [= ->]. reflexivity.
  - destruct (Py_UNICODE_ISSPACE c); [discriminate|].
    destruct (Py_UNICODE_TODECIMAL c) as [d|]; [intros [= Hd]; lia|].
    destruct (N.ltb c 256); [|discriminate]. intros [= ->]. lia.
Qed.

Lemma int_of_text_no_minus k t n :
  45%N ∉ t -> int_of_text k t = Ok n -> 0 <= n.
Proof.
  destruct k; simpl; [apply int_of_str_no_minus|].
  intros Ht. unfold encode_decimal.
  destruct (mapM encode_decimal_char t) as [t'|] eqn:Em; [|discriminate].
  cbn [mbind result_bind]. apply int_of_str_no_minus.
  apply mapM_Some in Em. intros Hin. apply Ht. clear Ht.
  induction Em as [|c c' t t' Hc _ IH]; [inversion Hin|].
  apply elem_of_cons in Hin as [<- | Hin].
  - apply encode_decimal_char_minus in Hc as ->. constructor.
  - right. auto.
Qed.

(** X7. Whatever the string, the zone that [to_datetime] attaches is never
    west of UTC: its offset is zero or more. *)
Theorem X7_to_datetime_offset_not_negative (k : text_kind) (s : text)
    (dt : datetime) (tz : tzinfo) :
  to_datetime (VText k s) = Ok (VDateTime dt) ->
  tzinfo_of dt = Some tz ->
  0 <= total_seconds (utcoffset tz VNone).
Proof.
  unfold to_datetime. fold (datetime_digits s). cbv zeta.
  assert (45%N ∉ datetime_digits s) as Hv
    by (rewrite datetime_digits_elem; intros (_ & Hne & _); apply Hne; reflexivity).
  destruct (length (datetime_digits s) =? 8)%nat.
  { destruct (strptime k _ fmt_Ymd) as [dt'|] eqn:E; [|discriminate].
    intros [= <-] Htz. apply strptime_naive in E. congruence. }
  destruct (length (datetime_digits s) =? 14)%nat.
  { destruct (strptime k _ fmt_YmdHMS) as [dt'|] eqn:E; [|discriminate].
    intros [= <-] Htz. apply strptime_naive in E. congruence. }
  match goal with
  | |- context [if (length ?v =? 19)%nat then _ else _] => set (value := v)
  end.
  assert (45%N ∉ value) as Hvalue.
  { unfold value. destruct (_ && _)%bool; [|exact Hv].
    intros Hin. apply elem_of_app in Hin as [Hin | Hin].
    - apply Hv. destruct (datetime_digits s) as [|c v] eqn:Ev; [inversion Hin|].
      rewrite (app_removelast_last 0%N) by discriminate.
      apply elem_of_app. left. exact Hin.
    - revert Hin. vm_compute. intros Hin.
      repeat (apply elem_of_cons in Hin as [Hin | Hin]; [discriminate|]).
      inversion Hin. }
  destruct (length value =? 19)%nat; [|discriminate].
  destruct (strptime k _ fmt_YmdHMS) as [time|]; [|discriminate].
  cbn [mbind result_bind].
  destruct (int_of_text k (take 2 (drop 14 value))) as [h|] eqn:Eh; [|discriminate].
  cbn [mbind result_bind].
  destruct (int_of_text k (drop 2 (drop 14 value))) as [mi|] eqn:Em; [|discriminate].
  cbn [mbind result_bind].
  destruct (FixedOffsetTimeZone h mi) as [tz'|] eqn:Etz; [|discriminate].
  cbn [mbind result_bind].
  intros [= <-]. simpl. intros [= <-].
  apply int_of_text_no_minus in Eh, Em.
  - unfold FixedOffsetTimeZone in Etz.
    destruct (timedelta_of h mi) as [td|] eqn:Etd; [|discriminate].
    cbn [mbind result_bind] in Etz. injection Etz as <-. simpl.
    apply timedelta_of_total_seconds in Etd as (-> & _). lia.
  - intros Hin. apply Hvalue.
    rewrite <- (take_drop 14 value). apply elem_of_app. right.
    rewrite <- (take_drop 2 (drop 14 value)). apply elem_of_app. right. exact Hin.
  - intros Hin. apply Hvalue.
    rewrite <- (take_drop 14 value). apply elem_of_app. right.
    rewrite <- (take_drop 2 (drop 14 value)). apply elem_of_app. left. exact Hin.
Qed.

End NoSign.

Lemma strptime_Ymd_midnight k t dt :
  strptime k t fmt_Ymd = Ok dt -> dt = mk_datetime (dt_date dt) 0 0 0 0 None.
Proof.
  unfold strptime.
  destruct (as_c_string_cases k t) as [-> | [-> | ->]]; try discriminate.
  cbn [mbind result_bind].
  destruct (first_match fmt_Ymd t) as [[found rest]|] eqn:Hfirst; [|discriminate].
  destruct rest; [|discriminate].
  destruct (first_match_Ymd_shape _ _ _ Hfirst)
    as (Y & M & D & -> & _ & HY & HM & HD).
  apply (group_reads_as_number dY), reads_as_number_spec in HY as (HY & _); [|auto].
  apply (group_reads_as_number dm), reads_as_number_spec in HM as (HM & _); [|auto].
  apply (group_reads_as_number dd), reads_as_number_spec in HD as (HD & _); [|auto].
  cbn [read_fields]. rewrite HY, HM, HD. cbn.
  destruct (date_of _ _ _) as [dte|]; [|discriminate]. cbn.
  unfold datetime_of.
  destruct (date_of _ _ _) as [dte'|]; [|discriminate]. cbn.
  intros [= <-]. reflexivity.
Qed.

Section CastDomains.
Context {interpreter : Interpreter}.

Lemma to_datetime_returns_datetime v r :
  to_datetime v = Ok r -> exists dt, r = VDateTime dt.
Proof.
  destruct v as [| | | |k s|d|dt]; try discriminate.
  - unfold to_datetime. cbv zeta.
    destruct (_ =? 8)%nat.
    { destruct (strptime k _ fmt_Ymd); [|discriminate]. intros [= <-]. eauto. }
    destruct (_ =? 14)%nat.
    { destruct (strptime k _ fmt_YmdHMS); [|discriminate]. intros [= <-]. eauto. }
    destruct (_ =? 19)%nat; [|discriminate].
    destruct (strptime k _ fmt_YmdHMS); [|discriminate]. cbn [mbind result_bind].
    destruct (int_of_text k (take 2 _)); [|discriminate]. cbn [mbind result_bind].
    destruct (int_of_text k (drop 2 _)); [|discriminate]. cbn [mbind result_bind].
    destruct (FixedOffsetTimeZone _ _); [|discriminate]. cbn [mbind result_bind].
    intros [= <-]. eauto.
  - intros [= <-]. eauto.
  - intros [= <-]. eauto.
Qed.

Lemma to_date_returns_date v r : to_date v = Ok r -> exists d, r = VDate d.
Proof.
  destruct v as [| | | |k s|d|dt]; try discriminate.
  - unfold to_date. destruct (strptime k _ fmt_Ymd); [|discriminate].
    intros [= <-]. eauto.
  - intros [= <-]. eauto.
  - intros [= <-]. eauto.
Qed.

(** X8. What [to_datetime] returns is a datetime and what [to_date]
    returns is a date, whatever went in; casting the result again changes
    nothing; and a date promoted by [to_datetime] (midnight, naive) and
    cut back by [to_date] is the date it was. *)
Theorem X8_casts_land_in_their_domain (v r : pyvalue) :
  (to_datetime v = Ok r ->
   exists dt, r = VDateTime dt /\ to_datetime r = Ok r
              /\ to_date r = Ok (VDate (dt_date dt)))
  /\ (to_date v = Ok r ->
      exists d, r = VDate d /\ to_date r = Ok r
                /\ to_datetime r = Ok (VDateTime (mk_datetime d 0 0 0 0 None))
                /\ (to_datetime r ≫= to_date) = Ok r).
Proof.
  split; intros Hr.
  - apply to_datetime_returns_datetime in Hr as [dt ->]. eauto.
  - apply to_date_returns_date in Hr as [d ->]. eauto 10.
Qed.

(** X9. On a string that leaves eight characters, [to_datetime] is
    [to_date] on what is left followed by the promotion of the date to
    midnight: same datetime, same error. *)
Theorem X9_to_datetime_date_only (k : text_kind) (s : text) :
  length (datetime_digits s) = 8%nat ->
  to_datetime (VText k s)
  = (to_date (VText k (datetime_digits s)) ≫= to_datetime).
Proof.
  intros Hlen. unfold to_datetime at 1. fold (datetime_digits s). cbv zeta.
  rewrite Hlen. cbn [Nat.eqb].
  unfold to_date. fold (date_digits (datetime_digits s)).
  assert (date_digits (datetime_digits s) = datetime_digits s) as ->.
  { unfold date_digits. rewrite !replace_absent; [reflexivity| |];
      rewrite ?replace_elem, datetime_digits_elem; tauto. }
  destruct (strptime k (datetime_digits s) fmt_Ymd) as [dt|e] eqn:E; [|reflexivity].
  apply strptime_Ymd_midnight in E. cbn. rewrite E at 1. reflexivity.
Qed.

(** X10. The datetime that [to_datetime] makes of a string is naive when
    eight or fourteen characters were left of it, and carries a zone in
    every other case. *)
Theorem X10_to_datetime_naive_or_aware (k : text_kind) (s : text) (dt : datetime) :
  to_datetime (VText k s) = Ok (VDateTime dt) ->
  (tzinfo_of dt = None
   <-> length (datetime_digits s) = 8%nat \/ length (datetime_digits s) = 14%nat).
Proof.
  unfold to_datetime. fold (datetime_digits s). cbv zeta.
  destruct (length (datetime_digits s) =? 8)%nat eqn:E8.
  { apply Nat.eqb_eq in E8.
    destruct (strptime k _ fmt_Ymd) as [dt'|] eqn:E; [|discriminate].
    intros [= <-]. apply strptime_naive in E. tauto. }
  destruct (length (datetime_digits s) =? 14)%nat eqn:E14.
  { apply Nat.eqb_eq in E14.
    destruct (strptime k _ fmt_YmdHMS) as [dt'|] eqn:E; [|discriminate].
    intros [= <-]. apply strptime_naive in E. tauto. }
  apply Nat.eqb_neq in E8, E14.
  destruct (_ =? 19)%nat; [|discriminate].
  destruct (strptime k _ fmt_YmdHMS); [|discriminate]. cbn [mbind result_bind].
  destruct (int_of_text k (take 2 _)); [|discriminate]. cbn [mbind result_bind].
  destruct (int_of_text k (drop 2 _)); [|discriminate]. cbn [mbind result_bind].
  destruct (FixedOffsetTimeZone _ _); [|discriminate]. cbn [mbind result_bind].
  intros [= <-]. simpl. split; [discriminate | tauto].
Qed.

End CastDomains.

Lemma X3_to_datetime_Z_is_UTC_witness :
  valid_date 1999 12 31 /\ valid_time 23 59 59
  /\ @to_datetime latin1_interpreter (str "1999-12-31T23:59:59Z")
     = Ok (VDateTime
             (mk_datetime (mk_date 1999 12 31) 23 59 59 0
                (Some (mk_tzinfo (mk_timedelta 0 0 0) "UTC+00:00")))).
Proof.
  assert (valid_date 1999 12 31) as Hdate by (vm_compute; intuition discriminate).
  assert (valid_time 23 59 59) as Htime by (vm_compute; intuition discriminate).
  split; [exact Hdate|]. split; [exact Htime|].
  exact (@X3_to_datetime_Z_is_UTC latin1_interpreter KStr
           (codes "1999-12-31T23:59:59Z") 1999 12 31 23 59 59 Hdate Htime eq_refl).
Defined.

Lemma four_digits_0530 :
  matches (re_digit · re_digit · re_digit · re_digit)%re (codes "0530").
Proof.
  change (codes "0530") with ((([48] ++ [53]) ++ [51]) ++ [48])%N.
  repeat apply matches_seq; apply digit_matches; reflexivity.
Qed.

Lemma X4_to_datetime_zone_slices_witness :
  exists tz,
    @to_datetime latin1_interpreter (str "2010-08-04T20:34:31+05:30")
    = Ok (VDateTime (mk_datetime (mk_date 2010 8 4) 20 34 31 0 (Some tz)))
    /\ FixedOffsetTimeZone 0 530 = Ok tz
    /\ total_seconds (utcoffset tz VNone) = 60 * 530.
Proof.
  assert (valid_date 2010 8 4) as Hdate by (vm_compute; intuition discriminate).
  assert (valid_time 20 34 31) as Htime by (vm_compute; intuition discriminate).
  destruct (@X4_to_datetime_zone_slices latin1_interpreter KStr
              (codes "2010-08-04T20:34:31+05:30") 2010 8 4 20 34 31
              (codes "0530") Hdate Htime four_digits_0530 eq_refl)
    as (tz & Hto & Htz & _).
  exists tz. split; [exact Hto|]. split; [exact Htz|].
  injection Htz as <-. reflexivity.
Defined.

Lemma X5_to_datetime_refused_by_length_witness :
  length (datetime_digits (codes "2010-08")) = 6%nat
  /\ @to_datetime latin1_interpreter (str "2010-08")
     = Raise (ValueError_cannot_cast (str "201008") "datetime").
Proof.
  split; [reflexivity|].
  apply (@X5_to_datetime_refused_by_length latin1_interpreter KStr (codes "2010-08"));
    discriminate.
Defined.

Lemma X6_to_datetime_refuses_minus_zone_witness :
  @to_datetime latin1_interpreter (str "2010-08-04T20:34:31-02:30")
  = Raise (ValueError_cannot_cast (str "201008042034310230") "datetime").
Proof.
  exact (@X6_to_datetime_refuses_minus_zone latin1_interpreter KStr
           (codes "2010-08-04T20:34:31") (codes "02:30") eq_refl eq_refl).
Defined.

Lemma X7_to_datetime_offset_not_negative_witness :
  0 <= total_seconds
         (utcoffset (mk_tzinfo (mk_timedelta 0 13800 0) "UTC+00:230") VNone).
Proof.
  exact (@X7_to_datetime_offset_not_negative latin1_interpreter KStr
           (codes "2010-08-04T20:34:31+02:30") _ _ eq_refl eq_refl).
Defined.

Lemma X9_to_datetime_date_only_witness :
  @to_datetime latin1_interpreter (str "2010-08-04")
  = (to_date (str "20100804") ≫= @to_datetime latin1_interpreter).
Proof.
  exact (@X9_to_datetime_date_only latin1_interpreter KStr (codes "2010-08-04") eq_refl).
Defined.

Lemma X10_to_datetime_naive_or_aware_witness :
  tzinfo_of (mk_datetime (mk_date 2010 8 4) 0 0 0 0 None) = None
  <-> length (datetime_digits (codes "2010-08-04")) = 8%nat
      \/ length (datetime_digits (codes "2010-08-04")) = 14%nat.
Proof.
  exact (@X10_to_datetime_naive_or_aware latin1_interpreter KStr
           (codes "2010-08-04") _ eq_refl).
Defined.

(** ** [to_number] and [to_type] on the builtin [int] and [float] *)

Lemma lstrip_blank s : forallb is_space s = true -> lstrip s = [].
Proof.
  induction s as [|c s IH]; [reflexivity|]. cbn.
  destruct (is_space c); [exact IH | discriminate].
Qed.

Lemma int_of_str_blank s :
  forallb is_space s = true -> int_of_str s = Raise (ValueError_int_literal s).
Proof.
  intros Hs. unfold int_of_str. rewrite (lstrip_blank s Hs). reflexivity.
Qed.

Lemma float_of_str_blank s :
  forallb is_space s = true -> float_of_str s = Raise (ValueError_float_literal s).
Proof.
  intros Hs. unfold float_of_str. rewrite (lstrip_blank s Hs). reflexivity.
Qed.

Section Numbers.
Context {interpreter : Interpreter}.

Lemma encode_decimal_blank s :
  forallb is_space s = true ->
  exists s', encode_decimal s = Ok s' /\ forallb is_space s' = true.
Proof.
  unfold encode_decimal. induction s as [|c s IH]; cbn.
  { exists []. split; reflexivity. }
  intros [Hc Hs]%andb_prop. destruct (IH Hs) as (s' & E & Hs').
  assert (encode_decimal_char c = Some 32%N) as ->.
  { unfold encode_decimal_char, is_unicode_space_ascii. rewrite Hc.
    assert ((c <? 128)%N = true) as ->; [|reflexivity].
    apply N.ltb_lt. unfold is_space in Hc.
    apply orb_prop in Hc as [Hc%N.eqb_eq | [_ Hc%N.leb_le]%andb_prop]; lia. }
  cbn. destruct (mapM encode_decimal_char s); [|discriminate].
  injection E as ->. cbn. exists (32%N :: s'). split; [reflexivity|].
  cbn. exact Hs'.
Qed.


Lemma construct_number_zero (T : pyclass) :
  T = py_int \/ T = py_float -> exists z, construct T (VInt 0) = Ok z.
Proof. intros [-> | ->]; eexists; reflexivity. Qed.

Lemma to_number_cases (v : pyvalue) (T : pyclass) :
  (to_number v T = Ok v /\ (isinstance v T = true \/ v = VNone))
  \/ (to_number v T = construct T (VInt 0)
      /\ isinstance v T = false /\ v <> VNone /\ truth v = false)
  \/ (to_number v T = try_except (construct T v)
                        (Raise (ValueError_cannot_cast v (__name__ T)))
      /\ to_type v T = to_number v T
      /\ isinstance v T = false /\ v <> VNone /\ truth v = true).
Proof.
  unfold to_number, to_type.
  destruct (isinstance v T) eqn:Hi; cbn [orb]; [left; auto|].
  destruct v; cbn [is_None]; try (left; split; [reflexivity | right; reflexivity]);
    (destruct (truth _) eqn:Ht; cbn [negb];
     [right; right | right; left]; repeat split; try reflexivity; discriminate).
Qed.


(** X12. [to_number] for the builtin [int] or [float] fails only on a
    value that is truthy and not an instance of the class, and then with
    the error of [to_type], which names the value and the class: a falsy
    value never fails. *)
Theorem X12_to_number_fails_on_truthy_only (v : pyvalue) (T : pyclass) (e : exn) :
  T = py_int \/ T = py_float ->
  to_number v T = Raise e ->
  truth v = true /\ isinstance v T = false
  /\ e = ValueError_cannot_cast v (__name__ T)
  /\ to_type v T = Raise e.
Proof.
  intros HT He.
  destruct (to_number_cases v T)
    as [(E & Hv) | [(E & Hi & Hn & Ht) | (E & Et & Hi & Hn & Ht)]].
  - rewrite E in He. discriminate.
  - rewrite E in He. destruct (construct_number_zero T HT) as [z Hz].
    rewrite Hz in He. discriminate.
  - repeat split; trivial; [|congruence].
    rewrite E in He. unfold try_except in He.
    destruct (construct T v); [discriminate|]. congruence.
Qed.

(** X13. A string of blanks only: the empty one is falsy and becomes the
    zero of the class; one of at least one blank is truthy, is no literal
    of the class and is refused. *)
Theorem X13_to_number_blank_strings (k : text_kind) (s : text) (T : pyclass) :
  T = py_int \/ T = py_float ->
  forallb is_space s = true ->
  to_number (VText k s) T
  = match s with
    | [] => construct T (VInt 0)
    | _ :: _ => Raise (ValueError_cannot_cast (VText k s) (__name__ T))
    end.
Proof.
  intros HT Hs.
  destruct s as [|c s]; [destruct HT as [-> | ->]; reflexivity|].
  assert (exists e, construct T (VText k (c :: s)) = Raise e) as [e Hc].
  { destruct HT as [-> | ->]; cbn [construct py_int py_float];
      destruct k; cbn [int_of_text float_of_text].
    - rewrite (int_of_str_blank _ Hs). eauto.
    - destruct (encode_decimal_blank _ Hs) as (s' & -> & Hs'). cbn.
      rewrite (int_of_str_blank _ Hs'). eauto.
    - rewrite (float_of_str_blank _ Hs). eauto.
    - destruct (encode_decimal_blank _ Hs) as (s' & -> & Hs'). cbn.
      rewrite (float_of_str_blank _ Hs'). eauto. }
  unfold to_number, to_type. cbn [is_None truth negb orb].
  assert (isinstance (VText k (c :: s)) T = false) as ->
      by (destruct HT as [-> | ->]; reflexivity).
  cbn [orb]. rewrite Hc. reflexivity.
Qed.

(** X14. [to_unicode] returns only for a [unicode] object, which it
    gives back as it is, whatever the encoding: for every other value the
    lookup of [unicodedata], which the module never imports, is reached
    unless both calls of the [unicode] builtin have failed before. *)
Theorem X14_to_unicode_returns_for_unicode_only
    (v r : pyvalue) (encoding : string) :
  (to_unicode v encoding = Ok r <-> exists u, v = VUnicode u /\ r = v)
  /\ ((forall u, v <> VUnicode u) ->
      to_unicode v encoding
      = Raise match try_except (builtin_unicode v (Some encoding))
                               (builtin_unicode v None) with
              | Ok _ => NameError "unicodedata"
              | Raise e => e
              end).
Proof.
  split; [split|].
  - unfold to_unicode.
    destruct v as [| | | |[] u| |];
      try (intros [= <-]; eexists; split; reflexivity);
      (destruct (try_except _ _); cbn; discriminate).
  - intros (u & -> & ->). reflexivity.
  - intros Hv. unfold to_unicode.
    destruct v as [| | | |[] u| |]; try (exfalso; eapply Hv; reflexivity);
      (destruct (try_except _ _); reflexivity).
Qed.

End Numbers.


Lemma X12_to_number_fails_on_truthy_only_witness :
  to_number (str "4 2") (@py_int latin1_interpreter)
  = Raise (ValueError_cannot_cast (str "4 2") "int")
  /\ truth (str "4 2") = true
  /\ to_type (str "4 2") (@py_int latin1_interpreter)
     = Raise (ValueError_cannot_cast (str "4 2") "int").
Proof.
  split; [reflexivity|].
  destruct (@X12_to_number_fails_on_truthy_only latin1_interpreter (str "4 2") _ _
              (or_introl eq_refl) eq_refl) as (Ht & _ & _ & Hto).
  split; [exact Ht | exact Hto].
Defined.

Lemma X13_to_number_blank_strings_witness :
  to_number (VUnicode (codes "  ")) (@py_float latin1_interpreter)
  = Raise (ValueError_cannot_cast (VUnicode (codes "  ")) "float").
Proof.
  exact (@X13_to_number_blank_strings latin1_interpreter KUnicode (codes "  ") _
           (or_intror eq_refl) eq_refl).
Defined.

(** ** [to_bytes] *)

Section Bytes.
Context {interpreter : Interpreter} {builtins : Builtins}.

(** X15. What [to_bytes] returns is a [str], and [to_bytes] gives it back
    as it is. A [str] comes back unchanged and a [unicode] of ASCII
    characters comes back with the same characters, whatever the
    encoding: the encoding is used only for a [unicode] that the default
    codec refuses. *)
Theorem X15_to_bytes_returns_str (v r : pyvalue) (encoding : string) :
  to_bytes v encoding = Ok r ->
  (exists s, r = VStr s /\ to_bytes r encoding = Ok r)
  /\ (forall s, v = VStr s -> r = v)
  /\ (forall u, v = VUnicode u -> is_ascii_text u = true -> r = VStr u)
  /\ (forall u, v = VUnicode u -> is_ascii_text u = false ->
      VStr <$> unicode_encode u encoding = Ok r).
Proof.
  intros Hr.
  assert (exists s, r = VStr s) as [s ->].
  { revert Hr. unfold to_bytes, try_except, builtin_bytes, encode.
    destruct v as [| | | |[] u| |]; cbn;
      repeat match goal with
             | |- context [if ?b then _ else _] => destruct b
             | |- context [str_of_object ?x] => destruct (str_of_object x); cbn
             | |- context [unicode_encode ?x ?y] => destruct (unicode_encode x y); cbn
             end;
      try discriminate; intros [= <-]; eauto. }
  split; [eauto|].
  split; [intros s' ->; injection Hr as ->; reflexivity|].
  split; intros u -> Hu; revert Hr;
    unfold to_bytes, try_except, builtin_bytes, encode; rewrite Hu;
    [congruence | trivial].
Qed.

End Bytes.

Lemma X15_to_bytes_returns_str_witness :
  @to_bytes ascii_builtins (VUnicode (codes "spam")) "utf-16" = Ok (str "spam")
  /\ @to_bytes ascii_builtins (str "spam") "utf-16" = Ok (str "spam").
Proof.
  split; [reflexivity|].
  destruct (@X15_to_bytes_returns_str ascii_builtins
              (VUnicode (codes "spam")) _ "utf-16" eq_refl)
    as ((s & Hs & Hagain) & _).
  exact Hagain.
Defined.

(** ** More on [TypeExtenser.register] *)

(** [register], in one piece. *)
Lemma register_unfold name type custom_down custom_up (self : TypeExtenser) :
  register name type custom_down custom_up self
  = match wrapped_corn_properties self !! name with
    | None => (self, Raise not_found)
    | Some native =>
        match resolve custom_down (converters self) (types.type native) with
        | None => (declare self name type,
                   Raise (KeyError_type (types.type native)))
        | Some d =>
            match resolve custom_up (converters self) type with
            | None => (declare self name type, Raise (KeyError_type type))
            | Some u => (bind self name type d u, Ok tt)
            end
        end
    end.
Proof.
  unfold register, mbind, method_bind, get_self, getitem, raise, mret, method_ret.
  unfold declare, bind. rewrite contains_lookup.
  destruct (wrapped_corn_properties self !! name) as [native|]; simpl;
    [|reflexivity].
  destruct custom_down as [cd|], custom_up as [cu|]; simpl;
    repeat match goal with
           | |- context [converters self !! ?t] =>
               destruct (converters self !! t); simpl
           end;
    rewrite ?lookup_insert_eq; reflexivity.
Qed.

(** X16. Whatever [register] returns or raises, it leaves alone the
    decorator's name, the wrapped source's properties, the registry, the
    declarations of the other properties and the bindings under the other
    keys. It raises nothing but the property-not-found error, exactly when
    the wrapped source has no such property, and the registry's
    [KeyError] for a type the registry lacks; in every other case [name]
    is declared afterwards with the type asked for. *)
Theorem X16_register_frame name type custom_down custom_up
    (self self' : TypeExtenser) (r : result unit) :
  register name type custom_down custom_up self = (self', r) ->
  self_name self' = self_name self
  /\ wrapped_corn_properties self' = wrapped_corn_properties self
  /\ converters self' = converters self
  /\ (forall other, other <> name ->
      properties self' !! other = properties self !! other)
  /\ (forall key, key <> mk_Type (self_name self) type name ->
      named_convertors self' !! key = named_convertors self !! key)
  /\ (r = Ok tt \/ r = Raise not_found
      \/ exists t, r = Raise (KeyError_type t) /\ converters self !! t = None)
  /\ (r = Raise not_found <-> wrapped_corn_properties self !! name = None)
  /\ (r <> Raise not_found ->
      properties self' !! name = Some (mk_Type (self_name self) type name)).
Proof.
  rewrite register_unfold. unfold declare, bind.
  destruct (wrapped_corn_properties self !! name) as [native|] eqn:Hnative.
  - match goal with |- _ -> ?G => assert (forall self1 r1,
              self_name self1 = self_name self ->
              wrapped_corn_properties self1 = wrapped_corn_properties self ->
              converters self1 = converters self ->
              properties self1
              = <[name := mk_Type (self_name self) type name]> (properties self) ->
              (forall key, key <> mk_Type (self_name self) type name ->
                 named_convertors self1 !! key = named_convertors self !! key) ->
              (r1 = Ok tt
               \/ exists t, r1 = Raise (KeyError_type t)
                            /\ converters self !! t = None) ->
              (self1, r1) = (self', r) -> G) as Hframe end.
    { intros self1 r1 Hn Hw Hc Hp Hb Hr [= <- <-].
      split; [exact Hn|]. split; [exact Hw|]. split; [exact Hc|].
      split; [intros; rewrite Hp; apply lookup_insert_ne; congruence|].
      split; [exact Hb|].
      split; [tauto|].
      split; [|intros _; rewrite Hp; apply lookup_insert_eq].
      split; [|discriminate].
      intros ->. destruct Hr as [? | (? & ? & _)]; discriminate. }
    destruct (resolve custom_down _ _) as [d|] eqn:Hd;
      [destruct (resolve custom_up _ _) as [u|] eqn:Hu|];
      apply Hframe; simpl; trivial.
    + intros key Hkey. apply lookup_insert_ne. congruence.
    + left. reflexivity.
    + right. exists type. split; [reflexivity|].
      destruct custom_up; [discriminate | exact Hu].
    + right. exists (types.type native). split; [reflexivity|].
      destruct custom_down; [discriminate | exact Hd].
  - intros [= <- <-].
    repeat split; trivial; tauto.
Qed.

(** X17. A call of [register] that succeeded succeeds again with the same
    arguments and changes nothing any more. *)
Theorem X17_register_again_same name type custom_down custom_up
    (self self1 : TypeExtenser) :
  register name type custom_down custom_up self = (self1, Ok tt) ->
  register name type custom_down custom_up self1 = (self1, Ok tt).
Proof.
  rewrite !register_unfold.
  destruct (wrapped_corn_properties self !! name) as [native|] eqn:Hnative;
    [|discriminate].
  destruct (resolve custom_down _ _) as [d|] eqn:Hd; [|discriminate].
  destruct (resolve custom_up _ _) as [u|] eqn:Hu; [|discriminate].
  intros [= <-]. unfold bind. simpl. rewrite Hnative, Hd, Hu.
  rewrite !insert_insert_eq. reflexivity.
Qed.

Lemma register_fst_frame name type custom_down custom_up (self : TypeExtenser) :
  self_name (fst (register name type custom_down custom_up self)) = self_name self
  /\ wrapped_corn_properties (fst (register name type custom_down custom_up self))
     = wrapped_corn_properties self
  /\ converters (fst (register name type custom_down custom_up self))
     = converters self.
Proof.
  rewrite register_unfold.
  destruct (wrapped_corn_properties self !! name); [|auto].
  destruct (resolve custom_down _ _); [|auto].
  destruct (resolve custom_up _ _); auto.
Qed.

(** X18. Two calls of [register] for different properties commute: in
    either order each one returns or raises the same, and the decorator
    ends up the same. *)
Theorem X18_register_commutes name1 type1 down1 up1 name2 type2 down2 up2
    (self : TypeExtenser) :
  name1 <> name2 ->
  let first := register name1 type1 down1 up1 self in
  let second := register name2 type2 down2 up2 self in
  let first_then_second := register name2 type2 down2 up2 (fst first) in
  let second_then_first := register name1 type1 down1 up1 (fst second) in
  fst first_then_second = fst second_then_first
  /\ snd first_then_second = snd second
  /\ snd second_then_first = snd first.
Proof.
  intros Hdiff. cbv zeta.
  assert (mk_Type (self_name self) type1 name1
          <> mk_Type (self_name self) type2 name2) as Hkeys by congruence.
  rewrite (register_unfold name2 _ _ _ (fst _)).
  rewrite (register_unfold name1 _ _ _ (fst _)).
  destruct (register_fst_frame name1 type1 down1 up1 self) as (_ & -> & ->).
  destruct (register_fst_frame name2 type2 down2 up2 self) as (_ & -> & ->).
  rewrite !register_unfold.
  destruct (wrapped_corn_properties self !! name1) as [native1|];
    destruct (wrapped_corn_properties self !! name2) as [native2|];
    try destruct (resolve down1 _ _) as [d1|];
    try destruct (resolve up1 _ _) as [u1|];
    try destruct (resolve down2 _ _) as [d2|];
    try destruct (resolve up2 _ _) as [u2|];
    unfold declare, bind; simpl;
    (split; [|split; reflexivity]);
    rewrite ?(insert_insert_ne _ name1 name2) by exact Hdiff;
    rewrite ?(insert_insert_ne (named_convertors self) _ _ _ _ Hkeys);
    reflexivity.
Qed.

Lemma register_keeps_bindings_well_formed name type custom_down custom_up
    (self : TypeExtenser) :
  bindings_well_formed self ->
  bindings_well_formed (fst (register name type custom_down custom_up self)).
Proof.
  intros Hself. rewrite register_unfold.
  assert (bindings_well_formed (declare self name type)) as Hdeclare.
  { intros key Hkey. destruct (Hself key Hkey) as (Hc & Hw & Hp).
    simpl. repeat split; trivial.
    destruct (decide (name = types.name key)) as [<- | Hne].
    - rewrite lookup_insert_eq. eauto.
    - rewrite lookup_insert_ne by trivial. trivial. }
  destruct (wrapped_corn_properties self !! name) as [native|] eqn:Hnative;
    [|exact Hself].
  destruct (resolve custom_down _ _) as [d|]; [|exact Hdeclare].
  destruct (resolve custom_up _ _) as [u|]; [|exact Hdeclare].
  intros key. simpl.
  destruct (decide (mk_Type (self_name self) type name = key)) as [<- | Hne].
  - intros _. simpl. rewrite Hnative, lookup_insert_eq. eauto.
  - rewrite lookup_insert_ne by trivial. intros Hkey.
    destruct (Hself key Hkey) as (Hc & Hw & Hp).
    repeat split; trivial.
    destruct (decide (name = types.name key)) as [<- | Hne'].
    + rewrite lookup_insert_eq. eauto.
    + rewrite lookup_insert_ne by trivial. trivial.
Qed.

Lemma register_all_well_formed calls (self : TypeExtenser) :
  bindings_well_formed self -> bindings_well_formed (register_all calls self).
Proof.
  revert self. induction calls as [|[[[name type] cd] cu] calls IH];
    intros self Hself; [exact Hself|].
  apply IH. apply register_keeps_bindings_well_formed. exact Hself.
Qed.

Lemma register_all_frame calls (self : TypeExtenser) :
  self_name (register_all calls self) = self_name self
  /\ wrapped_corn_properties (register_all calls self)
     = wrapped_corn_properties self
  /\ converters (register_all calls self) = converters self.
Proof.
  revert self. induction calls as [|[[[name type] cd] cu] calls IH];
    intros self; [auto|].
  change (register_all ((name, type, cd, cu) :: calls) self)
    with (register_all calls (fst (register name type cd cu self))).
  destruct (IH (fst (register name type cd cu self))) as (-> & -> & ->).
  apply register_fst_frame.
Qed.

Section AfterInit.
Context {interpreter : Interpreter} {builtins : Builtins}.

(** X19. From [__init__] on, after any sequence of calls of [register],
    failed ones included, every key of the binding table carries the
    decorator's name and names a property that the wrapped source has and
    that the decorator declares; the registry is still the one that
    [__init__] built. *)
Theorem X19_bindings_stay_well_formed name (wrapped own : gmap string Type_)
    type_converters (calls : list call) :
  let self := __init__ name wrapped own type_converters in
  bindings_well_formed (register_all calls self)
  /\ converters (register_all calls self) = converters self
  /\ (forall key, is_Some (named_convertors (register_all calls self) !! key) ->
      types.corn key = name /\ is_Some (wrapped !! types.name key)).
Proof.
  cbv zeta.
  set (self := __init__ name wrapped own type_converters).
  assert (bindings_well_formed (register_all calls self)) as Hwf.
  { apply register_all_well_formed. intros key [c Hc]. simpl in Hc.
    rewrite lookup_empty in Hc. discriminate. }
  destruct (register_all_frame calls self) as (Hn & Hw & Hc).
  split; [exact Hwf|]. split; [exact Hc|].
  intros key Hkey. destruct (Hwf key Hkey) as (Hcorn & Hwrapped & _).
  rewrite Hn in Hcorn. rewrite Hw in Hwrapped. auto.
Qed.

Lemma default_converters_builtin t :
  In t builtin_types -> is_Some (default_converters !! t).
Proof.
  intros Ht. simpl in Ht.
  repeat (destruct Ht as [<- | Ht]; [eexists; reflexivity|]).
  contradiction.
Qed.

Lemma init_converters name wrapped props type_converters t :
  converters (__init__ name wrapped props type_converters) !! t
  = match type_converters with
    | Some overrides =>
        match overrides !! t with
        | Some f => Some f
        | None => default_converters !! t
        end
    | None => default_converters !! t
    end.
Proof.
  unfold __init__. simpl.
  destruct type_converters as [overrides|]; [|reflexivity].
  destruct (bool_decide (overrides = ∅)) eqn:E.
  - apply bool_decide_eq_true in E. subst. rewrite lookup_empty. reflexivity.
  - rewrite lookup_union. destruct (overrides !! t), (default_converters !! t);
      reflexivity.
Qed.

(** X20. On a decorator fresh from [__init__], [register] without custom
    converters succeeds for every property of the wrapped source as soon
    as its type there and the type asked for are among the ten types of
    the default table. The binding it makes is the only one in the table;
    each of its converters is the one that [type_converters] gives for
    the type when it has one, and the default one otherwise. *)
Theorem X20_register_after_init name (wrapped own : gmap string Type_)
    type_converters (property : string) (native : Type_) (type : pytype) :
  wrapped !! property = Some native ->
  In (types.type native) builtin_types ->
  In type builtin_types ->
  let self := __init__ name wrapped own type_converters in
  let chosen t :=
    match type_converters ≫= (.!! t) with
    | Some f => Some f
    | None => default_converters !! t
    end in
  exists self' d u,
    register property type None None self = (self', Ok tt)
    /\ named_convertors self'
       = {[ mk_Type name type property := mk_Converter d u ]}
    /\ chosen (types.type native) = Some d
    /\ chosen type = Some u.
Proof.
  intros Hnative Hn Ht. cbv zeta.
  set (self := __init__ name wrapped own type_converters).
  pose proof (init_converters name wrapped own type_converters) as Hconv.
  fold self in Hconv.
  destruct (default_converters_builtin _ Hn) as [dn Hdn].
  destruct (default_converters_builtin _ Ht) as [dt Hdt].
  assert (exists d, converters self !! types.type native = Some d) as [d Hd].
  { rewrite Hconv. destruct type_converters as [o|]; [|eauto].
    destruct (o !! _); eauto. }
  assert (exists u, converters self !! type = Some u) as [u Hu].
  { rewrite Hconv. destruct type_converters as [o|]; [|eauto].
    destruct (o !! _); eauto. }
  exists (bind self property type d u), d, u.
  rewrite register_unfold.
  split; [|split; [|split]].
  - change (wrapped_corn_properties self) with wrapped.
    rewrite Hnative. unfold resolve. rewrite Hd, Hu. reflexivity.
  - apply insert_empty.
  - rewrite <- Hd, Hconv. destruct type_converters as [o|]; reflexivity.
  - rewrite <- Hu, Hconv. destruct type_converters as [o|]; reflexivity.
Qed.

End AfterInit.

Lemma X16_register_frame_witness :
  exists self',
    register "born" t_datetime None None example_extenser = (self', Ok tt)
    /\ converters self' = converters example_extenser
    /\ properties self' !! "born" = Some (mk_Type "typed" t_datetime "born").
Proof.
  exists (fst (register "born" t_datetime None None example_extenser)).
  assert (register "born" t_datetime None None example_extenser
          = (fst (register "born" t_datetime None None example_extenser), Ok tt))
    as Hok by reflexivity.
  destruct (X16_register_frame _ _ _ _ _ _ _ Hok)
    as (_ & _ & Hc & _ & _ & _ & _ & Hp).
  split; [exact Hok|]. split; [exact Hc|].
  apply Hp. discriminate.
Defined.

Lemma X17_register_again_same_witness :
  exists self1,
    register "born" t_date None None example_extenser = (self1, Ok tt)
    /\ register "born" t_date None None self1 = (self1, Ok tt).
Proof.
  exists (fst (register "born" t_date None None example_extenser)).
  assert (register "born" t_date None None example_extenser
          = (fst (register "born" t_date None None example_extenser), Ok tt))
    as Hok by reflexivity.
  split; [exact Hok|].
  exact (X17_register_again_same _ _ _ _ _ _ Hok).
Defined.

Lemma X18_register_commutes_witness :
  fst (register "age" t_int None None
         (fst (register "born" t_date None None example_extenser)))
  = fst (register "born" t_date None None
           (fst (register "age" t_int None None example_extenser)))
  /\ snd (register "age" t_int None None
            (fst (register "born" t_date None None example_extenser)))
     = Raise not_found.
Proof.
  destruct (X18_register_commutes "born" t_date None None "age" t_int None None
              example_extenser ltac:(discriminate)) as (Hstate & Hsecond & _).
  split; [exact Hstate|].
  rewrite Hsecond. reflexivity.
Defined.

Lemma X20_register_after_init_witness :
  exists self' d u,
    register "born" t_date None None
      (@__init__ latin1_interpreter ascii_builtins "typed"
         (wrapped_corn_properties example_extenser) ∅
         (Some {[ t_date := fun value => Ok value ]}))
    = (self', Ok tt)
    /\ named_convertors self'
       = {[ mk_Type "typed" t_date "born" := mk_Converter d u ]}
    /\ u = (fun value => Ok value)
    /\ d = (fun value => @to_unicode latin1_interpreter value "utf-8").
Proof.
  assert (wrapped_corn_properties example_extenser !! "born"
          = Some (mk_Type "people" t_unicode "born")) as Hnative by reflexivity.
  assert (In t_unicode builtin_types) as Hn by (simpl; tauto).
  assert (In t_date builtin_types) as Ht by (simpl; tauto).
  destruct (@X20_register_after_init latin1_interpreter ascii_builtins "typed"
              (wrapped_corn_properties example_extenser) ∅
              (Some {[ t_date := fun value => Ok value ]})
              "born" (mk_Type "people" t_unicode "born") t_date Hnative Hn Ht)
    as (self' & d & u & Hok & Htable & Hd & Hu).
  exists self', d, u.
  split; [exact Hok|]. split; [exact Htable|].
  split; [injection Hu as <- | injection Hd as <-]; reflexivity.
Defined.

(** ** [jsonparser.parse] *)

Lemma pop_default_spec (key : string) (dflt : jsonparser.json)
    (config : gmap text jsonparser.json) :
  jsonparser.pop_default key dflt config
  = (default dflt (config !! codes key), delete (codes key) config).
Proof.
  unfold jsonparser.pop_default.
  destruct (config !! codes key) eqn:E; [reflexivity|].
  rewrite delete_id by exact E. reflexivity.
Qed.

Lemma pop_parser_spec (config : gmap text jsonparser.json) :
  (if bool_decide (is_Some (config !! codes "parser"))
   then jsonparser.pop "parser" config
   else Ok (jsonparser.JNull, config))
  = Ok (default jsonparser.JNull (config !! codes "parser"),
        delete (codes "parser") config).
Proof.
  unfold jsonparser.pop.
  destruct (config !! codes "parser") eqn:E.
  - rewrite bool_decide_eq_true_2 by eauto. reflexivity.
  - rewrite bool_decide_eq_false_2 by (intros [? ?]; discriminate).
    rewrite delete_id by exact E. reflexivity.
Qed.

Lemma contains_text_lookup {V} (d : gmap text V) (key : text) :
  contains d key = match d !! key with Some _ => true | None => false end.
Proof.
  unfold contains. destruct (d !! key) eqn:E.
  - apply bool_decide_eq_true. eauto.
  - apply bool_decide_eq_false. intros [? ?]. discriminate.
Qed.

Lemma pop_unfold (key : string) (config : gmap text jsonparser.json) :
  jsonparser.pop key config
  = match config !! codes key with
    | Some v => Ok (v, delete (codes key) config)
    | None => Raise (KeyError_name key)
    end.
Proof. reflexivity. Qed.

Ltac other_key := rewrite lookup_delete_ne by (vm_compute; discriminate).

(** The loop body on a dictionary, in one piece. *)
Lemma parse_one_dict (basedir : string) (d : gmap text jsonparser.json) :
  jsonparser.parse_one basedir (jsonparser.JDict d)
  = match d !! codes "url", d !! codes "name", d !! codes "properties" with
    | None, _, _ => Raise (KeyError_name "url")
    | Some _, None, _ => Raise (KeyError_name "name")
    | Some _, Some _, None => Raise (KeyError_name "properties")
    | Some url, Some name, Some properties =>
        Ok (jsonparser.mk_Config url name properties (left_over d)
              (default jsonparser.JNull (d !! codes "parser")) basedir
              (default (jsonparser.JBool false) (d !! codes "debug"))
              (default jsonparser.JNull (d !! codes "label_attr")))
    end.
Proof.
  unfold jsonparser.parse_one. rewrite (pop_unfold "url").
  destruct (d !! codes "url") as [url|] eqn:Hurl; [|reflexivity].
  cbn [mbind result_bind]. rewrite (pop_unfold "name"). repeat other_key.
  destruct (d !! codes "name") as [name|] eqn:Hname; [|reflexivity].
  cbn [mbind result_bind]. rewrite pop_parser_spec.
  cbn [mbind result_bind]. rewrite (pop_unfold "properties"). repeat other_key.
  destruct (d !! codes "properties") as [properties|] eqn:Hprops; [|reflexivity].
  cbn [mbind result_bind]. rewrite !pop_default_spec.
  repeat other_key. f_equal. f_equal.
  unfold left_over. cbn [foldr jsonparser.taken fmap list_fmap].
  apply map_eq. intros k. rewrite !lookup_delete.
  repeat case_decide; reflexivity.
Qed.

Lemma left_over_lookup (d : gmap text jsonparser.json) (k : text) :
  left_over d !! k = if bool_decide (k ∈ jsonparser.taken) then None else d !! k.
Proof.
  unfold left_over. cbn [foldr jsonparser.taken fmap list_fmap].
  rewrite !lookup_delete.
  case_bool_decide as Hin.
  - repeat case_decide; trivial. exfalso.
    apply list_elem_of_In in Hin. simpl in Hin. intuition congruence.
  - repeat case_decide; trivial; exfalso; apply Hin; subst k;
      apply list_elem_of_In; simpl; tauto.
Qed.

Lemma parse_one_ok (basedir : string) (el : jsonparser.json)
    (c : jsonparser.Config) :
  jsonparser.parse_one basedir el = Ok c <->
  exists d, el = jsonparser.JDict d /\ config_of basedir d c.
Proof.
  split.
  - destruct el as [| | | | | |d]; try discriminate.
    rewrite parse_one_dict.
    destruct (d !! codes "url") eqn:Hu; [|discriminate].
    destruct (d !! codes "name") eqn:Hn; [|discriminate].
    destruct (d !! codes "properties") eqn:Hp; [|discriminate].
    intros [= <-]. exists d. split; [reflexivity|].
    unfold config_of. simpl. rewrite Hu, Hn, Hp. repeat split; reflexivity.
  - intros (d & -> & Hu & Hn & Hp & Hparser & Hdebug & Hlabel & Hbase & Hrest).
    rewrite parse_one_dict, Hu, Hn, Hp.
    destruct c. simpl in *. subst. reflexivity.
Qed.

(** X21. The loop body on a dictionary that has the three required keys
    makes the configuration with their values; with the value of
    ["parser"] and of ["label_attr"], [None] when absent, and of
    ["debug"], [False] when absent; with the directory given; and with
    what is left of the dictionary, which is every entry under a key that
    is not one of these six. On anything else it makes none. *)
Theorem X21_parse_one_configuration (basedir : string) (el : jsonparser.json)
    (c : jsonparser.Config) :
  jsonparser.parse_one basedir el = Ok c <->
  exists d,
    el = jsonparser.JDict d
    /\ d !! codes "url" = Some (jsonparser.url c)
    /\ d !! codes "name" = Some (jsonparser.name c)
    /\ d !! codes "properties" = Some (jsonparser.properties c)
    /\ jsonparser.parser c = default jsonparser.JNull (d !! codes "parser")
    /\ jsonparser.debug c
       = default (jsonparser.JBool false) (d !! codes "debug")
    /\ jsonparser.label_attr c
       = default jsonparser.JNull (d !! codes "label_attr")
    /\ jsonparser.basedir c = basedir
    /\ forall k, jsonparser.config c !! k
                 = if bool_decide (k ∈ jsonparser.taken) then None else d !! k.
Proof.
  rewrite parse_one_ok. unfold config_of.
  split; intros (d & -> & Hu & Hn & Hp & Hparser & Hdebug & Hlabel & Hbase & Hrest);
    exists d; repeat split; trivial.
  - intros k. rewrite Hrest. apply left_over_lookup.
  - apply map_eq. intros k. rewrite Hrest, left_over_lookup. reflexivity.
Qed.

(** X22. On a dictionary the loop body fails exactly when one of the
    required keys is missing, and the [KeyError] names the first one
    missing in the order "url", "name", "properties", whatever else the
    dictionary has. *)
Theorem X22_parse_one_first_missing_key (basedir : string)
    (d : gmap text jsonparser.json) (e : exn) :
  jsonparser.parse_one basedir (jsonparser.JDict d) = Raise e <->
  exists key, first_missing d = Some key /\ e = KeyError_name key.
Proof.
  rewrite parse_one_dict. unfold first_missing, jsonparser.required.
  cbn [find]. rewrite !contains_text_lookup.
  destruct (d !! codes "url"); cbn [negb];
    [destruct (d !! codes "name"); cbn [negb];
     [destruct (d !! codes "properties"); cbn [negb]|]|];
    split; try discriminate;
    try (intros [= <-]; eauto);
    try (intros (key & [= <-] & ->); reflexivity);
    intros (key & ? & _); discriminate.
Qed.

Lemma parse_each_ok (basedir : string) (l : list jsonparser.json)
    (cs : list jsonparser.Config) :
  jsonparser.parse_each basedir l = Ok cs <->
  Forall2 (fun el c => jsonparser.parse_one basedir el = Ok c) l cs.
Proof.
  revert cs. induction l as [|el l IH]; intros cs; cbn.
  - split; [intros [= <-]; constructor | intros ->%Forall2_nil_inv_l; reflexivity].
  - split.
    + destruct (jsonparser.parse_one basedir el) as [c|e] eqn:E; [|discriminate].
      cbn. destruct (jsonparser.parse_each basedir l) as [cs'|e'] eqn:El;
        [|discriminate].
      cbn. intros [= <-]. constructor; [exact E|]. apply IH. reflexivity.
    + intros (c & cs' & Hc & Hrest & ->)%Forall2_cons_inv_l.
      rewrite Hc. cbn. apply IH in Hrest. rewrite Hrest. reflexivity.
Qed.

Lemma parse_each_raises (basedir : string) (l : list jsonparser.json)
    (e : exn) :
  jsonparser.parse_each basedir l = Raise e <->
  exists before el after,
    l = before ++ el :: after
    /\ Forall (fun x => exists c, jsonparser.parse_one basedir x = Ok c) before
    /\ jsonparser.parse_one basedir el = Raise e.
Proof.
  induction l as [|el l IH]; cbn.
  - split; [discriminate|]. intros (before & x & after & Hl & _).
    destruct before; discriminate.
  - split.
    + destruct (jsonparser.parse_one basedir el) as [c|e1] eqn:E; cbn.
      * destruct (jsonparser.parse_each basedir l) as [cs'|e'] eqn:El;
          [discriminate|].
        cbn. intros [= <-].
        destruct (proj1 IH eq_refl) as (before & x & after & -> & Hbefore & Hx).
        exists (el :: before), x, after. repeat split; trivial.
        constructor; eauto.
      * intros [= <-]. exists [], el, l. repeat split; trivial.
    + intros (before & x & after & Hl & Hbefore & Hx).
      destruct before as [|b before]; cbn in Hl; injection Hl as <- ->.
      * rewrite Hx. reflexivity.
      * apply Forall_cons in Hbefore as [[c Hc] Hbefore].
        rewrite Hc. cbn.
        assert (jsonparser.parse_each basedir (before ++ x :: after) = Raise e)
          as -> by (apply IH; eauto 10).
        reflexivity.
Qed.

(** X23. On a list, [parse] returns one configuration for each element,
    in the order of the list, each made by the loop body with the
    directory of the file name; it fails when the loop body fails on an
    element, with the error of the first such element. *)
Theorem X23_parse_list (config_filename : string) (l : list jsonparser.json) :
  (forall cs,
     jsonparser.parse config_filename (jsonparser.JList l) = Ok cs <->
     Forall2 (fun el c =>
                jsonparser.parse_one (jsonparser.dirname config_filename) el
                = Ok c) l cs)
  /\ (forall cs,
        jsonparser.parse config_filename (jsonparser.JList l) = Ok cs ->
        length cs = length l
        /\ Forall (fun c => jsonparser.basedir c
                            = jsonparser.dirname config_filename) cs)
  /\ (forall e,
        jsonparser.parse config_filename (jsonparser.JList l) = Raise e <->
        exists before el after,
          l = before ++ el :: after
          /\ Forall (fun x => exists c,
                       jsonparser.parse_one
                         (jsonparser.dirname config_filename) x = Ok c) before
          /\ jsonparser.parse_one (jsonparser.dirname config_filename) el
             = Raise e).
Proof.
  unfold jsonparser.parse. cbn [jsonparser.iterate mbind result_bind].
  split; [|split].
  - intros cs. apply parse_each_ok.
  - intros cs Hcs%parse_each_ok. split.
    + symmetry. eapply Forall2_length. exact Hcs.
    + induction Hcs as [|el c l' cs' Hc _ IH]; constructor; [|exact IH].
      apply parse_one_ok in Hc as (d & _ & Hc). apply Hc.
  - intros e. apply parse_each_raises.
Qed.

(** X24. What is not a list: [parse] returns the empty list for the
    empty dictionary and the empty string, fails with the missing method
    [pop] on any other dictionary or string, whose elements are strings,
    and fails on a number, a boolean and [null], which cannot be iterated
    over. The same missing method, or the integer index that the [pop] of
    lists wants, stops it on a list at the first element that is not a
    dictionary. *)
Theorem X24_parse_other_documents (config_filename : string) (j : jsonparser.json) :
  jsonparser.parse config_filename j
  = match j with
    | jsonparser.JList l =>
        jsonparser.parse_each (jsonparser.dirname config_filename) l
    | jsonparser.JDict d =>
        if bool_decide (d = ∅) then Ok []
        else Raise (OtherError "AttributeError" "pop")
    | jsonparser.JStr s =>
        match s with
        | [] => Ok []
        | _ :: _ => Raise (OtherError "AttributeError" "pop")
        end
    | _ => Raise (TypeError "object is not iterable")
    end
  /\ (forall el e,
        (forall d, el <> jsonparser.JDict d) ->
        jsonparser.parse_one (jsonparser.dirname config_filename) el = Raise e ->
        e = TypeError "an integer is required"
        \/ e = OtherError "AttributeError" "pop").
Proof.
  split.
  - unfold jsonparser.parse, jsonparser.iterate.
    destruct j as [| | | |s|l|d]; try reflexivity.
    + destruct s; reflexivity.
    + cbn [mbind result_bind]. case_bool_decide as Hd.
      * subst d. rewrite map_to_list_empty. reflexivity.
      * destruct (map_to_list d) as [|kv rest] eqn:E; [|reflexivity].
        apply map_to_list_empty_iff in E. contradiction.
  - intros el e Hel.
    destruct el as [| | | | | |d]; [..|exfalso; eapply Hel; reflexivity];
      cbn; intros [= <-]; auto.
Qed.

Lemma drop_until_slash_app (l1 l2 : list ascii) :
  "/"%char ∉ l1 ->
  jsonparser.drop_until_slash (l1 ++ "/"%char :: l2) = "/"%char :: l2.
Proof.
  induction l1 as [|c l1 IH]; intros Hl1; [reflexivity|].
  cbn. destruct (Ascii.eqb_spec c "/") as [-> | Hc].
  - exfalso. apply Hl1. left.
  - apply IH. intros Hin. apply Hl1. right. exact Hin.
Qed.

Lemma drop_until_slash_none (l : list ascii) :
  "/"%char ∉ l -> jsonparser.drop_until_slash l = [].
Proof.
  induction l as [|c l IH]; intros Hl; [reflexivity|].
  cbn. destruct (Ascii.eqb_spec c "/") as [-> | Hc].
  - exfalso. apply Hl. left.
  - apply IH. intros Hin. apply Hl. right. exact Hin.
Qed.

Lemma not_elem_of_rev {A} (x : A) (l : list A) : x ∉ l -> x ∉ rev l.
Proof.
  intros Hl Hin. apply Hl.
  apply list_elem_of_In, in_rev. apply list_elem_of_In. exact Hin.
Qed.

Lemma list_ascii_of_string_app (a b : string) :
  list_ascii_of_string (a ++ b)
  = list_ascii_of_string a ++ list_ascii_of_string b.
Proof. induction a as [|c a IH]; [reflexivity|]. simpl. f_equal. exact IH. Qed.

(** X25. The directory that [parse] hands to every configuration: for a
    file name without a slash it is the empty string, and for
    [dir/file], where [file] has no slash and [dir] does not end with
    one, it is [dir]. *)
Theorem X25_parse_basedir (file : string) (j : jsonparser.json)
    (cs : list jsonparser.Config) :
  "/"%char ∉ list_ascii_of_string file ->
  (jsonparser.parse file j = Ok cs ->
   Forall (fun c => jsonparser.basedir c = ""%string) cs)
  /\ (forall (dir : string) (last : ascii),
        last <> "/"%char ->
        jsonparser.parse (dir ++ String last (String "/" file)) j = Ok cs ->
        Forall (fun c => jsonparser.basedir c = (dir ++ String last "")%string)
               cs).
Proof.
  intros Hfile.
  assert (forall name,
            jsonparser.parse name j = Ok cs ->
            Forall (fun c => jsonparser.basedir c = jsonparser.dirname name) cs)
    as Hbase.
  { intros name. unfold jsonparser.parse.
    destruct (jsonparser.iterate j) as [l|]; [|discriminate].
    cbn [mbind result_bind]. intros Hcs%parse_each_ok.
    induction Hcs as [|el c l' cs' Hc _ IH]; constructor; [|exact IH].
    apply parse_one_ok in Hc as (d & _ & Hc). apply Hc. }
  split.
  - intros Hcs. apply Hbase in Hcs.
    replace (jsonparser.dirname file) with ""%string in Hcs; [exact Hcs|].
    unfold jsonparser.dirname.
    rewrite drop_until_slash_none; [reflexivity|].
    apply not_elem_of_rev. exact Hfile.
  - intros dir last Hlast Hcs. apply Hbase in Hcs.
    replace (jsonparser.dirname (dir ++ String last (String "/" file)))
      with (dir ++ String last "")%string in Hcs; [exact Hcs|].
    unfold jsonparser.dirname.
    rewrite list_ascii_of_string_app. cbn [list_ascii_of_string].
    rewrite rev_app_distr. cbn [rev]. rewrite <- !app_assoc. cbn [app].
    rewrite drop_until_slash_app by (apply not_elem_of_rev; exact Hfile).
    cbn [jsonparser.drop_slashes]. rewrite Ascii.eqb_refl.
    cbn [jsonparser.drop_slashes].
    destruct (Ascii.eqb_spec last "/") as [-> | _]; [contradiction|].
    change (last :: rev (list_ascii_of_string dir))
      with (rev (list_ascii_of_string (String last "")) ++ rev (list_ascii_of_string dir)).
    rewrite <- rev_app_distr, rev_involutive, <- list_ascii_of_string_app.
    symmetry. apply string_of_list_ascii_of_string.
Qed.

Lemma X25_parse_basedir_witness :
  jsonparser.parse "etc/kalamar/sites.json" example_document = Ok example_configs
  /\ Forall (fun c => jsonparser.basedir c = "etc/kalamar"%string)
            example_configs.
Proof.
  assert ("/"%char ∉ list_ascii_of_string "sites.json") as Hfile.
  { intros Hin. apply list_elem_of_In in Hin. simpl in Hin.
    repeat (destruct Hin as [Hin | Hin]; [discriminate|]). exact Hin. }
  assert (jsonparser.parse "etc/kalamar/sites.json" example_document
          = Ok example_configs) as Hparse by (vm_compute; reflexivity).
  split; [exact Hparse|].
  exact (proj2 (X25_parse_basedir "sites.json" example_document
                  example_configs Hfile)
           "etc/kalama" "r"%char ltac:(discriminate) Hparse).
Defined.

(** ** The strings that [to_datetime] reads as a date and a time of day *)

Lemma any_group_reads_as_number d m :
  matches (directive_regex d) m -> reads_as_number m = true.
Proof. destruct d; apply words_forall; vm_compute; reflexivity. Qed.

Lemma group_length d m :
  matches (directive_regex d) m ->
  (1 <= length m <= match d with dY => 4 | _ => 2 end)%nat
  /\ (d = dY -> length m = 4%nat).
Proof.
  intros Hm.
  assert (group_length_ok d m = true) as Hl.
  { revert Hm. destruct d; apply (words_forall (group_length_ok _));
      vm_compute; reflexivity. }
  unfold group_length_ok in Hl.
  apply andb_true_iff in Hl as [Hl H4]. apply andb_true_iff in Hl as [H1 H2].
  apply Nat.leb_le in H1, H2. split; [lia|].
  intros ->. apply Nat.eqb_eq in H4. exact H4.
Qed.

Lemma group_of_two_digits d m :
  d <> dY -> matches (directive_regex d) m ->
  length m = 2%nat -> forallb is_digit m = true ->
  pad 2 (number_of m) = m.
Proof.
  intros Hd Hm Hlen Hdigits.
  assert (two_digits_canonical m = true) as Hp.
  { revert Hm. destruct d; [contradiction|..];
      apply (words_forall two_digits_canonical); vm_compute; reflexivity. }
  unfold two_digits_canonical in Hp. rewrite Hlen, Hdigits in Hp. cbn in Hp.
  apply bool_decide_eq_true in Hp. exact Hp.
Qed.

Lemma year_of_four_digits m :
  matches (directive_regex dY) m -> pad 4 (number_of m) = m.
Proof.
  intros Hm. eapply bool_decide_eq_true_1.
  revert Hm.
  apply (words_forall (fun m => text_eqb (pad 4 (number_of m)) m)).
  vm_compute. reflexivity.
Qed.

Lemma first_match_YmdHMS_shape t found rest :
  first_match fmt_YmdHMS t = Some (found, rest) ->
  exists Y M D h mi S,
    found = [(dY, Y); (dm, M); (dd, D); (dH, h); (dM, mi); (dS, S)]
    /\ t = Y ++ M ++ D ++ h ++ mi ++ S ++ rest
    /\ matches (directive_regex dY) Y /\ matches (directive_regex dm) M
    /\ matches (directive_regex dd) D /\ matches (directive_regex dH) h
    /\ matches (directive_regex dM) mi /\ matches (directive_regex dS) S.
Proof.
  intros Hm. apply match_directives_sound in Hm
    as (found' & rest' & -> & Hfor & [= <- <-]).
  inversion Hfor as [|? Y ? f1 HY H1]; subst.
  inversion H1 as [|? M ? f2 HM H2]; subst.
  inversion H2 as [|? D ? f3 HD H3]; subst.
  inversion H3 as [|? h ? f4 Hh H4]; subst.
  inversion H4 as [|? mi ? f5 Hmi H5]; subst.
  inversion H5 as [|? S ? f6 HS H6]; subst.
  inversion H6; subst.
  exists Y, M, D, h, mi, S. simpl. rewrite app_nil_r, <- !app_assoc. auto 10.
Qed.

Lemma datetime_of_inv y m d H M S dt :
  datetime_of y m d H M S = Ok dt ->
  valid_date y m d /\ valid_time H M S
  /\ dt = mk_datetime (mk_date y m d) H M S 0 None.
Proof.
  unfold datetime_of.
  destruct (date_of y m d) as [dte|] eqn:Hd; [|discriminate].
  apply date_of_ok in Hd as [Hv ->]. cbn [mbind result_bind].
  unfold valid_time.
  destruct (0 <=? H) eqn:E1, (H <=? 23) eqn:E2, (0 <=? M) eqn:E3,
           (M <=? 59) eqn:E4, (0 <=? S) eqn:E5, (S <=? 59) eqn:E6;
    simpl; try discriminate.
  intros [= <-]. split; [exact Hv|]. split; [lia | reflexivity].
Qed.

(** What [strptime] accepted for [%Y%m%d%H%M%S] is cut into six groups,
    one for each directive, that stand for a date and a time of day. *)
Lemma strptime_YmdHMS_sound k t dt :
  strptime k t fmt_YmdHMS = Ok dt ->
  exists Y M D h mi S,
    t = Y ++ M ++ D ++ h ++ mi ++ S
    /\ matches (directive_regex dY) Y /\ matches (directive_regex dm) M
    /\ matches (directive_regex dd) D /\ matches (directive_regex dH) h
    /\ matches (directive_regex dM) mi /\ matches (directive_regex dS) S
    /\ valid_date (number_of Y) (number_of M) (number_of D)
    /\ valid_time (number_of h) (number_of mi) (number_of S)
    /\ dt = mk_datetime (mk_date (number_of Y) (number_of M) (number_of D))
              (number_of h) (number_of mi) (number_of S) 0 None.
Proof.
  unfold strptime.
  destruct (as_c_string_cases k t) as [-> | [-> | ->]]; try discriminate.
  cbn [mbind result_bind].
  destruct (first_match fmt_YmdHMS t) as [[found rest]|] eqn:Hfirst; [|discriminate].
  destruct rest; [|discriminate].
  destruct (first_match_YmdHMS_shape _ _ _ Hfirst)
    as (Y & M & D & h & mi & S & -> & Ht & HY & HM & HD & Hh & Hmi & HS).
  rewrite app_nil_r in Ht.
  pose proof (any_group_reads_as_number _ _ HY) as RY.
  pose proof (any_group_reads_as_number _ _ HM) as RM.
  pose proof (any_group_reads_as_number _ _ HD) as RD.
  pose proof (any_group_reads_as_number _ _ Hh) as Rh.
  pose proof (any_group_reads_as_number _ _ Hmi) as Rmi.
  pose proof (any_group_reads_as_number _ _ HS) as RS.
  apply reads_as_number_spec in RY as (RY & _), RM as (RM & _), RD as (RD & _),
      Rh as (Rh & _), Rmi as (Rmi & _), RS as (RS & _).
  cbn [read_fields]. rewrite RY, RM, RD, Rh, Rmi, RS. cbn.
  destruct (date_of _ _ _) as [dte|]; [|discriminate]. cbn.
  intros (Hdate & Htime & ->)%datetime_of_inv.
  exists Y, M, D, h, mi, S. auto 12.
Qed.

Section NaiveStrings.
Context {interpreter : Interpreter}.

(** X26. [to_datetime] on a string that leaves fourteen characters: what
    it accepts is cut into a year of four digits and a month, a day, an
    hour, a minute and a second of two characters each, which stand for a
    date of the calendar and a time of day, and these are the fields of
    the naive datetime returned. When the fourteen characters are digits
    this is the only way in: the string is accepted exactly when it is
    the YYYYMMDDHHMMSS of a date and a time of day. *)
Theorem X26_to_datetime_fourteen_characters (k : text_kind) (s : text)
    (dt : datetime) :
  length (datetime_digits s) = 14%nat ->
  (to_datetime (VText k s) = Ok (VDateTime dt) ->
   exists Y M D h mi S,
     datetime_digits s = Y ++ M ++ D ++ h ++ mi ++ S
     /\ length Y = 4%nat /\ length M = 2%nat /\ length D = 2%nat
     /\ length h = 2%nat /\ length mi = 2%nat /\ length S = 2%nat
     /\ valid_date (number_of Y) (number_of M) (number_of D)
     /\ valid_time (number_of h) (number_of mi) (number_of S)
     /\ dt = mk_datetime (mk_date (number_of Y) (number_of M) (number_of D))
               (number_of h) (number_of mi) (number_of S) 0 None)
  /\ (forallb is_digit (datetime_digits s) = true ->
      (to_datetime (VText k s) = Ok (VDateTime dt)
       <-> exists y m d H M S,
             valid_date y m d /\ valid_time H M S
             /\ datetime_digits s = fourteen_digits y m d H M S
             /\ dt = mk_datetime (mk_date y m d) H M S 0 None)).
Proof.
  intros Hlen.
  assert (to_datetime (VText k s)
          = VDateTime <$> strptime k (datetime_digits s) fmt_YmdHMS) as Hto.
  { unfold to_datetime. fold (datetime_digits s). cbv zeta.
    rewrite Hlen. reflexivity. }
  assert (to_datetime (VText k s) = Ok (VDateTime dt) ->
          exists Y M D h mi S,
            datetime_digits s = Y ++ M ++ D ++ h ++ mi ++ S
            /\ (matches (directive_regex dY) Y /\ matches (directive_regex dm) M
                /\ matches (directive_regex dd) D /\ matches (directive_regex dH) h
                /\ matches (directive_regex dM) mi /\ matches (directive_regex dS) S)
            /\ (length Y = 4 /\ length M = 2 /\ length D = 2
                /\ length h = 2 /\ length mi = 2 /\ length S = 2)%nat
            /\ valid_date (number_of Y) (number_of M) (number_of D)
            /\ valid_time (number_of h) (number_of mi) (number_of S)
            /\ dt = mk_datetime (mk_date (number_of Y) (number_of M) (number_of D))
                      (number_of h) (number_of mi) (number_of S) 0 None)
    as Hsound.
  { rewrite Hto.
    destruct (strptime k (datetime_digits s) fmt_YmdHMS) as [dt'|] eqn:E;
      [|discriminate].
    intros [= ->].
    destruct (strptime_YmdHMS_sound _ _ _ E)
      as (Y & M & D & h & mi & S & Ht & HY & HM & HD & Hh & Hmi & HS
          & Hdate & Htime & ->).
    exists Y, M, D, h, mi, S.
    split; [exact Ht|]. split; [auto 10|]. split; [|auto].
    destruct (group_length _ _ HY) as [_ LY]. specialize (LY eq_refl).
    destruct (group_length _ _ HM) as [LM _], (group_length _ _ HD) as [LD _],
             (group_length _ _ Hh) as [Lh _], (group_length _ _ Hmi) as [Lmi _],
             (group_length _ _ HS) as [LS _].
    rewrite Ht, !length_app in Hlen. unfold text in *. lia. }
  split.
  - intros Hok. destruct (Hsound Hok)
      as (Y & M & D & h & mi & S & Ht & _ & (? & ? & ? & ? & ? & ?) & ? & ? & ?).
    exists Y, M, D, h, mi, S. auto 12.
  - intros Hdigits. split.
    + intros Hok. destruct (Hsound Hok)
        as (Y & M & D & h & mi & S & Ht
            & (HY & HM & HD & Hh & Hmi & HS)
            & (LY & LM & LD & Lh & Lmi & LS) & Hdate & Htime & ->).
      rewrite Ht, !forallb_app in Hdigits.
      repeat (apply andb_true_iff in Hdigits as [? Hdigits]).
      exists (number_of Y), (number_of M), (number_of D),
             (number_of h), (number_of mi), (number_of S).
      split; [exact Hdate|]. split; [exact Htime|]. split; [|reflexivity].
      unfold fourteen_digits.
      rewrite (year_of_four_digits Y HY).
      rewrite (group_of_two_digits dm M), (group_of_two_digits dd D),
        (group_of_two_digits dH h), (group_of_two_digits dM mi),
        (group_of_two_digits dS S); trivial; discriminate.
    + intros (y & m & d & H & M & S & Hdate & Htime & Ht & ->).
      rewrite Hto, Ht, strptime_fourteen_digits by trivial. reflexivity.
Qed.

End NaiveStrings.

Lemma X26_to_datetime_fourteen_characters_witness :
  @to_datetime latin1_interpreter (str "2010-08- 4T20:34:31")
  = Ok (VDateTime (mk_datetime (mk_date 2010 8 4) 20 34 31 0 None))
  /\ exists Y M D h mi S,
       datetime_digits (codes "2010-08- 4T20:34:31")
       = Y ++ M ++ D ++ h ++ mi ++ S
       /\ length D = 2%nat /\ number_of D = 4.
Proof.
  assert (@to_datetime latin1_interpreter (str "2010-08- 4T20:34:31")
          = Ok (VDateTime (mk_datetime (mk_date 2010 8 4) 20 34 31 0 None)))
    as Hok by (vm_compute; reflexivity).
  split; [exact Hok|].
  destruct (proj1 (@X26_to_datetime_fourteen_characters latin1_interpreter KStr
                     (codes "2010-08- 4T20:34:31") _ eq_refl) Hok)
    as (Y & M & D & h & mi & S & Ht & LY & LM & LD & _ & _ & _ & _ & _ & Hdt).
  exists Y, M, D, h, mi, S.
  split; [exact Ht|]. split; [exact LD|].
  injection Hdt as _ _ HD _ _ _. symmetry. exact HD.
Defined.

(** ** When [FixedOffsetTimeZone] is built *)

(** X27. [FixedOffsetTimeZone(h, m)] is built exactly when the offset is
    within the range of [timedelta], less than a thousand million days
    either way, and raises [OverflowError] otherwise; two zones have the
    same offset exactly when they are as many minutes from UTC, whatever
    their names. *)
Theorem X27_fixed_offset_time_zone_built (h m : Z) :
  ((exists tz, FixedOffsetTimeZone h m = Ok tz)
   <-> -999999999 * 86400 <= 3600 * h + 60 * m < 1000000000 * 86400)
  /\ (forall e, FixedOffsetTimeZone h m = Raise e ->
        e = OverflowError "days; must have magnitude <= 999999999")
  /\ (forall h' m' tz tz',
        FixedOffsetTimeZone h m = Ok tz ->
        FixedOffsetTimeZone h' m' = Ok tz' ->
        (utcoffset tz VNone = utcoffset tz' VNone <-> 60 * h + m = 60 * h' + m')).
Proof.
  unfold FixedOffsetTimeZone, timedelta_of. cbv zeta.
  split; [|split].
  - destruct (_ && _)%bool eqn:E; cbn.
    + apply andb_true_iff in E as [E1 E2].
      apply Z.leb_le in E1, E2.
      split; [intros _ | eauto].
      Z.to_euclidean_division_equations. lia.
    + split; [intros [tz [=]]|].
      intros Hr. exfalso.
      apply andb_false_iff in E as [E | E]; apply Z.leb_gt in E;
        Z.to_euclidean_division_equations; lia.
  - intros e. destruct (_ && _)%bool; cbn; [discriminate|].
    intros [= <-]. reflexivity.
  - intros h' m' tz tz'.
    destruct (_ && _)%bool; cbn; [|discriminate]. intros [= <-].
    destruct (_ && _)%bool; cbn; [|discriminate]. intros [= <-].
    unfold utcoffset. cbn. split.
    + intros [= Hd Hs]. Z.to_euclidean_division_equations. lia.
    + intros Heq.
      replace (h' * 3600 + m' * 60) with (h * 3600 + m * 60) by lia.
      reflexivity.
Qed.
